(** * pumpia: the DICOM object model of [pumpia.file_handling.dicom_structures]

    A shallow embedding of the classes [Patient], [Study], [Series] and
    [Instance].  Python objects live in a store indexed by object
    references; methods are state transformers that either return, raise a
    Python exception, or exhaust the call-depth budget.  The collaborators
    the module imports (pydicom, numpy, the tag resolver of
    [pumpia.file_handling.dicom_tags] and the base classes of
    [pumpia.image_handling.image_structures]) are the fields of the class
    [Externals] or variables of the section that uses them. *)

From Stdlib Require Import ZArith List String Bool Lia DecimalString QArith.
From Stdlib Require Import Sorting.Permutation Sorting.Sorted.
Import ListNotations.
Open Scope string_scope.
Open Scope Z_scope.

Set Implicit Arguments.
Set Warnings "-register-all".

(** ** Python values *)

(** File locations ([pathlib.Path]). *)
Definition Path := string.

(** The tag identifiers of [DicomTags] that the module reads. *)
Inductive Tag :=
| SamplesPerPixel
| RescaleSlope
| RescaleIntercept
| PhotometricInterpretation
| WindowWidth
| WindowCenter
| PixelSpacing
| SliceThickness
| OtherTag (keyword : string).

(** The exceptions the module raises, catches or lets through. *)
Inductive exn :=
| KeyError
| IndexError
| TypeError
| ValueError
| FileNotFoundError
| InvalidDicomError
| NotImplementedError
| AttributeError
| OtherError (name : string).

(** A Python number: [int] or [float] over the float type [F]. *)
Inductive number (F : Type) :=
| PyInt (z : Z)
| PyFloat (x : F).
Arguments PyInt {F} z.
Arguments PyFloat {F} x.

(** The value of a data element: [None], a number, a [str], or a
    multi-valued element. *)
Inductive value (F : Type) :=
| VNone
| VNum (n : number F)
| VStr (s : string)
| VSeq (items : list (value F)).
Arguments VNone {F}.
Arguments VNum {F} n.
Arguments VStr {F} s.
Arguments VSeq {F} items.

(** A numpy array: nested axes over numeric samples. *)
Inductive ndarray (F : Type) :=
| Scalar (x : number F)
| Axis (items : list (ndarray F)).
Arguments Scalar {F} x.
Arguments Axis {F} items.

(** [str(n)] for an [int]. *)
Definition str_of_int (n : Z) : string := NilZero.string_of_int (Z.to_int n).

(** [str(x)] for [x : int | None]. *)
Definition str_of_optint (x : option Z) : string :=
  match x with
  | Some n => str_of_int n
  | None => "None"
  end.

(** [l[k]] on a Python sequence: negative indices count from the end;
    [None] stands for [IndexError]. *)
Definition py_index {A : Type} (l : list A) (k : Z) : option A :=
  let len := Z.of_nat (List.length l) in
  if 0 <=? k then nth_error l (Z.to_nat k)
  else if - len <=? k then nth_error l (Z.to_nat (len + k))
  else None.

(** ** External collaborators *)

Class Externals := {
  (** Python's [float] and its arithmetic *)
  float : Type;
  float_of_int : Z -> float;
  fadd : float -> float -> float;
  fsub : float -> float -> float;
  fmul : float -> float -> float;
  fdiv : float -> float -> float;
  feqb : float -> float -> bool;
  (** [float(s)] for a [str]; [None] stands for [ValueError] *)
  parse_float : string -> option float;
  (** [hash(s)] for a [str] *)
  hash_str : string -> Z;
  (** [pydicom.Dataset] *)
  Dataset : Type;
  (** [pydicom.dcmread(path)] *)
  dcmread : Path -> exn + Dataset;
  (** [get_tag(dataset, tag[, frame]).value] of [pumpia.file_handling.dicom_tags] *)
  get_tag : Dataset -> Tag -> option Z -> exn + value float;
  (** [dataset.pixel_array] *)
  pixel_array : Dataset -> exn + ndarray float;
  (** [convert_color_space(arr, current, 'RGB')] *)
  convert_color_space : ndarray float -> string -> exn + ndarray float;
  (** numpy's [arr * seq] ([true]) and [arr + seq] ([false]) for a
      multi-valued operand, decided by broadcasting *)
  np_broadcast : bool -> ndarray float -> list (value float) -> exn + ndarray float
}.

(** ** Patient and Study *)

Record Patient := mkPatient {
  patient_id : string;
  name : string
}.

Record Study := mkStudy {
  patient : Patient;
  study_id : string;
  study_date : Z;
  study_description : string
}.

(** The [value: object] argument of the [__eq__] methods; [ObjSeries] and
    [ObjInstance] carry a reference into the store. *)
Inductive object :=
| ObjPatient (p : Patient)
| ObjStudy (s : Study)
| ObjSeries (ref : nat)
| ObjInstance (ref : nat)
| ObjStr (s : string)
| ObjInt (z : Z)
| ObjOther.

Section Hierarchy.
Context {E : Externals}.

(** [Patient.id_string] *)
Definition Patient_id_string (self : Patient) : string :=
  "DICOM : " ++ patient_id self.

(** [Patient.__hash__] *)
Definition Patient_hash (self : Patient) : Z :=
  hash_str (Patient_id_string self).

(** [Patient.__eq__] *)
Definition Patient_eq (self : Patient) (value : object) : bool :=
  match value with
  | ObjPatient other => String.eqb (patient_id self) (patient_id other)
  | ObjStr s => String.eqb (Patient_id_string self) s
  | ObjInt z => Patient_hash self =? z
  | _ => false
  end.

(** [Patient.__str__] *)
Definition Patient_str (self : Patient) : string :=
  patient_id self ++ ": " ++ name self.

(** [Patient.tag] *)
Definition Patient_tag (self : Patient) : string :=
  "PT" ++ Patient_id_string self.

(** [Study.id_string] *)
Definition Study_id_string (self : Study) : string :=
  Patient_id_string (patient self) ++ " : " ++ study_id self.

(** [Study.__hash__] *)
Definition Study_hash (self : Study) : Z :=
  hash_str (Study_id_string self).

(** [Study.__eq__] *)
Definition Study_eq (self : Study) (value : object) : bool :=
  match value with
  | ObjStudy other => String.eqb (study_id self) (study_id other)
  | ObjStr s => String.eqb (Study_id_string self) s
  | ObjInt z => Study_hash self =? z
  | _ => false
  end.

(** [Study.tag] *)
Definition Study_tag (self : Study) : string :=
  "ST" ++ Study_id_string self.

End Hierarchy.

(** ** Numbers, values and arrays *)

Section Values.
Context {E : Externals}.

(** [float(n)] for a number. *)
Definition to_float (n : number float) : float :=
  match n with
  | PyInt z => float_of_int z
  | PyFloat x => x
  end.

(** [a + b], [a - b] and [a * b] on numbers: [int] stays [int],
    anything else is computed in [float]. *)
Definition num_add (a b : number float) : number float :=
  match a, b with
  | PyInt x, PyInt y => PyInt (x + y)
  | _, _ => PyFloat (fadd (to_float a) (to_float b))
  end.

Definition num_sub (a b : number float) : number float :=
  match a, b with
  | PyInt x, PyInt y => PyInt (x - y)
  | _, _ => PyFloat (fsub (to_float a) (to_float b))
  end.

Definition num_mul (a b : number float) : number float :=
  match a, b with
  | PyInt x, PyInt y => PyInt (x * y)
  | _, _ => PyFloat (fmul (to_float a) (to_float b))
  end.

(** [n / 2]: true division, always a [float]. *)
Definition num_half (n : number float) : number float :=
  PyFloat (fdiv (to_float n) (float_of_int 2)).

(** [v / 2] on a tag value; anything but a number is a [TypeError]. *)
Definition py_half (v : value float) : exn + value float :=
  match v with
  | VNum n => inr (VNum (num_half n))
  | _ => inl TypeError
  end.

(** [a + b] and [a - b] where [b] is a number; a non-numeric [a] is a
    [TypeError]. *)
Definition py_add (a b : value float) : exn + value float :=
  match a, b with
  | VNum x, VNum y => inr (VNum (num_add x y))
  | _, _ => inl TypeError
  end.

Definition py_sub (a b : value float) : exn + value float :=
  match a, b with
  | VNum x, VNum y => inr (VNum (num_sub x y))
  | _, _ => inl TypeError
  end.

(** [float(v)] for [v] that is not [None]. *)
Definition py_float (v : value float) : exn + value float :=
  match v with
  | VNum n => inr (VNum (PyFloat (to_float n)))
  | VStr s =>
      match parse_float s with
      | Some x => inr (VNum (PyFloat x))
      | None => inl ValueError
      end
  | _ => inl TypeError
  end.

(** [v == k] for an [int] literal [k]. *)
Definition value_eq_int (v : value float) (k : Z) : bool :=
  match v with
  | VNum (PyInt z) => z =? k
  | VNum (PyFloat x) => feqb x (float_of_int k)
  | _ => false
  end.

(** [v is None] *)
Definition is_None (v : value float) : bool :=
  match v with
  | VNone => true
  | _ => false
  end.

(** [v[k]]: a multi-valued element or a string can be subscripted, a
    number cannot ([TypeError]). *)
Definition py_getitem (v : value float) (k : Z) : exn + value float :=
  match v with
  | VSeq l =>
      match py_index l k with
      | Some x => inr x
      | None => inl IndexError
      end
  | VStr s =>
      match py_index (list_ascii_of_string s) k with
      | Some c => inr (VStr (String c EmptyString))
      | None => inl IndexError
      end
  | _ => inl TypeError
  end.

(** Elementwise map over an array. *)
Fixpoint nd_map (f : number float -> number float) (a : ndarray float)
  : ndarray float :=
  match a with
  | Scalar x => Scalar (f x)
  | Axis l => Axis (map (nd_map f) l)
  end.

(** [arr.shape], read along the first item of every axis. *)
Fixpoint nd_shape (a : ndarray float) : list Z :=
  match a with
  | Scalar _ => []
  | Axis l =>
      Z.of_nat (List.length l) ::
      match l with
      | [] => []
      | x :: _ => nd_shape x
      end
  end.

(** [np.astype(arr, float)] *)
Definition astype_float (a : ndarray float) : ndarray float :=
  nd_map (fun x => PyFloat (to_float x)) a.

(** [arr[k]] along the first axis. *)
Definition nd_index (a : ndarray float) (k : Z) : exn + ndarray float :=
  match a with
  | Scalar _ => inl IndexError
  | Axis l =>
      match py_index l k with
      | Some x => inr x
      | None => inl IndexError
      end
  end.

(** [arr * v] and [arr + v] for a tag value [v]. *)
Definition np_mul (a : ndarray float) (v : value float) : exn + ndarray float :=
  match v with
  | VNum n => inr (nd_map (fun x => num_mul x n) a)
  | VSeq l => np_broadcast true a l
  | _ => inl TypeError
  end.

Definition np_add (a : ndarray float) (v : value float) : exn + ndarray float :=
  match v with
  | VNum n => inr (nd_map (fun x => num_add x n) a)
  | VSeq l => np_broadcast false a l
  | _ => inl TypeError
  end.

(** The items of an array along its first axis. *)
Definition nd_items (a : ndarray float) : list (ndarray float) :=
  match a with
  | Scalar _ => []
  | Axis l => l
  end.

Definition is_axis (a : ndarray float) : bool :=
  match a with
  | Scalar _ => false
  | Axis _ => true
  end.

Definition shape_eqb (s t : list Z) : bool :=
  (List.length s =? List.length t)%nat && forallb (fun p => fst p =? snd p) (combine s t).

(** [np.concatenate(arrs)] along the first axis: a [ValueError] for an
    empty list, for a zero-dimensional array, and for arrays whose
    remaining axes differ. *)
Definition np_concatenate (arrs : list (ndarray float)) : exn + ndarray float :=
  match arrs with
  | [] => inl ValueError
  | a :: _ =>
      if forallb (fun b => is_axis b && shape_eqb (tl (nd_shape a)) (tl (nd_shape b))) arrs
      then inr (Axis (flat_map nd_items arrs))
      else inl ValueError
  end.

(** [np.zeros((1, 1, 1))] *)
Definition np_zeros_1_1_1 : ndarray float :=
  Axis [Axis [Axis [Scalar (PyFloat (float_of_int 0))]]].

(** [np.array([a])] *)
Definition np_array_1 (a : ndarray float) : ndarray float := Axis [a].

(** The [(slice_count, height, width)] prefix of [arr.shape]; an axis the
    array does not have counts 0. *)
Definition shape3 (s : list Z) : Z * Z * Z :=
  (nth 0 s 0, nth 1 s 0, nth 2 s 0).

End Values.

(** ** The object store *)

Section Store.
Context {E : Externals}.

(** The state of a [Series] object: its own attributes and those it
    inherits from [ImageCollection] ([shape], [is_multisample], [is_rgb],
    [current_slice]).  [s_image_set] lists the references held by the
    Python set [_image_set], in iteration order. *)
Record SeriesObj := mkSeries {
  s_study : Study;
  series_id : string;
  series_number : Z;
  acquisition_number : Z;
  series_description : string;
  is_stack : bool;
  s_filepath : option Path;
  s_loaded : bool;
  s_dicom : option Dataset;
  s_shape : Z * Z * Z;
  s_is_multisample : bool;
  s_is_rgb : bool;
  s_current_slice : Z;
  s_image_set : list nat
}.

(** The state of an [Instance] object: its own attributes and those it
    inherits from [FileImageSet] ([shape], [filepath], [is_multisample],
    [is_rgb]).  [i_series] is the reference [self.series]. *)
Record InstanceObj := mkInstance {
  i_series : nat;
  instance_number : Z;
  is_frame : bool;
  frame_number : option Z;
  dimension_index_values : option (list Z);
  i_loaded : bool;
  i_dicom : option Dataset;
  i_shape : Z * Z * Z;
  i_filepath : Path;
  i_is_multisample : bool;
  i_is_rgb : bool
}.

Definition set_s_loaded (b : bool) (S : SeriesObj) : SeriesObj :=
  mkSeries (s_study S) (series_id S) (series_number S) (acquisition_number S)
    (series_description S) (is_stack S) (s_filepath S) b (s_dicom S)
    (s_shape S) (s_is_multisample S) (s_is_rgb S) (s_current_slice S)
    (s_image_set S).

Definition set_s_dicom (d : option Dataset) (S : SeriesObj) : SeriesObj :=
  mkSeries (s_study S) (series_id S) (series_number S) (acquisition_number S)
    (series_description S) (is_stack S) (s_filepath S) (s_loaded S) d
    (s_shape S) (s_is_multisample S) (s_is_rgb S) (s_current_slice S)
    (s_image_set S).

Definition set_s_image_set (l : list nat) (S : SeriesObj) : SeriesObj :=
  mkSeries (s_study S) (series_id S) (series_number S) (acquisition_number S)
    (series_description S) (is_stack S) (s_filepath S) (s_loaded S) (s_dicom S)
    (s_shape S) (s_is_multisample S) (s_is_rgb S) (s_current_slice S) l.

Definition set_s_shape (sh : Z * Z * Z) (S : SeriesObj) : SeriesObj :=
  mkSeries (s_study S) (series_id S) (series_number S) (acquisition_number S)
    (series_description S) (is_stack S) (s_filepath S) (s_loaded S) (s_dicom S)
    sh (s_is_multisample S) (s_is_rgb S) (s_current_slice S) (s_image_set S).

Definition set_s_is_multisample (b : bool) (S : SeriesObj) : SeriesObj :=
  mkSeries (s_study S) (series_id S) (series_number S) (acquisition_number S)
    (series_description S) (is_stack S) (s_filepath S) (s_loaded S) (s_dicom S)
    (s_shape S) b (s_is_rgb S) (s_current_slice S) (s_image_set S).

Definition set_s_is_rgb (b : bool) (S : SeriesObj) : SeriesObj :=
  mkSeries (s_study S) (series_id S) (series_number S) (acquisition_number S)
    (series_description S) (is_stack S) (s_filepath S) (s_loaded S) (s_dicom S)
    (s_shape S) (s_is_multisample S) b (s_current_slice S) (s_image_set S).

Definition set_i_loaded (b : bool) (I : InstanceObj) : InstanceObj :=
  mkInstance (i_series I) (instance_number I) (is_frame I) (frame_number I)
    (dimension_index_values I) b (i_dicom I) (i_shape I) (i_filepath I)
    (i_is_multisample I) (i_is_rgb I).

Definition set_i_dicom (d : option Dataset) (I : InstanceObj) : InstanceObj :=
  mkInstance (i_series I) (instance_number I) (is_frame I) (frame_number I)
    (dimension_index_values I) (i_loaded I) d (i_shape I) (i_filepath I)
    (i_is_multisample I) (i_is_rgb I).

(** The store: every reference denotes an object. *)
Record World := mkWorld {
  series_at : nat -> SeriesObj;
  instance_at : nat -> InstanceObj
}.

Definition upd {A : Type} (f : nat -> A) (k : nat) (v : A) : nat -> A :=
  fun x => if Nat.eqb x k then v else f x.

Definition set_series (w : World) (r : nat) (S : SeriesObj) : World :=
  mkWorld (upd (series_at w) r S) (instance_at w).

Definition set_instance (w : World) (r : nat) (I : InstanceObj) : World :=
  mkWorld (series_at w) (upd (instance_at w) r I).

(** ** Computations *)

(** The outcome of a call: a result, a raised exception (both with the
    store they leave behind), or a call chain deeper than the budget. *)
Inductive res (A : Type) :=
| Ok (a : A) (w : World)
| Raise (e : exn) (w : World)
| Diverge.
Arguments Raise {A} e w.
Arguments Diverge {A}.

Definition M (A : Type) := World -> res A.

Definition ret {A : Type} (a : A) : M A := fun w => Ok a w.

Definition raise {A : Type} (e : exn) : M A := fun w => Raise e w.

Definition bind {A B : Type} (m : M A) (k : A -> M B) : M B :=
  fun w =>
    match m w with
    | Ok a w' => k a w'
    | Raise e w' => Raise e w'
    | Diverge => Diverge
    end.

(** The result of a collaborator, raised if it is an exception. *)
Definition lift {A : Type} (r : exn + A) : M A :=
  match r with
  | inl e => raise e
  | inr a => ret a
  end.

(** [try: m  except ...: h e]: [handler e = None] when no clause matches. *)
Definition try_except {A : Type} (m : M A) (handler : exn -> option (M A)) : M A :=
  fun w =>
    match m w with
    | Raise e w' =>
        match handler e with
        | Some h => h w'
        | None => Raise e w'
        end
    | r => r
    end.

Definition read_series (r : nat) : M SeriesObj := fun w => Ok (series_at w r) w.

Definition read_instance (r : nat) : M InstanceObj := fun w => Ok (instance_at w r) w.

Definition modify_series (r : nat) (f : SeriesObj -> SeriesObj) : M unit :=
  fun w => Ok tt (set_series w r (f (series_at w r))).

Definition modify_instance (r : nat) (f : InstanceObj -> InstanceObj) : M unit :=
  fun w => Ok tt (set_instance w r (f (instance_at w r))).

End Store.

Arguments Ok {E A} a w.
Arguments Raise {E A} e w.
Arguments Diverge {E A}.

Declare Scope py_scope.
Delimit Scope py_scope with py.
Notation "x <- c1 ;; c2" := (bind c1 (fun x => c2))
  (at level 61, c1 at next level, right associativity) : py_scope.
Notation "c1 ;; c2" := (bind c1 (fun _ => c2))
  (at level 61, right associativity) : py_scope.
Open Scope py_scope.

(** ** Series and Instance *)

Section Methods.
Context {E : Externals}.

Definition read {A : Type} (f : World -> A) : M A := fun w => Ok (f w) w.

(** [for x in l: body(x)] *)
Fixpoint for_each {B : Type} (l : list B) (body : B -> M unit) : M unit :=
  match l with
  | [] => ret tt
  | x :: l' => body x ;; for_each l' body
  end.

(** [[f(x) for x in l]] *)
Fixpoint map_M {B C : Type} (f : B -> M C) (l : list B) : M (list C) :=
  match l with
  | [] => ret []
  | x :: l' => y <- f x ;; ys <- map_M f l' ;; ret (y :: ys)
  end.

(** [sorted(l, key=key)]: a stable sort. *)
Fixpoint insert_by (key : nat -> Z) (x : nat) (l : list nat) : list nat :=
  match l with
  | [] => [x]
  | y :: l' => if key x <=? key y then x :: l else y :: insert_by key x l'
  end.

Definition sorted_by (key : nat -> Z) (l : list nat) : list nat :=
  fold_right (insert_by key) [] l.

(** Modelled from the spec: [ImageCollection.num_slices], the base-class
    property that [Series] inherits; the spec gives
    shape = (slice_count, height, width) and calls the first component the
    slice count. *)
Definition num_slices (S : SeriesObj) : Z := fst (fst (s_shape S)).

(** [shape[1]] and [shape[2]] *)
Definition height (sh : Z * Z * Z) : Z := snd (fst sh).
Definition width (sh : Z * Z * Z) : Z := snd sh.

(** [Instance.sort_value] *)
Definition Instance_sort_value (I : InstanceObj) : Z :=
  match is_frame I, frame_number I with
  | true, Some n => n
  | _, _ => instance_number I
  end.

(** [Series.instances] *)
Definition Series_instances (w : World) (self : nat) : list nat :=
  sorted_by (fun i => Instance_sort_value (instance_at w i))
            (s_image_set (series_at w self)).

(** [Series.filepath]; [current_image] is [instances[current_slice]]. *)
Definition Series_filepath (self : nat) : M (option Path) :=
  S <- read_series self ;;
  match s_filepath S with
  | None =>
      insts <- read (fun w => Series_instances w self) ;;
      match py_index insts (s_current_slice S) with
      | Some i => I <- read_instance i ;; ret (Some (i_filepath I))
      | None => raise IndexError
      end
  | Some p => ret (Some p)
  end.

(** [Series.id_string] *)
Definition Series_id_string (S : SeriesObj) : string :=
  Study_id_string (s_study S) ++ " : " ++ series_id S ++ "-"
  ++ str_of_int (acquisition_number S).

(** [Series.__str__] *)
Definition Series_str (S : SeriesObj) : string :=
  str_of_int (series_number S) ++ "-" ++ str_of_int (acquisition_number S)
  ++ ":" ++ series_description S.

(** [Instance.__str__] *)
Definition Instance_str (I : InstanceObj) : string :=
  if is_frame I then str_of_optint (frame_number I)
  else str_of_int (instance_number I).

(** [Instance.id_string] *)
Definition Instance_id_string (w : World) (self : nat) : string :=
  let I := instance_at w self in
  Series_id_string (series_at w (i_series I)) ++ " : " ++ Instance_str I.

(** Modelled from the spec: the [__hash__] of the base classes
    [ImageCollection] and [FileImageSet], to which [Series.__hash__] and
    [Instance.__hash__] defer; the spec keys the child sets by identity and
    gives the identity of a node as its identity string. *)
Definition ImageCollection_hash (w : World) (self : nat) : Z :=
  hash_str (Series_id_string (series_at w self)).

Definition FileImageSet_hash (w : World) (self : nat) : Z :=
  hash_str (Instance_id_string w self).

(** [Series.__eq__] *)
Definition Series_eq (w : World) (self : nat) (value : object) : bool :=
  match value with
  | ObjSeries other => ImageCollection_hash w self =? ImageCollection_hash w other
  | ObjInt z => ImageCollection_hash w self =? z
  | ObjStr s => String.eqb (Series_id_string (series_at w self)) s
  | _ => false
  end.

(** [Instance.__eq__] *)
Definition Instance_eq (w : World) (self : nat) (value : object) : bool :=
  match value with
  | ObjInstance other => FileImageSet_hash w self =? FileImageSet_hash w other
  | ObjInt z => FileImageSet_hash w self =? z
  | ObjStr s => String.eqb (Instance_id_string w self) s
  | _ => false
  end.

(** [set.add] on [_image_set]: an element equal to one already present
    (same hash, then [Instance.__eq__]) is not added again.  The list
    holds the content of the set; the place of a new element in it stands
    for an iteration order that Python leaves open, and [Series.instances]
    sorts the content before any use. *)
Definition set_add (w : World) (x : nat) (l : list nat) : list nat :=
  if existsb (fun y => (FileImageSet_hash w y =? FileImageSet_hash w x)
                       && Instance_eq w y (ObjInstance x)) l
  then l else (l ++ [x])%list.

(** [Series.add_instance] *)
Definition Series_add_instance (self instance : nat) : M unit :=
  S <- read_series self ;;
  I <- read_instance instance ;;
  if (num_slices S =? 0)
     || ((height (s_shape S) =? height (i_shape I))
         && (width (s_shape S) =? width (i_shape I))
         && Bool.eqb (s_is_multisample S) (i_is_multisample I)
         && Bool.eqb (s_is_rgb S) (i_is_rgb I))
  then
    w <- read (fun w => w) ;;
    modify_series self (set_s_image_set (set_add w instance (s_image_set S))) ;;
    S' <- read_series self ;;
    modify_series self
      (set_s_shape (Z.of_nat (List.length (s_image_set S')),
                    height (i_shape I), width (i_shape I))) ;;
    modify_series self (set_s_is_multisample (i_is_multisample I)) ;;
    modify_series self (set_s_is_rgb (i_is_rgb I))
  else raise ValueError.

(** Modelled from the spec: the shape kept by the base constructor
    [ImageCollection.__init__(shape, is_multisample, is_rgb)], which the
    spec gives as (slice_count, height, width): the samples axis of a
    multi-sample array is not part of it, and an array without a slice
    axis counts one slice. *)
Definition ImageCollection_shape (shape : list Z) (is_multisample : bool)
  : Z * Z * Z :=
  let axes := if is_multisample then removelast shape else shape in
  match axes with
  | [h; w] => (1, h, w)
  | _ => shape3 axes
  end.

(** [Series.__init__]; the base constructor keeps the shape
    [ImageCollection_shape] and the two flags, and starts at slice 0. *)
Definition Series_init (study : Study) (series_id : string)
    (series_number acquisition_number : Z) (series_description : string)
    (is_stack : bool) (open_dicom : option Dataset) (filepath : option Path)
  : exn + SeriesObj :=
  let new sh multi :=
    mkSeries study series_id series_number acquisition_number
      series_description is_stack filepath false None sh multi multi 0 [] in
  if is_stack then
    match filepath with
    | None => inl FileNotFoundError
    | Some p =>
        match (match open_dicom with
               | None => dcmread p
               | Some d => inr d
               end) with
        | inl e => inl e
        | inr d =>
            match get_tag d SamplesPerPixel None with
            | inl e => inl e
            | inr spp =>
                match pixel_array d with
                | inl e => inl e
                | inr arr =>
                    let multi := negb (value_eq_int spp 1) in
                    inr (new (ImageCollection_shape (nd_shape arr) multi) multi)
                end
            end
        end
    end
  else inr (new (ImageCollection_shape [0; 0; 0] false) false).

(** The methods that call one another, at the call depth that is left. *)
Record Methods := mkMethods {
  call_Series_load : nat -> M unit;
  call_Series_unload : nat -> M unit;
  call_Series_dicom_dataset : nat -> M (option Dataset);
  call_Series_get_tag : nat -> Tag -> Z -> M (value float);
  call_Series_raw_array : nat -> M (ndarray float);
  call_Series_array : nat -> M (ndarray float);
  call_Instance_load : nat -> M unit;
  call_Instance_unload : nat -> M unit;
  call_Instance_dicom_dataset : nat -> M (option Dataset);
  call_Instance_get_tag : nat -> Tag -> M (value float);
  call_Instance_raw_array : nat -> M (ndarray float);
  call_Instance_array : nat -> M (ndarray float)
}.

(** [Series.load] *)
Definition Series_load (py : Methods) (self : nat) : M unit :=
  S <- read_series self ;;
  if negb (s_loaded S) then
    (if is_stack S then
       fp <- Series_filepath self ;;
       match fp with
       | None => raise FileNotFoundError
       | Some p =>
           ds <- lift (dcmread p) ;;
           modify_series self (set_s_dicom (Some ds)) ;;
           insts <- read (fun w => Series_instances w self) ;;
           for_each insts (fun i => modify_instance i (set_i_loaded true))
       end
     else
       insts <- read (fun w => Series_instances w self) ;;
       for_each insts (fun i => call_Instance_load py i)) ;;
    modify_series self (set_s_loaded true)
  else ret tt.

(** [Series.unload] *)
Definition Series_unload (py : Methods) (self : nat) : M unit :=
  S <- read_series self ;;
  if s_loaded S then
    (if is_stack S then
       modify_series self (set_s_dicom None) ;;
       insts <- read (fun w => Series_instances w self) ;;
       for_each insts (fun i => modify_instance i (set_i_loaded false))
     else
       insts <- read (fun w => Series_instances w self) ;;
       for_each insts (fun i => call_Instance_unload py i)) ;;
    modify_series self (set_s_loaded false)
  else ret tt.

(** [Instance.load] *)
Definition Instance_load (py : Methods) (self : nat) : M unit :=
  I <- read_instance self ;;
  if negb (i_loaded I) then
    (if is_frame I then call_Series_load py (i_series I)
     else
       ds <- lift (dcmread (i_filepath I)) ;;
       modify_instance self (set_i_dicom (Some ds))) ;;
    modify_instance self (set_i_loaded true)
  else ret tt.

(** [Instance.unload] *)
Definition Instance_unload (py : Methods) (self : nat) : M unit :=
  I <- read_instance self ;;
  if i_loaded I then
    (if is_frame I then call_Series_unload py (i_series I)
     else modify_instance self (set_i_dicom None)) ;;
    modify_instance self (set_i_loaded false)
  else ret tt.

(** [Series.dicom_dataset] *)
Definition Series_dicom_dataset (py : Methods) (self : nat) : M (option Dataset) :=
  S0 <- read_series self ;;
  let load_stat := s_loaded S0 in
  (if negb load_stat then call_Series_load py self else ret tt) ;;
  S <- read_series self ;;
  dcm <- (if is_stack S then ret (s_dicom S)
          else
            insts <- read (fun w => Series_instances w self) ;;
            match py_index insts (s_current_slice S) with
            | Some i => call_Instance_dicom_dataset py i
            | None => raise IndexError
            end) ;;
  (if negb load_stat then call_Series_unload py self else ret tt) ;;
  ret dcm.

(** [Instance.dicom_dataset] *)
Definition Instance_dicom_dataset (py : Methods) (self : nat) : M (option Dataset) :=
  I0 <- read_instance self ;;
  let load_stat := i_loaded I0 in
  (if negb load_stat then call_Instance_load py self else ret tt) ;;
  I <- read_instance self ;;
  dcm <- (if is_frame I then call_Series_dicom_dataset py (i_series I)
          else ret (i_dicom I)) ;;
  (if negb load_stat then call_Instance_unload py self else ret tt) ;;
  ret dcm.

(** [Instance.get_tag] *)
Definition Instance_get_tag (py : Methods) (self : nat) (tag : Tag) : M (value float) :=
  I0 <- read_instance self ;;
  let load_stat := i_loaded I0 in
  (if negb load_stat then call_Instance_load py self else ret tt) ;;
  I <- read_instance self ;;
  v <- match is_frame I, frame_number I with
       | true, Some n =>
           dataset <- call_Series_dicom_dataset py (i_series I) ;;
           match dataset with
           | Some ds => lift (get_tag ds tag (Some n))
           | None => ret VNone
           end
       | _, _ =>
           dataset <- call_Instance_dicom_dataset py self ;;
           match dataset with
           | Some ds => lift (get_tag ds tag None)
           | None => ret VNone
           end
       end ;;
  (if negb load_stat then call_Instance_unload py self else ret tt) ;;
  ret v.

(** [Series.get_tag] *)
Definition Series_get_tag (py : Methods) (self : nat) (tag : Tag)
    (instance_number : Z) : M (value float) :=
  S <- read_series self ;;
  if instance_number <? num_slices S then
    insts <- read (fun w => Series_instances w self) ;;
    match py_index insts instance_number with
    | Some i => call_Instance_get_tag py i tag
    | None => raise IndexError
    end
  else raise IndexError.

(** [Series.get_tags] *)
Definition Series_get_tags (py : Methods) (self : nat) (tag : Tag)
  : M (list (value float)) :=
  S0 <- read_series self ;;
  let load_stat := s_loaded S0 in
  (if negb load_stat then call_Series_load py self else ret tt) ;;
  insts <- read (fun w => Series_instances w self) ;;
  values <- map_M (fun i => call_Instance_get_tag py i tag) insts ;;
  (if negb load_stat then call_Series_unload py self else ret tt) ;;
  ret values.

(** [if not self.loaded: self.load()], the opening of the array
    properties. *)
Definition Series_ensure_loaded (py : Methods) (self : nat) : M unit :=
  S <- read_series self ;;
  if negb (s_loaded S) then call_Series_load py self else ret tt.

Definition Instance_ensure_loaded (py : Methods) (self : nat) : M unit :=
  I <- read_instance self ;;
  if negb (i_loaded I) then call_Instance_load py self else ret tt.

(** [Series.raw_array] *)
Definition Series_raw_array (py : Methods) (self : nat) : M (ndarray float) :=
  Series_ensure_loaded py self ;;
  S <- read_series self ;;
  match is_stack S, s_dicom S with
  | true, Some ds => lift (pixel_array ds)
  | _, _ =>
      insts <- read (fun w => Series_instances w self) ;;
      arrs <- map_M (fun a => call_Instance_raw_array py a) insts ;;
      lift (np_concatenate arrs)
  end.

(** [Instance.raw_array] *)
Definition Instance_raw_array (py : Methods) (self : nat) : M (ndarray float) :=
  Instance_ensure_loaded py self ;;
  I <- read_instance self ;;
  match is_frame I, frame_number I with
  | true, Some n =>
      arr <- call_Series_raw_array py (i_series I) ;;
      frame <- lift (nd_index arr (n - 1)) ;;
      ret (np_array_1 frame)
  | _, _ =>
      match i_dicom I with
      | Some ds => arr <- lift (pixel_array ds) ;; ret (np_array_1 arr)
      | None => ret np_zeros_1_1_1
      end
  end.

(** The rescale step shared by [Series.array] and [Instance.array]:
    [raw_array * slope + intercept], or [raw_array] on a [KeyError]. *)
Definition rescaled (raw_array : ndarray float)
    (get : Tag -> M (value float)) : M (ndarray float) :=
  try_except
    (slope <- get RescaleSlope ;;
     intercept <- get RescaleIntercept ;;
     scaled <- lift (np_mul raw_array slope) ;;
     lift (np_add scaled intercept))
    (fun e => match e with
              | KeyError => Some (ret raw_array)
              | _ => None
              end).

(** The colour step shared by [Series.array] and [Instance.array]:
    conversion to RGB of a fresh [raw_array], or [raw_array] when the
    photometric interpretation is no string or a [KeyError] or
    [NotImplementedError] is raised. *)
Definition recoloured (raw_array : ndarray float)
    (get : Tag -> M (value float)) (fresh_raw : M (ndarray float))
  : M (ndarray float) :=
  try_except
    (photo_interp <- get PhotometricInterpretation ;;
     match photo_interp with
     | VStr s =>
         arr <- fresh_raw ;;
         rgb <- lift (convert_color_space arr s) ;;
         ret (astype_float rgb)
     | _ => ret raw_array
     end)
    (fun e => match e with
              | KeyError => Some (ret raw_array)
              | NotImplementedError => Some (ret raw_array)
              | _ => None
              end).

(** [Series.array] *)
Definition Series_array (py : Methods) (self : nat) : M (ndarray float) :=
  Series_ensure_loaded py self ;;
  S <- read_series self ;;
  if is_stack S then
    arr <- call_Series_raw_array py self ;;
    let raw_array := astype_float arr in
    spp <- call_Series_get_tag py self SamplesPerPixel 0 ;;
    if value_eq_int spp 1 then
      rescaled raw_array (fun tag => call_Series_get_tag py self tag 0)
    else
      recoloured raw_array (fun tag => call_Series_get_tag py self tag 0)
                 (call_Series_raw_array py self)
  else
    insts <- read (fun w => Series_instances w self) ;;
    arrs <- map_M (fun a => call_Instance_array py a) insts ;;
    lift (np_concatenate arrs).

(** [Instance.array] *)
Definition Instance_array (py : Methods) (self : nat) : M (ndarray float) :=
  Instance_ensure_loaded py self ;;
  I <- read_instance self ;;
  match is_frame I, frame_number I with
  | true, Some n =>
      arr <- call_Series_array py (i_series I) ;;
      frame <- lift (nd_index arr (n - 1)) ;;
      ret (np_array_1 frame)
  | _, _ =>
      arr <- call_Instance_raw_array py self ;;
      let raw_array := astype_float arr in
      spp <- call_Instance_get_tag py self SamplesPerPixel ;;
      if value_eq_int spp 1 then
        rescaled raw_array (fun tag => call_Instance_get_tag py self tag)
      else
        recoloured raw_array (fun tag => call_Instance_get_tag py self tag)
                   (call_Instance_raw_array py self)
  end.

(** A call with no depth left. *)
Definition no_depth : Methods :=
  mkMethods (fun _ _ => Diverge) (fun _ _ => Diverge) (fun _ _ => Diverge)
    (fun _ _ _ _ => Diverge) (fun _ _ => Diverge) (fun _ _ => Diverge)
    (fun _ _ => Diverge) (fun _ _ => Diverge) (fun _ _ => Diverge)
    (fun _ _ _ => Diverge) (fun _ _ => Diverge) (fun _ _ => Diverge).

(** One more level of calls on top of [py]. *)
Definition deeper (py : Methods) : Methods :=
  mkMethods (Series_load py) (Series_unload py) (Series_dicom_dataset py)
    (Series_get_tag py) (Series_raw_array py) (Series_array py)
    (Instance_load py) (Instance_unload py) (Instance_dicom_dataset py)
    (Instance_get_tag py) (Instance_raw_array py) (Instance_array py).

(** The methods with call chains of depth at most [depth]. *)
Fixpoint python (depth : nat) : Methods :=
  match depth with
  | O => no_depth
  | S d => deeper (python d)
  end.

(** ** Display defaults *)

(** The four window properties that [Series] and [Instance] override. *)
Inductive display := Vmax | Vmin | Window | Level.

(** [super().vmax], [super().vmin], [super().window] and [super().level]
    of the base classes [ImageCollection] and [FileImageSet]. *)
Variable ImageCollection_display : display -> nat -> M (value float).
Variable FileImageSet_display : display -> nat -> M (value float).

(** The body shared by [vmax] ([op] is [+]) and [vmin] ([op] is [-]). *)
Definition window_bound (op : value float -> value float -> exn + value float)
    (get : Tag -> M (value float)) (fallback : M (value float))
  : M (value float) :=
  try_except
    (window_width <- get WindowWidth ;;
     window_center <- get WindowCenter ;;
     if negb (is_None window_center) && negb (is_None window_width) then
       half <- lift (py_half window_width) ;;
       lift (op window_center half)
     else raise TypeError)
    (fun e => match e with
              | TypeError => Some fallback
              | KeyError => Some fallback
              | _ => None
              end).

(** [Series.vmax] *)
Definition Series_vmax (py : Methods) (self : nat) : M (value float) :=
  S <- read_series self ;;
  window_bound py_add
    (fun tag => call_Series_get_tag py self tag (s_current_slice S))
    (ImageCollection_display Vmax self).

(** [Series.vmin] *)
Definition Series_vmin (py : Methods) (self : nat) : M (value float) :=
  S <- read_series self ;;
  window_bound py_sub
    (fun tag => call_Series_get_tag py self tag (s_current_slice S))
    (ImageCollection_display Vmin self).

(** [Series.window] *)
Definition Series_window (py : Methods) (self : nat) : M (value float) :=
  S <- read_series self ;;
  try_except
    (window <- call_Series_get_tag py self WindowWidth (s_current_slice S) ;;
     if negb (is_None window) then lift (py_float window)
     else ImageCollection_display Window self)
    (fun e => match e with
              | KeyError => Some (ImageCollection_display Window self)
              | IndexError => Some (ImageCollection_display Window self)
              | TypeError => Some (ImageCollection_display Window self)
              | _ => None
              end).

(** [Series.level] *)
Definition Series_level (py : Methods) (self : nat) : M (value float) :=
  S <- read_series self ;;
  try_except
    (level <- call_Series_get_tag py self WindowCenter (s_current_slice S) ;;
     if negb (is_None level) then lift (py_float level)
     else ImageCollection_display Level self)
    (fun e => match e with
              | KeyError => Some (ImageCollection_display Level self)
              | IndexError => Some (ImageCollection_display Level self)
              | _ => None
              end).

(** [Instance.vmax] *)
Definition Instance_vmax (py : Methods) (self : nat) : M (value float) :=
  window_bound py_add (fun tag => call_Instance_get_tag py self tag)
    (FileImageSet_display Vmax self).

(** [Instance.vmin] *)
Definition Instance_vmin (py : Methods) (self : nat) : M (value float) :=
  window_bound py_sub (fun tag => call_Instance_get_tag py self tag)
    (FileImageSet_display Vmin self).

(** [Instance.window] *)
Definition Instance_window (py : Methods) (self : nat) : M (value float) :=
  try_except
    (call_Instance_get_tag py self WindowWidth)
    (fun e => match e with
              | KeyError => Some (FileImageSet_display Window self)
              | IndexError => Some (FileImageSet_display Window self)
              | _ => None
              end).

(** [Instance.level] *)
Definition Instance_level (py : Methods) (self : nat) : M (value float) :=
  try_except
    (call_Instance_get_tag py self WindowCenter)
    (fun e => match e with
              | KeyError => Some (FileImageSet_display Level self)
              | IndexError => Some (FileImageSet_display Level self)
              | _ => None
              end).

(** The body shared by [Series.pixel_size] and [Instance.pixel_size]; the
    result is the tuple (slice_thickness, row_spacing, column_spacing). *)
Definition pixel_size_of (get : Tag -> M (value float))
  : M (value float * value float * value float) :=
  let one := VNum (PyInt 1) in
  pixel_spacing <-
    try_except (get PixelSpacing)
      (fun e => match e with
                | KeyError => Some (ret (VSeq [one; one]))
                | _ => None
                end) ;;
  slice_thickness <-
    try_except (get SliceThickness)
      (fun e => match e with
                | KeyError => Some (ret one)
                | _ => None
                end) ;;
  let pixel_spacing := if is_None pixel_spacing then VSeq [one; one] else pixel_spacing in
  let slice_thickness := if is_None slice_thickness then one else slice_thickness in
  try_except
    (row_spacing <- lift (py_getitem pixel_spacing 0) ;;
     column_spacing <- lift (py_getitem pixel_spacing 1) ;;
     ret (slice_thickness, row_spacing, column_spacing))
    (fun e => match e with
              | TypeError => Some (ret (slice_thickness, one, one))
              | _ => None
              end).

(** [Series.pixel_size] *)
Definition Series_pixel_size (py : Methods) (self : nat)
  : M (value float * value float * value float) :=
  S <- read_series self ;;
  pixel_size_of (fun tag => call_Series_get_tag py self tag (s_current_slice S)).

(** [Instance.pixel_size] *)
Definition Instance_pixel_size (py : Methods) (self : nat)
  : M (value float * value float * value float) :=
  pixel_size_of (fun tag => call_Instance_get_tag py self tag).

End Methods.

Arguments python {E} depth.
Arguments Series_vmax {E} ImageCollection_display py self.
Arguments Series_vmin {E} ImageCollection_display py self.
Arguments Series_window {E} ImageCollection_display py self.
Arguments Series_level {E} ImageCollection_display py self.
Arguments Instance_vmax {E} FileImageSet_display py self.
Arguments Instance_vmin {E} FileImageSet_display py self.
Arguments Instance_window {E} FileImageSet_display py self.
Arguments Instance_level {E} FileImageSet_display py self.

(** ** The child sets of Patient and Study *)

Section Children.
Context {E : Externals}.

(** The order in which a Python set lists its content once an element has
    been added to it.  The language leaves it open: it follows the hashes
    and the history of the table, and an insertion may move elements that
    were there before.  The properties below hold for every such order. *)
Variable iteration_order : forall A : Type, list A -> list A.

(** [sorted(l, key=..., reverse=...)] for any element type: a stable
    sort; [before y x] says that the key of [y] orders strictly before
    the key of [x], so that [x] is placed behind [y]. *)
Fixpoint insert_sorted (A : Type) (before : A -> A -> bool) (x : A) (l : list A)
  : list A :=
  match l with
  | [] => [x]
  | y :: l' => if before y x then y :: insert_sorted before x l' else x :: l
  end.

Definition py_sorted (A : Type) (before : A -> A -> bool) (l : list A) : list A :=
  fold_right (insert_sorted before) [] l.

(** [set.add] on [_studies], whose content is listed in iteration order:
    a Study equal to one already present (same hash, then [Study.__eq__])
    leaves the set as it is; any other Study joins it. *)
Definition studies_add (x : Study) (l : list Study) : list Study :=
  if existsb (fun y => (Study_hash y =? Study_hash x) && Study_eq y (ObjStudy x)) l
  then l else iteration_order (l ++ [x])%list.

(** [Patient.add_study]; [_studies] is the attribute of the Patient, and
    the result its new content. *)
Definition Patient_add_study (_studies : list Study) (study : Study) : list Study :=
  studies_add study _studies.

(** [Patient.studies]: [sorted(self._studies, key=lambda x: x.study_date,
    reverse=True)] *)
Definition Patient_studies (_studies : list Study) : list Study :=
  py_sorted (fun y x => study_date x <? study_date y) _studies.

(** [a < b] on the tuples [(series_number, acquisition_number)] *)
Definition tuple_lt (a b : Z * Z) : bool :=
  (fst a <? fst b) || ((fst a =? fst b) && (snd a <? snd b)).

(** The sort key of [Study.series] *)
Definition series_key (w : World) (s : nat) : Z * Z :=
  (series_number (series_at w s), acquisition_number (series_at w s)).

(** [hash(series)] for the members of [_series].  [Series.__hash__] defers
    to the base class, which is not part of the sources: the set is read
    for any hash the base class may compute. *)
Variable Series_hash : World -> nat -> Z.

(** [Series.__eq__] on another Series, over that hash:
    [hash(self) == hash(value)] *)
Definition Series_eq_Series (w : World) (self other : nat) : bool :=
  Series_hash w self =? Series_hash w other.

(** [set.add] on [_series], whose content is listed in iteration order: a
    Series equal to one already present (same hash, then
    [Series.__eq__]) leaves the set as it is; any other Series joins
    it. *)
Definition series_add (w : World) (x : nat) (l : list nat) : list nat :=
  if existsb (fun y => (Series_hash w y =? Series_hash w x)
                       && Series_eq_Series w y x) l
  then l else iteration_order (l ++ [x])%list.

(** [Study.add_series]; [_series] is the attribute of the Study, and the
    result its new content. *)
Definition Study_add_series (w : World) (_series : list nat) (series : nat)
  : list nat :=
  series_add w series _series.

(** [Study.series]: [sorted(self._series, key=lambda x: (x.series_number,
    x.acquisition_number))] *)
Definition Study_series (w : World) (_series : list nat) : list nat :=
  py_sorted (fun y x => tuple_lt (series_key w y) (series_key w x)) _series.

End Children.

(** ** Vocabulary of the properties *)

Section Vocabulary.
Context {E : Externals}.

(** An object without its load state. *)
Definition series_core (S : SeriesObj) : SeriesObj :=
  set_s_loaded false (set_s_dicom None S).

Definition instance_core (I : InstanceObj) : InstanceObj :=
  set_i_loaded false (set_i_dicom None I).

(** Two stores that differ in load state only. *)
Definition same_identity (w w' : World) : Prop :=
  (forall s, series_core (series_at w' s) = series_core (series_at w s)) /\
  (forall i, instance_core (instance_at w' i) = instance_core (instance_at w i)).

(** A computation that changes load state only, however it ends. *)
Definition stable {A : Type} (m : M A) : Prop :=
  forall w,
    match m w with
    | Ok _ w' => same_identity w w'
    | Raise _ w' => same_identity w w'
    | Diverge => True
    end.

(** Every method of a table is stable. *)
Record Methods_stable (py : Methods) : Prop := mkStable {
  st_Series_load : forall s, stable (call_Series_load py s);
  st_Series_unload : forall s, stable (call_Series_unload py s);
  st_Series_dicom_dataset : forall s, stable (call_Series_dicom_dataset py s);
  st_Series_get_tag : forall s t k, stable (call_Series_get_tag py s t k);
  st_Series_raw_array : forall s, stable (call_Series_raw_array py s);
  st_Series_array : forall s, stable (call_Series_array py s);
  st_Instance_load : forall i, stable (call_Instance_load py i);
  st_Instance_unload : forall i, stable (call_Instance_unload py i);
  st_Instance_dicom_dataset : forall i, stable (call_Instance_dicom_dataset py i);
  st_Instance_get_tag : forall i t, stable (call_Instance_get_tag py i t);
  st_Instance_raw_array : forall i, stable (call_Instance_raw_array py i);
  st_Instance_array : forall i, stable (call_Instance_array py i)
}.

(** The store after [load()] on a series that has nothing to load. *)
Definition loaded_empty (w : World) (self : nat) : World :=
  if s_loaded (series_at w self) then w
  else set_series w self (set_s_loaded true (series_at w self)).

(** The four values [add_instance] compares. *)
Definition compatible (S : SeriesObj) (I : InstanceObj) : Prop :=
  height (s_shape S) = height (i_shape I) /\
  width (s_shape S) = width (i_shape I) /\
  s_is_multisample S = i_is_multisample I /\
  s_is_rgb S = i_is_rgb I.

Definition compatibleb (S : SeriesObj) (I : InstanceObj) : bool :=
  (height (s_shape S) =? height (i_shape I))
  && (width (s_shape S) =? width (i_shape I))
  && Bool.eqb (s_is_multisample S) (i_is_multisample I)
  && Bool.eqb (s_is_rgb S) (i_is_rgb I).

(** The store after [for i in l: i.loaded = b]. *)
Definition mark_loaded (b : bool) (l : list nat) (w : World) : World :=
  fold_left (fun w i => set_instance w i (set_i_loaded b (instance_at w i))) l w.

(** The store a call leaves behind. *)
Definition world_after {A : Type} (r : res A) (w : World) : World :=
  match r with
  | Ok _ w' => w'
  | Raise _ w' => w'
  | Diverge => w
  end.

(** How a call ends, without the store. *)
Definition outcome {A : Type} (r : res A) : option (exn + A) :=
  match r with
  | Ok a _ => Some (inr a)
  | Raise e _ => Some (inl e)
  | Diverge => None
  end.

(** [raw * slope + intercept], elementwise. *)
Definition rescale (slope intercept : number float) (raw : ndarray float)
  : ndarray float :=
  nd_map (fun x => num_add (num_mul x slope) intercept) raw.

(** [v] is an [int] or a [float]. *)
Definition is_number (v : value float) : bool :=
  match v with
  | VNum _ => true
  | _ => false
  end.

(** The exceptions [vmax] and [vmin] absorb. *)
Definition bound_absorbs (e : exn) : bool :=
  match e with
  | KeyError | TypeError => true
  | _ => false
  end.

(** The exceptions [Series.level], [Instance.window] and [Instance.level]
    absorb. *)
Definition lookup_absorbs (e : exn) : bool :=
  match e with
  | KeyError | IndexError => true
  | _ => false
  end.

(** The window properties of a node, given the lookup [get] they use and
    the defaults [base] of its base class. *)
Definition window_laws (get : Tag -> M (value float))
    (base : display -> M (value float))
    (vmax vmin window level : M (value float)) (w : World) : Prop :=
  (forall ww w1 c w2,
      get WindowWidth w = Ok (VNum ww) w1 ->
      get WindowCenter w1 = Ok (VNum c) w2 ->
      vmax w = Ok (VNum (num_add c (num_half ww))) w2 /\
      vmin w = Ok (VNum (num_sub c (num_half ww))) w2) /\
  (forall e w1,
      get WindowWidth w = Raise e w1 ->
      bound_absorbs e = true ->
      vmax w = base Vmax w1 /\ vmin w = base Vmin w1) /\
  (forall v w1 e w2,
      get WindowWidth w = Ok v w1 ->
      get WindowCenter w1 = Raise e w2 ->
      bound_absorbs e = true ->
      vmax w = base Vmax w2 /\ vmin w = base Vmin w2) /\
  (forall vw w1 vc w2,
      get WindowWidth w = Ok vw w1 ->
      get WindowCenter w1 = Ok vc w2 ->
      is_number vw && is_number vc = false ->
      vmax w = base Vmax w2 /\ vmin w = base Vmin w2) /\
  (forall e w1,
      get WindowWidth w = Raise e w1 ->
      lookup_absorbs e = true ->
      window w = base Window w1) /\
  (forall e w1,
      get WindowCenter w = Raise e w1 ->
      lookup_absorbs e = true ->
      level w = base Level w1).

(** Two stores that hold the same objects. *)
Definition same_store (w w' : World) : Prop :=
  (forall s, series_at w' s = series_at w s) /\
  (forall i, instance_at w' i = instance_at w i).

(** The children of a series are all unloaded. *)
Definition children_unloaded (w : World) (self : nat) : Prop :=
  forall i, In i (s_image_set (series_at w self)) ->
            i_loaded (instance_at w i) = false.

(** The children of a series are frame views of that series. *)
Definition children_are_frames (w : World) (self : nat) : Prop :=
  forall i, In i (s_image_set (series_at w self)) ->
            is_frame (instance_at w i) = true /\
            i_series (instance_at w i) = self /\
            exists n, frame_number (instance_at w i) = Some n.

(** What the child set of a series keeps true as instances are added:
    the slice count is the number of children, no child is held twice,
    and every child has the height, width and flags of the series. *)
Definition series_consistent (w : World) (self : nat) : Prop :=
  let S := series_at w self in
  num_slices S = Z.of_nat (List.length (s_image_set S)) /\
  NoDup (s_image_set S) /\
  forall c, In c (s_image_set S) -> compatible S (instance_at w c).

(** [for i in l: self.add_instance(i)], going on after a rejection. *)
Definition add_instances (self : nat) (l : list nat) (w : World) : World :=
  fold_left (fun w i => world_after (Series_add_instance self i w) w) l w.

(** The value [pixel_size] works with for a tag: the element that [get]
    finds, or [default] when [get] raises [KeyError] or finds [None]. *)
Definition resolved (get : Tag -> M (value float)) (tag : Tag)
    (default : value float) (w : World) (v : value float) (w1 : World) : Prop :=
  (exists v', get tag w = Ok v' w1 /\ v = if is_None v' then default else v') \/
  (get tag w = Raise KeyError w1 /\ v = default).

(** The pixel size of a node, given the lookup [get] it uses. *)
Definition pixel_size_laws (get : Tag -> M (value float))
    (pixel_size : M (value float * value float * value float)) (w : World)
  : Prop :=
  let one := VNum (PyInt 1) in
  forall sp w1 st w2,
    resolved get PixelSpacing (VSeq [one; one]) w sp w1 ->
    resolved get SliceThickness one w1 st w2 ->
    (forall r c rest, sp = VSeq (r :: c :: rest) ->
                      pixel_size w = Ok (st, r, c) w2) /\
    (forall n, sp = VNum n -> pixel_size w = Ok (st, one, one) w2) /\
    (forall r, sp = VSeq [r] -> pixel_size w = Raise IndexError w2) /\
    (sp = VSeq [] -> pixel_size w = Raise IndexError w2).

(** A standalone instance that [load()] can load: it is loaded already,
    or its file decodes. *)
Definition loadable (w : World) (i : nat) : Prop :=
  is_frame (instance_at w i) = false /\
  (i_loaded (instance_at w i) = true \/
   exists ds, dcmread (i_filepath (instance_at w i)) = inr ds).

(** What the rescale tags of a dataset make of a float array: [t] is the
    slope and the intercept when both resolve, and [None] when the lookup
    of either raises [KeyError]. *)
Definition rescale_with (t : option (number float * number float))
    (raw : ndarray float) : ndarray float :=
  match t with
  | Some (a, b) => rescale a b raw
  | None => raw
  end.

(** The dataset [ds] carries the rescale tags [t]. *)
Definition carries (ds : Dataset) (t : option (number float * number float))
  : Prop :=
  match t with
  | Some (a, b) =>
      get_tag ds RescaleSlope None = inr (VNum a) /\
      get_tag ds RescaleIntercept None = inr (VNum b)
  | None =>
      get_tag ds RescaleSlope None = inl KeyError \/
      (exists v, get_tag ds RescaleSlope None = inr v /\
                 get_tag ds RescaleIntercept None = inl KeyError)
  end.

(** A standalone instance that is loaded with a dataset of one sample per
    pixel, of pixel array [px] and rescale tags [t]. *)
Definition single_sample_child (w : World) (i : nat) (px : ndarray float)
    (t : option (number float * number float)) : Prop :=
  is_frame (instance_at w i) = false /\
  i_loaded (instance_at w i) = true /\
  exists ds,
    i_dicom (instance_at w i) = Some ds /\
    pixel_array ds = inr px /\
    (exists spp, get_tag ds SamplesPerPixel None = inr spp /\
                 value_eq_int spp 1 = true) /\
    carries ds t.

End Vocabulary.

(** ** A small installation: rational floats and six files *)

Module Demo.

Definition Tag_eq_dec (a b : Tag) : {a = b} + {a <> b}.
Proof. decide equality; apply string_dec. Defined.

Record dataset := mkDataset {
  elements : list (Tag * value Q);
  pixels : ndarray Q
}.

(** The resolver: the element stored under the tag, for every frame alike;
    a tag that is absent is a [KeyError]. *)
Definition resolve (ds : dataset) (tag : Tag) (frame : option Z) : exn + value Q :=
  match find (fun e => if Tag_eq_dec (fst e) tag then true else false) (elements ds) with
  | Some e => inr (snd e)
  | None => inl KeyError
  end.

Definition int (z : Z) : value Q := VNum (PyInt z).

Definition image (z : Z) : ndarray Q := Axis [Axis [Scalar (PyInt z)]].

(** A single-frame file with rescale and window tags. *)
Definition mr : dataset :=
  mkDataset [(SamplesPerPixel, int 1); (RescaleSlope, int 2);
             (RescaleIntercept, int (-100)); (WindowCenter, int 40);
             (WindowWidth, int 400)]
            (image 150).

(** A single-frame file with no optional tag. *)
Definition plain : dataset :=
  mkDataset [(SamplesPerPixel, int 1)] (image 150).

(** A single-frame file with a window width and no window centre. *)
Definition width_only : dataset :=
  mkDataset [(SamplesPerPixel, int 1); (WindowWidth, int 400)] (image 7).

(** A single-frame file with two window centres. *)
Definition two_centres : dataset :=
  mkDataset [(SamplesPerPixel, int 1); (WindowCenter, VSeq [int 40; int 50]);
             (WindowWidth, int 400)]
            (image 7).

(** A single-frame file of two rows and two columns. *)
Definition wide : dataset :=
  mkDataset [(SamplesPerPixel, int 1)]
            (Axis [Axis [Scalar (PyInt 1); Scalar (PyInt 2)];
                   Axis [Scalar (PyInt 3); Scalar (PyInt 4)]]).

(** A five-frame file. *)
Definition stack : dataset :=
  mkDataset [(SamplesPerPixel, int 1); (RescaleSlope, int 2);
             (RescaleIntercept, int (-100))]
            (Axis [image 11; image 12; image 13; image 14; image 15]).

Definition read_file (p : Path) : exn + dataset :=
  if String.eqb p "mr.dcm" then inr mr
  else if String.eqb p "plain.dcm" then inr plain
  else if String.eqb p "width_only.dcm" then inr width_only
  else if String.eqb p "two_centres.dcm" then inr two_centres
  else if String.eqb p "wide.dcm" then inr wide
  else if String.eqb p "stack.dcm" then inr stack
  else inl InvalidDicomError.

Fixpoint hash (s : string) : Z :=
  match s with
  | EmptyString => 7
  | String c s' => 31 * hash s' + Z.of_nat (Ascii.nat_of_ascii c)
  end.

Definition externals : Externals := {|
  float := Q;
  float_of_int := inject_Z;
  fadd := fun a b => Qred (Qplus a b);
  fsub := fun a b => Qred (Qminus a b);
  fmul := fun a b => Qred (Qmult a b);
  fdiv := fun a b => Qred (Qdiv a b);
  feqb := Qeq_bool;
  parse_float := fun _ => None;
  hash_str := hash;
  Dataset := dataset;
  dcmread := read_file;
  get_tag := resolve;
  pixel_array := fun ds => inr (pixels ds);
  convert_color_space := fun _ _ => inl NotImplementedError;
  np_broadcast := fun _ _ _ => inl ValueError
|}.

(** A stand-in for the defaults of the base classes, which are not part of
    the sources: a constant that the examples can recognise.  The base
    classes compute their defaults from the pixel data and from the other
    display properties; the laws of the display properties are proved for
    every base, and nothing is read off this constant but that the base
    was asked. *)
Definition base_display (d : display) (self : nat) : @M externals (value Q) :=
  ret (E := externals) (VStr "intensity range").

Definition nobody : Patient := mkPatient "P0" "Nobody".
Definition no_study : Study := mkStudy nobody "ST0" 0 "".

(** Series 0: a non-stack series as its constructor leaves it. *)
Definition series0 : @SeriesObj externals :=
  mkSeries (E := externals) no_study "SE0" 1 1 "plain" false None false None
           (0, 0, 0) false false 0 [].

(** Series 1: a stack on [stack.dcm], with its five frame views. *)
Definition series1 : @SeriesObj externals :=
  mkSeries (E := externals) no_study "SE1" 2 1 "stack" true (Some "stack.dcm")
           false None (5, 1, 1) false false 0 [11; 12; 13; 14; 15]%nat.

(** Series 2: a non-stack series holding the standalone instance 0. *)
Definition series2 : @SeriesObj externals :=
  mkSeries (E := externals) no_study "SE2" 3 1 "single" false None false None
           (1, 1, 1) false false 0 [0%nat].

(** Series 3: a non-stack series holding the standalone instance 3. *)
Definition series3 : @SeriesObj externals :=
  mkSeries (E := externals) no_study "SE3" 4 1 "centres" false None false None
           (1, 1, 1) false false 0 [3%nat].

(** Series 4: a stack on [stack.dcm] as its constructor leaves it, before
    any frame view is added. *)
Definition series4 : @SeriesObj externals :=
  mkSeries (E := externals) no_study "SE4" 5 1 "fresh" true (Some "stack.dcm")
           false None (5, 1, 1) false false 0 [].

(** Series 5: a non-stack series holding the standalone instance 2. *)
Definition series5 : @SeriesObj externals :=
  mkSeries (E := externals) no_study "SE5" 6 1 "width" false None false None
           (1, 1, 1) false false 0 [2%nat].

Definition standalone (series : nat) (number : Z) (file : Path)
  : @InstanceObj externals :=
  mkInstance (E := externals) series number false None None false None
             (1, 1, 1) file false false.

Definition frame (series : nat) (number : Z) : @InstanceObj externals :=
  mkInstance (E := externals) series 1 true (Some number) None false None
             (1, 1, 1) "stack.dcm" false false.

(** Instances 0 to 4 are standalone, instances 11 to 15 are the frames of
    series 1. *)
Definition world : @World externals :=
  mkWorld (E := externals)
    (fun s => match s with
              | 1%nat => series1
              | 2%nat => series2
              | 3%nat => series3
              | 4%nat => series4
              | 5%nat => series5
              | _ => series0
              end)
    (fun i => match i with
              | 0%nat => standalone 2 1 "mr.dcm"
              | 1%nat => standalone 0 1 "plain.dcm"
              | 2%nat => standalone 5 1 "width_only.dcm"
              | 3%nat => standalone 3 1 "two_centres.dcm"
              | 4%nat =>
                  mkInstance (E := externals) 0 1 false None None false None
                             (1, 2, 2) "wide.dcm" false false
              | 11%nat => frame 1 1
              | 12%nat => frame 1 2
              | 13%nat => frame 1 3
              | 14%nat => frame 1 4
              | 15%nat => frame 1 5
              | _ => standalone 0 1 "missing.dcm"
              end).

(** The small installation after [load()] on the stack, series 1. *)
Definition loaded_world : @World externals :=
  world_after (Series_load (E := externals) (python 1) 1 world) world.

(** A dataset of three samples per pixel, and the store in which instance
    6 is loaded with it. *)
Definition rgb : dataset :=
  mkDataset [(SamplesPerPixel, int 3);
             (PhotometricInterpretation, VStr "YBR_FULL")]
            (Axis [Axis [Axis [Scalar (PyInt 1); Scalar (PyInt 2);
                               Scalar (PyInt 3)]]]).

Definition rgb_world : @World externals :=
  set_instance world 6
    (mkInstance (E := externals) 0 1 false None None true (Some rgb)
                (1, 1, 1) "rgb.dcm" true true).

(** The store in which series 0 holds the standalone instances 1 and 0
    and has been loaded. *)
Definition pair_world : @World externals :=
  world_after
    (Series_load (E := externals) (python 1) 0 (add_instances 0 [1; 0]%nat world))
    world.

(** Three studies of one patient, and a fourth that repeats the id of the
    first under another date and description. *)
Definition study_a : Study := mkStudy nobody "A" 20200105 "first".
Definition study_b : Study := mkStudy nobody "B" 20230917 "latest".
Definition study_c : Study := mkStudy nobody "C" 20211130 "second".
Definition study_a' : Study := mkStudy nobody "A" 20240101 "again".

(** The small installation with three more standalone instances of
    series 0: instances 21 and 23 on the file with rescale tags, instance
    22 on the file without. *)
Definition three_files : @World externals :=
  set_instance
    (set_instance
       (set_instance world 21 (standalone 0 1 "mr.dcm"))
       22 (standalone 0 2 "plain.dcm"))
    23 (standalone 0 3 "mr.dcm").

(** Series 0 holding instances 21 and 22, whose rescale tags differ. *)
Definition mixed_world : @World externals :=
  add_instances 0 [21; 22]%nat three_files.

(** Series 0 holding instances 21 and 23, of the same rescale tags. *)
Definition uniform_world : @World externals :=
  add_instances 0 [21; 23]%nat three_files.

End Demo.


(** * Properties *)

(** ** Sorting keeps the elements *)

Section Sorting.

Lemma insert_by_length key x l :
  List.length (insert_by key x l) = S (List.length l).
Proof.
  induction l as [|y l IH]; simpl; [reflexivity|].
  destruct (key x <=? key y); simpl; [reflexivity|].
  now rewrite IH.
Qed.

Lemma sorted_by_length key l :
  List.length (sorted_by key l) = List.length l.
Proof.
  induction l as [|x l IH]; simpl; [reflexivity|].
  now rewrite insert_by_length, IH.
Qed.

Lemma insert_by_In key x l y :
  In y (insert_by key x l) <-> y = x \/ In y l.
Proof.
  induction l as [|z l IH]; simpl.
  - intuition congruence.
  - destruct (key x <=? key z); simpl; [intuition congruence|].
    rewrite IH. intuition congruence.
Qed.

Lemma sorted_by_In key l y :
  In y (sorted_by key l) <-> In y l.
Proof.
  induction l as [|x l IH]; simpl; [tauto|].
  rewrite insert_by_In, IH. intuition congruence.
Qed.

End Sorting.

(** ** Methods never touch the identity of an object *)

Section Invariants.
Context {E : Externals}.

Lemma same_identity_refl w : same_identity w w.
Proof. split; reflexivity. Qed.

Lemma same_identity_trans w1 w2 w3 :
  same_identity w1 w2 -> same_identity w2 w3 -> same_identity w1 w3.
Proof.
  intros [Hs Hi] [Hs' Hi']; split; intros x.
  - now rewrite Hs', Hs.
  - now rewrite Hi', Hi.
Qed.

Lemma stable_ret A (a : A) : stable (ret a).
Proof. intros w; apply same_identity_refl. Qed.

Lemma stable_raise A e : stable (@raise E A e).
Proof. intros w; apply same_identity_refl. Qed.

Lemma stable_lift A (r : exn + A) : stable (lift r).
Proof. destruct r; [apply stable_raise | apply stable_ret]. Qed.

Lemma stable_read A (f : World -> A) : stable (read f).
Proof. intros w; apply same_identity_refl. Qed.

Lemma stable_read_series s : stable (read_series s).
Proof. intros w; apply same_identity_refl. Qed.

Lemma stable_read_instance i : stable (read_instance i).
Proof. intros w; apply same_identity_refl. Qed.

Lemma stable_bind A B (m : M A) (k : A -> M B) :
  stable m -> (forall a, stable (k a)) -> stable (bind m k).
Proof.
  intros Hm Hk w. unfold bind. specialize (Hm w).
  destruct (m w) as [a w'| |]; auto.
  specialize (Hk a w'). destruct (k a w'); eauto using same_identity_trans.
Qed.

Lemma stable_try_except A (m : M A) handler :
  stable m -> (forall e h, handler e = Some h -> stable h) ->
  stable (try_except m handler).
Proof.
  intros Hm Hh w. unfold try_except. specialize (Hm w).
  destruct (m w) as [a w'|e w'|]; auto.
  destruct (handler e) as [h|] eqn:He; auto.
  specialize (Hh e h He w'). destruct (h w'); eauto using same_identity_trans.
Qed.

Lemma stable_for_each B (l : list B) body :
  (forall x, stable (body x)) -> stable (for_each l body).
Proof.
  intros H. induction l as [|x l IH]; simpl.
  - apply stable_ret.
  - apply stable_bind; auto.
Qed.

Lemma stable_map_M B C (f : B -> M C) l :
  (forall x, stable (f x)) -> stable (map_M f l).
Proof.
  intros H. induction l as [|x l IH]; simpl.
  - apply stable_ret.
  - apply stable_bind; auto. intros y.
    apply stable_bind; auto. intros ys. apply stable_ret.
Qed.

Lemma upd_same A (f : nat -> A) k v : upd f k v k = v.
Proof. unfold upd. now rewrite Nat.eqb_refl. Qed.

Lemma upd_other A (f : nat -> A) k v x : x <> k -> upd f k v x = f x.
Proof. unfold upd. intros H. apply Nat.eqb_neq in H. now rewrite H. Qed.

Lemma stable_modify_series s f :
  (forall S, series_core (f S) = series_core S) -> stable (modify_series s f).
Proof.
  intros Hf w. unfold modify_series. split; intros x; simpl; [|reflexivity].
  unfold upd. destruct (Nat.eqb x s) eqn:Hx; [|reflexivity].
  apply Nat.eqb_eq in Hx. subst. apply Hf.
Qed.

Lemma stable_modify_instance i f :
  (forall I, instance_core (f I) = instance_core I) -> stable (modify_instance i f).
Proof.
  intros Hf w. unfold modify_instance. split; intros x; simpl; [reflexivity|].
  unfold upd. destruct (Nat.eqb x i) eqn:Hx; [|reflexivity].
  apply Nat.eqb_eq in Hx. subst. apply Hf.
Qed.

Lemma stable_set_s_loaded s b : stable (modify_series s (set_s_loaded b)).
Proof. apply stable_modify_series. now intros []. Qed.

Lemma stable_set_s_dicom s d : stable (modify_series s (set_s_dicom d)).
Proof. apply stable_modify_series. now intros []. Qed.

Lemma stable_set_i_loaded i b : stable (modify_instance i (set_i_loaded b)).
Proof. apply stable_modify_instance. now intros []. Qed.

Lemma stable_set_i_dicom i d : stable (modify_instance i (set_i_dicom d)).
Proof. apply stable_modify_instance. now intros []. Qed.

Lemma stable_Series_filepath s : stable (Series_filepath s).
Proof.
  unfold Series_filepath. apply stable_bind; [apply stable_read_series|].
  intros S. destruct (s_filepath S); [apply stable_ret|].
  apply stable_bind; [apply stable_read|]. intros insts.
  destruct (py_index insts (s_current_slice S)); [|apply stable_raise].
  apply stable_bind; [apply stable_read_instance|]. intros I. apply stable_ret.
Qed.

End Invariants.

Create HintDb stable.

#[local] Hint Resolve stable_ret stable_raise stable_lift stable_read
  stable_read_series stable_read_instance stable_set_s_loaded
  stable_set_s_dicom stable_set_i_loaded stable_set_i_dicom
  stable_Series_filepath st_Series_load st_Series_unload
  st_Series_dicom_dataset st_Series_get_tag st_Series_raw_array
  st_Series_array st_Instance_load st_Instance_unload
  st_Instance_dicom_dataset st_Instance_get_tag st_Instance_raw_array
  st_Instance_array : stable.

(** One syntax-directed step of a stability proof. *)
Ltac stable_step :=
  match goal with
  | |- stable (bind _ _) => apply stable_bind; [|intro]
  | |- stable (try_except _ _) =>
      apply stable_try_except;
      [|let e := fresh "e" in let h := fresh "h" in let He := fresh "He" in
        intros e h He; destruct e; inversion He; subst; clear He]
  | |- stable (for_each _ _) => apply stable_for_each; intro
  | |- stable (map_M _ _) => apply stable_map_M; intro
  | |- stable (match ?x with _ => _ end) => destruct x
  | |- stable _ => solve [eauto with stable]
  end.

Ltac stable_auto := repeat stable_step.

Section Stability.
Context {E : Externals}.

Lemma stable_rescaled raw get :
  (forall t, stable (get t)) -> stable (rescaled raw get).
Proof. intros H. unfold rescaled. stable_auto. Qed.

Lemma stable_recoloured raw get fresh :
  (forall t, stable (get t)) -> stable fresh ->
  stable (recoloured raw get fresh).
Proof. intros H H'. unfold recoloured. stable_auto. Qed.

Lemma deeper_stable py : Methods_stable py -> Methods_stable (deeper py).
Proof.
  intros H. constructor; simpl; intros.
  - unfold Series_load. stable_auto.
  - unfold Series_unload. stable_auto.
  - unfold Series_dicom_dataset. stable_auto.
  - unfold Series_get_tag. stable_auto.
  - unfold Series_raw_array, Series_ensure_loaded. stable_auto.
  - unfold Series_array, Series_ensure_loaded. stable_auto;
      (apply stable_rescaled || apply stable_recoloured); eauto with stable.
  - unfold Instance_load. stable_auto.
  - unfold Instance_unload. stable_auto.
  - unfold Instance_dicom_dataset. stable_auto.
  - unfold Instance_get_tag. stable_auto.
  - unfold Instance_raw_array, Instance_ensure_loaded. stable_auto.
  - unfold Instance_array, Instance_ensure_loaded. stable_auto;
      (apply stable_rescaled || apply stable_recoloured); eauto with stable.
Qed.

(** At every call depth, every method leaves the identity of every object
    alone: only [loaded] flags and cached datasets change. *)
Lemma python_stable d : Methods_stable (python d).
Proof.
  induction d as [|d IH]; simpl.
  - constructor; intros; intros w; exact I.
  - now apply deeper_stable.
Qed.

Lemma stable_Series_ensure_loaded d s : stable (Series_ensure_loaded (python d) s).
Proof.
  pose proof (python_stable d). unfold Series_ensure_loaded. stable_auto.
Qed.

Lemma stable_Instance_ensure_loaded d i : stable (Instance_ensure_loaded (python d) i).
Proof.
  pose proof (python_stable d). unfold Instance_ensure_loaded. stable_auto.
Qed.

Lemma stable_Ok A (m : M A) w a w' :
  stable m -> m w = Ok a w' -> same_identity w w'.
Proof. intros H Hm. specialize (H w). now rewrite Hm in H. Qed.

Lemma stable_Raise A (m : M A) w e w' :
  stable m -> m w = Raise e w' -> same_identity w w'.
Proof. intros H Hm. specialize (H w). now rewrite Hm in H. Qed.

Lemma same_identity_is_stack w w' s :
  same_identity w w' -> is_stack (series_at w' s) = is_stack (series_at w s).
Proof.
  intros [H _]. specialize (H s).
  destruct (series_at w' s), (series_at w s). now inversion H.
Qed.

Lemma same_identity_image_set w w' s :
  same_identity w w' -> s_image_set (series_at w' s) = s_image_set (series_at w s).
Proof.
  intros [H _]. specialize (H s).
  destruct (series_at w' s), (series_at w s). now inversion H.
Qed.

Lemma same_identity_shape w w' s :
  same_identity w w' -> s_shape (series_at w' s) = s_shape (series_at w s).
Proof.
  intros [H _]. specialize (H s).
  destruct (series_at w' s), (series_at w s). now inversion H.
Qed.

Lemma same_identity_is_frame w w' i :
  same_identity w w' -> is_frame (instance_at w' i) = is_frame (instance_at w i).
Proof.
  intros [_ H]. specialize (H i).
  destruct (instance_at w' i), (instance_at w i). now inversion H.
Qed.

Lemma same_identity_frame_number w w' i :
  same_identity w w' ->
  frame_number (instance_at w' i) = frame_number (instance_at w i).
Proof.
  intros [_ H]. specialize (H i).
  destruct (instance_at w' i), (instance_at w i). now inversion H.
Qed.

Lemma same_identity_i_series w w' i :
  same_identity w w' -> i_series (instance_at w' i) = i_series (instance_at w i).
Proof.
  intros [_ H]. specialize (H i).
  destruct (instance_at w' i), (instance_at w i). now inversion H.
Qed.

Lemma same_identity_sort_value w w' i :
  same_identity w w' ->
  Instance_sort_value (instance_at w' i) = Instance_sort_value (instance_at w i).
Proof.
  intros [_ H]. specialize (H i). unfold Instance_sort_value.
  destruct (instance_at w' i), (instance_at w i). now inversion H.
Qed.

Lemma insert_by_ext key key' x l :
  (forall i, key i = key' i) -> insert_by key x l = insert_by key' x l.
Proof.
  intros H. induction l as [|y l IH]; simpl; [reflexivity|].
  now rewrite IH, !H.
Qed.

Lemma sorted_by_ext key key' l :
  (forall i, key i = key' i) -> sorted_by key l = sorted_by key' l.
Proof.
  intros H. induction l as [|x l IH]; simpl; [reflexivity|].
  rewrite IH. now apply insert_by_ext.
Qed.

(** The sorted listing of a series is the same in two stores that differ
    in load state only. *)
Lemma same_identity_instances w w' s :
  same_identity w w' -> Series_instances w' s = Series_instances w s.
Proof.
  intros H. unfold Series_instances.
  rewrite (same_identity_image_set s H).
  apply sorted_by_ext. intros i. now apply same_identity_sort_value.
Qed.

End Stability.

(** ** Reading a store after an update *)

Section StoreLemmas.
Context {E : Externals}.

Lemma series_at_set_series w s S : series_at (set_series w s S) s = S.
Proof. apply upd_same. Qed.

Lemma series_at_set_series_other w s S x :
  x <> s -> series_at (set_series w s S) x = series_at w x.
Proof. apply upd_other. Qed.

Lemma instance_at_set_instance w i I : instance_at (set_instance w i I) i = I.
Proof. apply upd_same. Qed.

Lemma instance_at_set_instance_other w i I x :
  x <> i -> instance_at (set_instance w i I) x = instance_at w x.
Proof. apply upd_other. Qed.

Lemma Ok_world_after A (r : res A) a w :
  outcome r = Some (inr a) -> r = Ok a (world_after r w).
Proof. destruct r; simpl; congruence. Qed.

Lemma Raise_world_after A (r : res A) e w :
  outcome r = Some (inl e) -> r = Raise e (world_after r w).
Proof. destruct r; simpl; congruence. Qed.

End StoreLemmas.

Arguments Series_load : simpl never.
Arguments Series_unload : simpl never.
Arguments Series_dicom_dataset : simpl never.
Arguments Series_get_tag : simpl never.
Arguments Series_raw_array : simpl never.
Arguments Series_array : simpl never.
Arguments Instance_load : simpl never.
Arguments Instance_unload : simpl never.
Arguments Instance_dicom_dataset : simpl never.
Arguments Instance_get_tag : simpl never.
Arguments Instance_raw_array : simpl never.
Arguments Instance_array : simpl never.

(** Unfolds the plumbing of a computation applied to a store. *)
Ltac run :=
  unfold Series_ensure_loaded, Instance_ensure_loaded;
  repeat (unfold bind, ret, raise, lift, read, read_series, read_instance,
          modify_series, modify_instance; simpl).


(** Rewrites with a fact once it is in the form [simpl] leaves the goal in. *)
Ltac rw H :=
  let H' := fresh in
  pose proof H as H';
  unfold modify_series, modify_instance, read_series, read_instance, read in H';
  simpl in H'; rewrite H'; clear H'.

(** ** The arrays of a series without children *)

Section EmptySeries.
Context {E : Externals}.

Lemma Series_instances_nil w self :
  s_image_set (series_at w self) = [] -> Series_instances w self = [].
Proof. unfold Series_instances. now intros ->. Qed.

(** C10: on a non-stack Series with no Instance children, [raw_array] and
    [array] both fail with the [ValueError] of [np.concatenate] on an empty
    list; neither returns an empty array.  The same holds of a stack that
    is marked loaded without a payload. *)
Theorem empty_series_arrays_fail :
  forall (d : nat) (w : World) (self : nat),
    s_image_set (series_at w self) = [] ->
    (is_stack (series_at w self) = false \/
     (s_loaded (series_at w self) = true /\ s_dicom (series_at w self) = None)) ->
    Series_raw_array (python (S d)) self w = Raise ValueError (loaded_empty w self) /\
    Series_array (python (S (S d))) self w = Raise ValueError (loaded_empty w self).
Proof.
  intros d w self Hnil Hkind.
  assert (Hinst : forall w', series_at w' self = set_s_loaded true (series_at w self) ->
                             Series_instances w' self = []).
  { intros w' Hw'. apply Series_instances_nil. rewrite Hw'.
    now destruct (series_at w self). }
  assert (Hload : s_loaded (series_at w self) = false ->
                  forall n, Series_load (python n) self w
                            = Ok tt (set_series w self (set_s_loaded true (series_at w self)))).
  { intros Hl n. destruct Hkind as [Hst | [Habs _]]; [|congruence].
    unfold Series_load. run. rewrite Hl, Hst. simpl.
    rewrite Series_instances_nil by assumption. reflexivity. }
  assert (Hraw : forall n, Series_raw_array (python (S n)) self w
                           = Raise ValueError (loaded_empty w self)).
  { intros n. unfold loaded_empty, Series_raw_array. run.
    destruct (s_loaded (series_at w self)) eqn:Hl; simpl.
    - destruct Hkind as [Hst | [_ Hd]].
      + rewrite Hst. run. now rewrite Series_instances_nil.
      + rewrite Hd. destruct (is_stack (series_at w self)); run;
          now rewrite Series_instances_nil.
    - rw (Hload eq_refl n). rewrite series_at_set_series.
      destruct Hkind as [Hst | [Habs _]]; [|congruence].
      replace (is_stack (set_s_loaded true (series_at w self))) with false
        by (now destruct (series_at w self)).
      run. rewrite Hinst by apply series_at_set_series. reflexivity. }
  split; [apply Hraw|].
  unfold Series_array. run.
  destruct (s_loaded (series_at w self)) eqn:Hl; simpl.
  - destruct (is_stack (series_at w self)) eqn:Hst.
    + run. rw (Hraw d). reflexivity.
    + run. rewrite Series_instances_nil by assumption.
      unfold loaded_empty. now rewrite Hl.
  - rw (Hload eq_refl (S d)). rewrite series_at_set_series.
    destruct Hkind as [Hst | [Habs _]]; [|congruence].
    replace (is_stack (set_s_loaded true (series_at w self))) with false
      by (now destruct (series_at w self)).
    run. rewrite Hinst by apply series_at_set_series.
    unfold loaded_empty. now rewrite Hl.
Qed.

End EmptySeries.

Lemma empty_series_arrays_fail_witness :
  Series_raw_array (E := Demo.externals) (python 1) 0 Demo.world
  = Raise ValueError (loaded_empty Demo.world 0) /\
  Series_array (E := Demo.externals) (python 2) 0 Demo.world
  = Raise ValueError (loaded_empty Demo.world 0).
Proof.
  apply (empty_series_arrays_fail (E := Demo.externals) 0 Demo.world 0).
  - reflexivity.
  - left. reflexivity.
Defined.

(** ** Equality of hierarchy nodes *)

Section Equality.
Context {E : Externals}.

Lemma Patient_eq_Patient p q :
  Patient_eq p (ObjPatient q) = true <-> patient_id p = patient_id q.
Proof. apply String.eqb_eq. Qed.

Lemma Patient_eq_str p s :
  Patient_eq p (ObjStr s) = true <-> Patient_id_string p = s.
Proof. apply String.eqb_eq. Qed.

Lemma Patient_eq_int p z :
  Patient_eq p (ObjInt z) = true <-> Patient_hash p = z.
Proof. apply Z.eqb_eq. Qed.

Lemma Study_eq_str st s :
  Study_eq st (ObjStr s) = true <-> Study_id_string st = s.
Proof. apply String.eqb_eq. Qed.

Lemma Study_eq_int st z :
  Study_eq st (ObjInt z) = true <-> Study_hash st = z.
Proof. apply Z.eqb_eq. Qed.

Lemma Series_eq_str w s str :
  Series_eq w s (ObjStr str) = true <-> Series_id_string (series_at w s) = str.
Proof. apply String.eqb_eq. Qed.

Lemma Series_eq_int w s z :
  Series_eq w s (ObjInt z) = true <-> ImageCollection_hash w s = z.
Proof. apply Z.eqb_eq. Qed.

Lemma Instance_eq_str w i str :
  Instance_eq w i (ObjStr str) = true <-> Instance_id_string w i = str.
Proof. apply String.eqb_eq. Qed.

Lemma Instance_eq_int w i z :
  Instance_eq w i (ObjInt z) = true <-> FileImageSet_hash w i = z.
Proof. apply Z.eqb_eq. Qed.

Lemma append_inj_l (a b c : string) : a ++ b = a ++ c -> b = c.
Proof. induction a as [|x a IH]; simpl; intros H; [assumption|]. inversion H. auto. Qed.

(** The identity string of a Study determines its patient id when the
    study ids agree. *)
Lemma Patient_id_string_inj p q :
  Patient_id_string p = Patient_id_string q -> patient_id p = patient_id q.
Proof. unfold Patient_id_string. apply append_inj_l. Qed.

(** C9: [Study.__eq__] compares [study_id] alone.  Two Studies with the
    same study id compare equal whatever their Patients are, although
    [Study.id_string], and with it [Study.__hash__], is built from the
    Patient's identity too. *)
Theorem Study_eq_ignores_patient :
  forall a b : Study,
    study_id a = study_id b ->
    Study_eq a (ObjStudy b) = true.
Proof. intros a b H. now apply String.eqb_eq. Qed.

End Equality.

Lemma Study_eq_ignores_patient_witness :
  let a := mkStudy (mkPatient "P1" "Ann") "1.2.840.1" 0 "head" in
  let b := mkStudy (mkPatient "P2" "Bob") "1.2.840.1" 0 "head" in
  Study_eq (E := Demo.externals) a (ObjStudy b) = true /\
  Patient_eq (E := Demo.externals) (patient a) (ObjPatient (patient b)) = false /\
  Study_id_string a <> Study_id_string b /\
  Study_hash (E := Demo.externals) a <> Study_hash (E := Demo.externals) b.
Proof.
  intros a b. split; [|split; [|split]].
  - apply (Study_eq_ignores_patient (E := Demo.externals) a b). reflexivity.
  - reflexivity.
  - discriminate.
  - vm_compute. discriminate.
Defined.

(** ** Adding an instance to a series *)

Section AddInstance.
Context {E : Externals}.

Lemma compatibleb_spec S I : compatibleb S I = true <-> compatible S I.
Proof.
  unfold compatibleb, compatible.
  rewrite !andb_true_iff, !Z.eqb_eq, !Bool.eqb_true_iff. tauto.
Qed.

(** C2, as the code has it: [add_instance] accepts when the slice count
    [shape[0]] of the Series is zero or when height, width, multisample and
    RGB all match; it then holds the candidate in its child set, takes the
    candidate's four values, and its slice count is the new child count.
    Otherwise it raises [ValueError] and the store is as before. *)
Theorem add_instance_gate :
  forall (w : World) (self instance : nat),
    let S := series_at w self in
    let I := instance_at w instance in
    (num_slices S = 0 \/ compatible S I ->
     exists w',
       Series_add_instance self instance w = Ok tt w' /\
       let S' := series_at w' self in
       s_image_set S' = set_add w instance (s_image_set S) /\
       num_slices S' = Z.of_nat (List.length (s_image_set S')) /\
       height (s_shape S') = height (i_shape I) /\
       width (s_shape S') = width (i_shape I) /\
       s_is_multisample S' = i_is_multisample I /\
       s_is_rgb S' = i_is_rgb I) /\
    (num_slices S <> 0 -> ~ compatible S I ->
     Series_add_instance self instance w = Raise ValueError w).
Proof.
  intros w self instance S I.
  assert (Hgate : (num_slices S =? 0) || compatibleb S I = true <->
                  num_slices S = 0 \/ compatible S I).
  { now rewrite orb_true_iff, Z.eqb_eq, compatibleb_spec. }
  split.
  - intros Hok. apply Hgate in Hok.
    unfold Series_add_instance. run. fold S I.
    unfold compatibleb in Hok. rewrite Hok. run.
    eexists. split; [reflexivity|]. simpl.
    rewrite !upd_same. simpl. unfold num_slices, height, width. simpl.
    repeat split.
  - intros Hn Hc.
    unfold Series_add_instance. run. fold S I.
    destruct ((num_slices S =? 0) || compatibleb S I) eqn:Hb.
    + pose proof (proj1 Hgate eq_refl). tauto.
    + unfold compatibleb in Hb. now rewrite Hb.
Qed.

End AddInstance.

Lemma add_instance_gate_witness :
  (exists w',
     Series_add_instance (E := Demo.externals) 0 1 Demo.world = Ok tt w' /\
     num_slices (series_at w' 0) = 1 /\
     s_image_set (series_at w' 0) = [1%nat]) /\
  Series_add_instance (E := Demo.externals) 4 4 Demo.world
  = Raise ValueError Demo.world.
Proof.
  split.
  - destruct (proj1 (add_instance_gate (E := Demo.externals) Demo.world 0 1))
      as [w' [Hrun [Hset [Hcount _]]]].
    + left. reflexivity.
    + exists w'. split; [exact Hrun|]. split.
      * rewrite Hcount, Hset. reflexivity.
      * rewrite Hset. reflexivity.
  - apply (proj2 (add_instance_gate (E := Demo.externals) Demo.world 4 4)).
    + discriminate.
    + intros [Hh _]. discriminate Hh.
Defined.

(** C2 as stated fails on a stack that has no children yet: its
    constructor has already fixed the shape, so a candidate of another
    height and width is rejected. *)
Lemma add_instance_rejected_on_childless_stack :
  Series_init (E := Demo.externals) Demo.no_study "SE4" 5 1 "fresh" true None
              (Some "stack.dcm")
  = inr (series_at Demo.world 4) /\
  s_image_set (series_at Demo.world 4) = [] /\
  Series_add_instance (E := Demo.externals) 4 4 Demo.world
  = Raise ValueError Demo.world.
Proof. repeat split. Qed.

(** ** Reading a tag through a series *)

Section SeriesGetTag.
Context {E : Externals}.

(** C8, as the code has it: [Series.get_tag] raises [IndexError] whenever
    the instance number is at least the slice count, leaving the store as
    it is; for an instance number from 0 up to the slice count it hands
    the lookup to the instance at that position of the sorted listing, and
    that instance exists when the slice count is the number of children. *)
Theorem Series_get_tag_range :
  forall (py : Methods) (w : World) (self : nat) (tag : Tag) (k : Z),
    let S := series_at w self in
    (num_slices S <= k ->
     Series_get_tag py self tag k w = Raise IndexError w) /\
    (forall i,
       0 <= k < num_slices S ->
       nth_error (Series_instances w self) (Z.to_nat k) = Some i ->
       Series_get_tag py self tag k w = call_Instance_get_tag py i tag w) /\
    (0 <= k < num_slices S ->
     num_slices S = Z.of_nat (List.length (s_image_set S)) ->
     exists i, nth_error (Series_instances w self) (Z.to_nat k) = Some i).
Proof.
  intros py w self tag k S. repeat split.
  - intros Hk. unfold Series_get_tag. run. fold S.
    destruct (k <? num_slices S) eqn:Hlt; [|reflexivity].
    apply Z.ltb_lt in Hlt. lia.
  - intros i Hk Hi. unfold Series_get_tag. run. fold S.
    destruct (k <? num_slices S) eqn:Hlt.
    + unfold py_index. destruct (0 <=? k) eqn:H0.
      * now rewrite Hi.
      * apply Z.leb_gt in H0. lia.
    + apply Z.ltb_ge in Hlt. lia.
  - intros Hk Hn.
    destruct (nth_error (Series_instances w self) (Z.to_nat k)) as [i|] eqn:Hi.
    + now exists i.
    + apply nth_error_None in Hi. unfold Series_instances in Hi.
      rewrite sorted_by_length in Hi. fold S in Hi. lia.
Qed.

End SeriesGetTag.

Lemma Series_get_tag_range_witness :
  Series_get_tag (E := Demo.externals) (python 3) 2 WindowCenter 1 Demo.world
  = Raise IndexError Demo.world /\
  Series_get_tag (E := Demo.externals) (python 3) 2 WindowCenter 0 Demo.world
  = call_Instance_get_tag (python 3) 0 WindowCenter Demo.world /\
  exists i, nth_error (Series_instances Demo.world 2) (Z.to_nat 0) = Some i.
Proof.
  pose proof (Series_get_tag_range (E := Demo.externals) (python 3) Demo.world 2
                WindowCenter 1) as [H1 _].
  pose proof (Series_get_tag_range (E := Demo.externals) (python 3) Demo.world 2
                WindowCenter 0) as [_ [H2 H3]].
  split; [|split].
  - apply H1. discriminate.
  - apply H2; [split; [discriminate | reflexivity] | reflexivity].
  - apply H3; [split; [discriminate | reflexivity] | reflexivity].
Defined.

(** C8 as stated fails below the slice count: a negative instance number
    that reaches past the first child, and position 0 of a stack that has
    no frame views yet, both raise [IndexError]. *)
Lemma Series_get_tag_raises_below_slice_count :
  (-2 < num_slices (series_at Demo.world 2) /\
   Series_get_tag (E := Demo.externals) (python 3) 2 WindowCenter (-2) Demo.world
   = Raise IndexError Demo.world) /\
  (0 < num_slices (series_at Demo.world 4) /\
   Series_get_tag (E := Demo.externals) (python 3) 4 WindowCenter 0 Demo.world
   = Raise IndexError Demo.world).
Proof. repeat split. Qed.

(** Settles how a closed call ends, leaving the store it ends in unread. *)
Ltac ok_after := apply Ok_world_after; vm_compute; reflexivity.
Ltac raise_after := apply Raise_world_after; vm_compute; reflexivity.

(** Simplifies, reading back what the store was just given. *)
Ltac norm := repeat (progress (simpl; rewrite ?upd_same)).

(** ** Loading and unloading *)

Section LoadUnload.
Context {E : Externals}.

Lemma for_each_mark_loaded b l w :
  for_each l (fun i => modify_instance i (set_i_loaded b)) w
  = Ok tt (mark_loaded b l w).
Proof.
  unfold mark_loaded. revert w.
  induction l as [|x l IH]; intros w; simpl; [reflexivity|].
  run. apply IH.
Qed.

Lemma mark_loaded_series b l w s :
  series_at (mark_loaded b l w) s = series_at w s.
Proof.
  unfold mark_loaded. revert w.
  induction l as [|x l IH]; intros w; simpl; [reflexivity|].
  now rewrite IH.
Qed.

Lemma i_loaded_set_i_loaded b I : i_loaded (set_i_loaded b I) = b.
Proof. reflexivity. Qed.

Lemma mark_loaded_flag b l w i :
  In i l \/ i_loaded (instance_at w i) = b ->
  i_loaded (instance_at (mark_loaded b l w) i) = b.
Proof.
  unfold mark_loaded. revert w.
  induction l as [|x l IH]; intros w H; simpl.
  - destruct H as [[]|H]. exact H.
  - apply IH. destruct (Nat.eq_dec i x) as [->|Hne].
    + right. now rewrite instance_at_set_instance.
    + destruct H as [[H|H]|H].
      * congruence.
      * now left.
      * right. now rewrite instance_at_set_instance_other.
Qed.

Lemma mark_loaded_other b l w i :
  ~ In i l -> instance_at (mark_loaded b l w) i = instance_at w i.
Proof.
  unfold mark_loaded. revert w.
  induction l as [|x l IH]; intros w H; simpl; [reflexivity|].
  simpl in H. rewrite IH by tauto.
  apply instance_at_set_instance_other. intros ->. tauto.
Qed.

Lemma Series_instances_In w s i :
  In i (Series_instances w s) <-> In i (s_image_set (series_at w s)).
Proof. apply sorted_by_In. Qed.

(** [load()] on an unloaded stack whose file decodes. *)
Lemma Series_load_stack py w self p ds :
  is_stack (series_at w self) = true ->
  s_loaded (series_at w self) = false ->
  s_filepath (series_at w self) = Some p ->
  dcmread p = inr ds ->
  Series_load py self w
  = Ok tt
      (let w1 := set_series w self (set_s_dicom (Some ds) (series_at w self)) in
       let w2 := mark_loaded true (Series_instances w1 self) w1 in
       set_series w2 self (set_s_loaded true (series_at w2 self))).
Proof.
  intros Hst Hl Hp Hd. unfold Series_load, Series_filepath. run.
  rewrite Hl, Hst. simpl. rewrite Hp. simpl. rewrite Hd. simpl.
  rw for_each_mark_loaded. reflexivity.
Qed.

(** [unload()] on a loaded stack. *)
Lemma Series_unload_stack py w self :
  is_stack (series_at w self) = true ->
  s_loaded (series_at w self) = true ->
  Series_unload py self w
  = Ok tt
      (let w1 := set_series w self (set_s_dicom None (series_at w self)) in
       let w2 := mark_loaded false (Series_instances w1 self) w1 in
       set_series w2 self (set_s_loaded false (series_at w2 self))).
Proof.
  intros Hst Hl. unfold Series_unload. run.
  rewrite Hl, Hst. simpl. rw for_each_mark_loaded. reflexivity.
Qed.

Lemma bind_Ok A B (m : M A) (k : A -> M B) w b w' :
  bind m k w = Ok b w' -> exists a w1, m w = Ok a w1 /\ k a w1 = Ok b w'.
Proof.
  unfold bind. destruct (m w) as [a w1| |]; try discriminate. eauto.
Qed.

Lemma Series_load_Ok py w self w1 :
  Series_load py self w = Ok tt w1 -> s_loaded (series_at w1 self) = true.
Proof.
  unfold Series_load. intros H.
  apply bind_Ok in H. destruct H as (S & w0 & HS & H).
  inversion HS; subst. clear HS.
  destruct (s_loaded (series_at w0 self)) eqn:Hl; simpl in H.
  - inversion H. now subst.
  - apply bind_Ok in H. destruct H as (u & w2 & _ & H).
    inversion H. now rewrite series_at_set_series.
Qed.

Lemma Series_unload_Ok py w self w1 :
  Series_unload py self w = Ok tt w1 -> s_loaded (series_at w1 self) = false.
Proof.
  unfold Series_unload. intros H.
  apply bind_Ok in H. destruct H as (S & w0 & HS & H).
  inversion HS; subst. clear HS.
  destruct (s_loaded (series_at w0 self)) eqn:Hl; simpl in H.
  - apply bind_Ok in H. destruct H as (u & w2 & _ & H).
    inversion H. now rewrite series_at_set_series.
  - inversion H. now subst.
Qed.

Lemma Instance_load_Ok py w self w1 :
  Instance_load py self w = Ok tt w1 -> i_loaded (instance_at w1 self) = true.
Proof.
  unfold Instance_load. intros H.
  apply bind_Ok in H. destruct H as (I & w0 & HI & H).
  inversion HI; subst. clear HI.
  destruct (i_loaded (instance_at w0 self)) eqn:Hl; simpl in H.
  - inversion H. now subst.
  - apply bind_Ok in H. destruct H as (u & w2 & _ & H).
    inversion H. now rewrite instance_at_set_instance.
Qed.

Lemma Instance_unload_Ok py w self w1 :
  Instance_unload py self w = Ok tt w1 -> i_loaded (instance_at w1 self) = false.
Proof.
  unfold Instance_unload. intros H.
  apply bind_Ok in H. destruct H as (I & w0 & HI & H).
  inversion HI; subst. clear HI.
  destruct (i_loaded (instance_at w0 self)) eqn:Hl; simpl in H.
  - apply bind_Ok in H. destruct H as (u & w2 & _ & H).
    inversion H. now rewrite instance_at_set_instance.
  - inversion H. now subst.
Qed.

(** [load()] and [unload()] on a standalone instance. *)
Lemma Instance_load_standalone py w self ds :
  is_frame (instance_at w self) = false ->
  i_loaded (instance_at w self) = false ->
  dcmread (i_filepath (instance_at w self)) = inr ds ->
  Instance_load py self w
  = Ok tt
      (let w1 := set_instance w self (set_i_dicom (Some ds) (instance_at w self)) in
       set_instance w1 self (set_i_loaded true (instance_at w1 self))).
Proof.
  intros Hf Hl Hd. unfold Instance_load. run. rewrite Hl, Hf. simpl.
  rewrite Hd. reflexivity.
Qed.

Lemma Instance_unload_standalone py w self :
  is_frame (instance_at w self) = false ->
  i_loaded (instance_at w self) = true ->
  Instance_unload py self w
  = Ok tt
      (let w1 := set_instance w self (set_i_dicom None (instance_at w self)) in
       set_instance w1 self (set_i_loaded false (instance_at w1 self))).
Proof.
  intros Hf Hl. unfold Instance_unload. run. rewrite Hl, Hf. reflexivity.
Qed.

End LoadUnload.

Section LoadUnloadLaws.
Context {E : Externals}.

Lemma stable_Series_load d s : stable (Series_load (python d) s).
Proof. apply (st_Series_load (python_stable (S d))). Qed.

Lemma stable_Instance_load d i : stable (Instance_load (python d) i).
Proof. apply (st_Instance_load (python_stable (S d))). Qed.

(** C4, as the code has it.  [load()] on a loaded node and [unload()] on
    an unloaded node change nothing; a [load()] that completes leaves the
    node loaded and an [unload()] that completes leaves it unloaded, so
    each is idempotent, and [load()] followed by [unload()] ends unloaded
    with the payload of a stack Series (and of a standalone Instance)
    released; [load()] on an unloaded stack Series whose file decodes
    completes, caches the payload and marks every instance of its child
    set loaded, and [unload()] on a loaded stack Series completes, drops
    the payload and marks every one of them unloaded. *)
Theorem load_unload_laws :
  forall (d : nat) (w : World),
    (forall s, s_loaded (series_at w s) = true ->
               Series_load (python d) s w = Ok tt w) /\
    (forall s, s_loaded (series_at w s) = false ->
               Series_unload (python d) s w = Ok tt w) /\
    (forall i, i_loaded (instance_at w i) = true ->
               Instance_load (python d) i w = Ok tt w) /\
    (forall i, i_loaded (instance_at w i) = false ->
               Instance_unload (python d) i w = Ok tt w) /\
    (forall s w1, Series_load (python d) s w = Ok tt w1 ->
                  s_loaded (series_at w1 s) = true /\
                  Series_load (python d) s w1 = Ok tt w1) /\
    (forall s w1, Series_unload (python d) s w = Ok tt w1 ->
                  s_loaded (series_at w1 s) = false /\
                  Series_unload (python d) s w1 = Ok tt w1) /\
    (forall i w1, Instance_load (python d) i w = Ok tt w1 ->
                  i_loaded (instance_at w1 i) = true /\
                  Instance_load (python d) i w1 = Ok tt w1) /\
    (forall i w1, Instance_unload (python d) i w = Ok tt w1 ->
                  i_loaded (instance_at w1 i) = false /\
                  Instance_unload (python d) i w1 = Ok tt w1) /\
    (forall s w1 w2,
        Series_load (python d) s w = Ok tt w1 ->
        Series_unload (python d) s w1 = Ok tt w2 ->
        s_loaded (series_at w2 s) = false /\
        (is_stack (series_at w s) = true -> s_dicom (series_at w2 s) = None)) /\
    (forall i w1 w2,
        Instance_load (python d) i w = Ok tt w1 ->
        Instance_unload (python d) i w1 = Ok tt w2 ->
        i_loaded (instance_at w2 i) = false /\
        (is_frame (instance_at w i) = false -> i_dicom (instance_at w2 i) = None)) /\
    (forall s p ds,
        is_stack (series_at w s) = true ->
        s_loaded (series_at w s) = false ->
        s_filepath (series_at w s) = Some p ->
        dcmread p = inr ds ->
        exists w1,
          Series_load (python d) s w = Ok tt w1 /\
          s_dicom (series_at w1 s) = Some ds /\
          forall i, In i (s_image_set (series_at w s)) ->
                    i_loaded (instance_at w1 i) = true) /\
    (forall s,
        is_stack (series_at w s) = true ->
        s_loaded (series_at w s) = true ->
        exists w2,
          Series_unload (python d) s w = Ok tt w2 /\
          s_dicom (series_at w2 s) = None /\
          forall i, In i (s_image_set (series_at w s)) ->
                    i_loaded (instance_at w2 i) = false).
Proof.
  intros d w.
  assert (Hsl : forall w s, s_loaded (series_at w s) = true ->
                            Series_load (python d) s w = Ok tt w).
  { intros w0 s H. unfold Series_load. run. now rewrite H. }
  assert (Hsu : forall w s, s_loaded (series_at w s) = false ->
                            Series_unload (python d) s w = Ok tt w).
  { intros w0 s H. unfold Series_unload. run. now rewrite H. }
  assert (Hil : forall w i, i_loaded (instance_at w i) = true ->
                            Instance_load (python d) i w = Ok tt w).
  { intros w0 i H. unfold Instance_load. run. now rewrite H. }
  assert (Hiu : forall w i, i_loaded (instance_at w i) = false ->
                            Instance_unload (python d) i w = Ok tt w).
  { intros w0 i H. unfold Instance_unload. run. now rewrite H. }
  repeat match goal with |- _ /\ _ => split end; auto.
  - intros s w1 H. pose proof (Series_load_Ok _ _ _ H). auto.
  - intros s w1 H. pose proof (Series_unload_Ok _ _ _ H). auto.
  - intros i w1 H. pose proof (Instance_load_Ok _ _ _ H). auto.
  - intros i w1 H. pose proof (Instance_unload_Ok _ _ _ H). auto.
  - intros s w1 w2 H1 H2. split; [eapply Series_unload_Ok; eauto|].
    intros Hst.
    pose proof (Series_load_Ok _ _ _ H1) as Hl.
    pose proof (stable_Ok _ (stable_Series_load d s) H1) as Hsame.
    rewrite <- (same_identity_is_stack s Hsame) in Hst.
    rewrite (Series_unload_stack (python d) _ _ Hst Hl) in H2.
    injection H2 as <-. cbv zeta. rewrite series_at_set_series, mark_loaded_series.
    now rewrite series_at_set_series.
  - intros i w1 w2 H1 H2. split; [eapply Instance_unload_Ok; eauto|].
    intros Hf.
    pose proof (Instance_load_Ok _ _ _ H1) as Hl.
    pose proof (stable_Ok _ (stable_Instance_load d i) H1) as Hsame.
    rewrite <- (same_identity_is_frame i Hsame) in Hf.
    rewrite (Instance_unload_standalone (python d) _ _ Hf Hl) in H2.
    injection H2 as <-. cbv zeta. rewrite !instance_at_set_instance, ?upd_same. reflexivity.
  - intros s p ds Hst Hl Hp Hd.
    rewrite (Series_load_stack (python d) _ _ Hst Hl Hp Hd).
    eexists. split; [reflexivity|]. cbv zeta. split.
    + rewrite series_at_set_series, mark_loaded_series.
      now rewrite series_at_set_series.
    + intros i Hi. apply mark_loaded_flag. left.
      apply Series_instances_In. rewrite series_at_set_series.
      now destruct (series_at w s).
  - intros s Hst Hl.
    rewrite (Series_unload_stack (python d) _ _ Hst Hl).
    eexists. split; [reflexivity|]. cbv zeta. split.
    + rewrite series_at_set_series, mark_loaded_series.
      now rewrite series_at_set_series.
    + intros i Hi. apply mark_loaded_flag. left.
      apply Series_instances_In. rewrite series_at_set_series.
      now destruct (series_at w s).
Qed.

End LoadUnloadLaws.

Lemma load_unload_laws_witness :
  Series_load (E := Demo.externals) (python 1) 1 Demo.loaded_world = Ok tt Demo.loaded_world /\
  Series_unload (E := Demo.externals) (python 1) 1 Demo.world = Ok tt Demo.world /\
  (exists w1,
     Series_load (E := Demo.externals) (python 1) 1 Demo.world = Ok tt w1 /\
     s_dicom (series_at w1 1) = Some Demo.stack /\
     i_loaded (instance_at w1 13) = true) /\
  (exists w2,
     Series_unload (E := Demo.externals) (python 1) 1 Demo.loaded_world = Ok tt w2 /\
     s_dicom (series_at w2 1) = None /\
     i_loaded (instance_at w2 13) = false).
Proof.
  destruct (load_unload_laws (E := Demo.externals) 1 Demo.world)
    as (_ & Hsu & _ & _ & _ & _ & _ & _ & _ & _ & Hstack & _).
  destruct (load_unload_laws (E := Demo.externals) 1 Demo.loaded_world)
    as (Hsl & _ & _ & _ & _ & _ & _ & _ & _ & _ & _ & Hunstack).
  split; [|split; [|split]].
  - apply Hsl. reflexivity.
  - apply Hsu. reflexivity.
  - destruct (Hstack 1%nat "stack.dcm" Demo.stack) as (w1 & H1 & H2 & H3);
      try reflexivity.
    exists w1. repeat split; auto.
    apply H3. simpl. tauto.
  - destruct (Hunstack 1%nat) as (w2 & H1 & H2 & H3); try reflexivity.
    exists w2. repeat split; auto.
    apply H3. simpl. tauto.
Defined.

(** C4 as stated fails on a node that is loaded to begin with: [load()]
    then [unload()] leaves it unloaded, which is not the value [loaded]
    had before. *)
Lemma load_then_unload_forgets_loaded :
  s_loaded (series_at Demo.loaded_world 1) = true /\
  Series_load (E := Demo.externals) (python 1) 1 Demo.loaded_world = Ok tt Demo.loaded_world /\
  exists w2,
    Series_unload (E := Demo.externals) (python 1) 1 Demo.loaded_world = Ok tt w2 /\
    s_loaded (series_at w2 1) = false.
Proof.
  split; [reflexivity|]. split; [reflexivity|].
  eexists. split; reflexivity.
Qed.

(** ** The load state around a tag lookup *)

Section TagLookup.
Context {E : Externals}.

(** [dicom_dataset] of a standalone instance that is loaded. *)
Lemma Instance_dicom_dataset_loaded py w self :
  is_frame (instance_at w self) = false ->
  i_loaded (instance_at w self) = true ->
  Instance_dicom_dataset py self w = Ok (i_dicom (instance_at w self)) w.
Proof.
  intros Hf Hl. unfold Instance_dicom_dataset. run. rewrite Hl. simpl.
  rewrite Hf. reflexivity.
Qed.

(** A lookup miss on a standalone instance that was not loaded: the
    [KeyError] leaves [get_tag] before its closing [unload()]. *)
Lemma Instance_get_tag_miss d w self tag ds e :
  is_frame (instance_at w self) = false ->
  i_loaded (instance_at w self) = false ->
  dcmread (i_filepath (instance_at w self)) = inr ds ->
  get_tag ds tag None = inl e ->
  exists w',
    Instance_get_tag (python (S d)) self tag w = Raise e w' /\
    i_loaded (instance_at w' self) = true.
Proof.
  intros Hf Hl Hd Hmiss.
  unfold Instance_get_tag. run. rewrite Hl. simpl.
  rw (Instance_load_standalone (python d) w self Hf Hl Hd).
  norm. rewrite Hf.
  match goal with
  | |- context [Instance_dicom_dataset ?py self ?w0] =>
      rewrite (Instance_dicom_dataset_loaded py w0 self)
  end.
  - norm. rewrite Hmiss. simpl.
    eexists. split; [reflexivity|]. norm. reflexivity.
  - norm. exact Hf.
  - norm. reflexivity.
Qed.

End TagLookup.

(** C3: evaluated on a lookup miss.  Instance 1 is standalone and not
    loaded, and its file has no WindowCenter: [get_tag] raises [KeyError]
    and leaves the instance loaded.  Series 3 is not loaded and its only
    instance has no RescaleSlope: [get_tags] raises [KeyError] and leaves
    the series loaded. *)
Theorem get_tag_miss_leaves_node_loaded :
  i_loaded (instance_at Demo.world 1) = false /\
  (exists w',
     Instance_get_tag (E := Demo.externals) (python 2) 1 WindowCenter Demo.world
     = Raise KeyError w' /\
     i_loaded (instance_at w' 1) = true) /\
  s_loaded (series_at Demo.world 3) = false /\
  (exists w',
     Series_get_tags (E := Demo.externals) (python 3) 3 RescaleSlope Demo.world
     = Raise KeyError w' /\
     s_loaded (series_at w' 3) = true).
Proof.
  split; [reflexivity|]. split; [|split; [reflexivity|]].
  - exists (world_after (Instance_get_tag (E := Demo.externals) (python 2) 1
                           WindowCenter Demo.world) Demo.world).
    split; [raise_after | vm_compute; reflexivity].
  - exists (world_after (Series_get_tags (E := Demo.externals) (python 3) 3
                           RescaleSlope Demo.world) Demo.world).
    split; [raise_after | vm_compute; reflexivity].
Qed.

(** ** Raw arrays of instances *)

Section RawArray.
Context {E : Externals}.

(** The frame branch of [Instance.raw_array]. *)
Lemma Instance_raw_array_frame d w self n w1 arr w2 frame :
  is_frame (instance_at w self) = true ->
  frame_number (instance_at w self) = Some n ->
  Instance_ensure_loaded (python d) self w = Ok tt w1 ->
  call_Series_raw_array (python d) (i_series (instance_at w self)) w1 = Ok arr w2 ->
  nd_index arr (n - 1) = inr frame ->
  Instance_raw_array (python d) self w = Ok (np_array_1 frame) w2.
Proof.
  intros Hf Hn Hload Hraw Hidx.
  pose proof (stable_Ok _ (stable_Instance_ensure_loaded d self) Hload) as Hsame.
  unfold Instance_raw_array, bind at 1. rewrite Hload.
  unfold bind at 1, read_instance at 1.
  rewrite (same_identity_is_frame self Hsame),
          (same_identity_frame_number self Hsame),
          (same_identity_i_series self Hsame).
  rewrite Hf, Hn. unfold bind at 1. rewrite Hraw.
  unfold bind. rewrite Hidx. reflexivity.
Qed.

(** The frames of a loaded stack: the call of [raw_array] completes at
    every depth and yields the frame of the cached payload. *)
Lemma Instance_raw_array_of_loaded_stack d w self n ds arr frame :
  let I := instance_at w self in
  is_frame I = true ->
  frame_number I = Some n ->
  i_loaded I = true ->
  is_stack (series_at w (i_series I)) = true ->
  s_loaded (series_at w (i_series I)) = true ->
  s_dicom (series_at w (i_series I)) = Some ds ->
  pixel_array ds = inr arr ->
  nd_index arr (n - 1) = inr frame ->
  Series_raw_array (python d) (i_series I) w = Ok arr w /\
  Instance_raw_array (python (S d)) self w = Ok (np_array_1 frame) w.
Proof.
  intros I Hf Hn Hl Hst Hsl Hds Hpix Hidx.
  assert (Hraw : Series_raw_array (python d) (i_series I) w = Ok arr w).
  { unfold Series_raw_array. run. rewrite Hsl. simpl.
    rewrite Hst, Hds. simpl. now rewrite Hpix. }
  split; [exact Hraw|].
  apply (@Instance_raw_array_frame (S d) w self n w arr w frame); auto.
  unfold Instance_ensure_loaded. run. fold I. now rewrite Hl.
Qed.

End RawArray.

(** ** Rescaled arrays *)

Section Rescale.
Context {E : Externals}.

Lemma nd_map_map (f g : number float -> number float) :
  forall a, nd_map g (nd_map f a) = nd_map (fun x => g (f x)) a.
Proof.
  fix IH 1. intros [x|l]; simpl; [reflexivity|]. f_equal.
  induction l as [|y l IHl]; simpl; [reflexivity|].
  now rewrite IH, IHl.
Qed.

(** The three ways through the rescale step. *)
Lemma rescaled_both raw get w a w1 b w2 :
  get RescaleSlope w = Ok (VNum a) w1 ->
  get RescaleIntercept w1 = Ok (VNum b) w2 ->
  rescaled raw get w = Ok (rescale a b raw) w2.
Proof.
  intros Hs Hi. unfold rescaled, try_except, bind. rewrite Hs, Hi. simpl.
  unfold rescale. now rewrite nd_map_map.
Qed.

Lemma rescaled_no_slope raw get w w1 :
  get RescaleSlope w = Raise KeyError w1 ->
  rescaled raw get w = Ok raw w1.
Proof. intros Hs. unfold rescaled, try_except, bind. now rewrite Hs. Qed.

Lemma rescaled_no_intercept raw get w v w1 w2 :
  get RescaleSlope w = Ok v w1 ->
  get RescaleIntercept w1 = Raise KeyError w2 ->
  rescaled raw get w = Ok raw w2.
Proof. intros Hs Hi. unfold rescaled, try_except, bind. now rewrite Hs, Hi. Qed.

(** [Series.array] of a stack and [Instance.array] of a standalone
    instance, up to the rescale step. *)
Lemma Series_array_single_sample d w self w1 arr w2 spp w3 :
  is_stack (series_at w self) = true ->
  Series_ensure_loaded (python d) self w = Ok tt w1 ->
  call_Series_raw_array (python d) self w1 = Ok arr w2 ->
  call_Series_get_tag (python d) self SamplesPerPixel 0 w2 = Ok spp w3 ->
  value_eq_int spp 1 = true ->
  Series_array (python d) self w
  = rescaled (astype_float arr)
      (fun tag => call_Series_get_tag (python d) self tag 0) w3.
Proof.
  intros Hst Hload Hraw Hspp H1.
  pose proof (stable_Ok _ (stable_Series_ensure_loaded d self) Hload) as Hsame.
  unfold Series_array, bind at 1. rewrite Hload.
  unfold bind at 1, read_series at 1.
  rewrite (same_identity_is_stack self Hsame), Hst.
  unfold bind at 1. rewrite Hraw. unfold bind at 1. rewrite Hspp.
  now rewrite H1.
Qed.

Lemma Instance_array_single_sample d w self w1 arr w2 spp w3 :
  is_frame (instance_at w self) = false ->
  Instance_ensure_loaded (python d) self w = Ok tt w1 ->
  call_Instance_raw_array (python d) self w1 = Ok arr w2 ->
  call_Instance_get_tag (python d) self SamplesPerPixel w2 = Ok spp w3 ->
  value_eq_int spp 1 = true ->
  Instance_array (python d) self w
  = rescaled (astype_float arr)
      (fun tag => call_Instance_get_tag (python d) self tag) w3.
Proof.
  intros Hf Hload Hraw Hspp H1.
  pose proof (stable_Ok _ (stable_Instance_ensure_loaded d self) Hload) as Hsame.
  unfold Instance_array, bind at 1. rewrite Hload.
  unfold bind at 1, read_instance at 1.
  rewrite (same_identity_is_frame self Hsame), Hf.
  unfold bind at 1. rewrite Hraw. unfold bind at 1. rewrite Hspp.
  now rewrite H1.
Qed.

(** A non-stack Series concatenates the arrays of its instances, each
    rescaled with its own tags. *)
Lemma Series_array_non_stack d w self w1 arrs w2 :
  is_stack (series_at w self) = false ->
  Series_ensure_loaded (python d) self w = Ok tt w1 ->
  map_M (fun a => call_Instance_array (python d) a) (Series_instances w self) w1
  = Ok arrs w2 ->
  Series_array (python d) self w = lift (np_concatenate arrs) w2.
Proof.
  intros Hst Hload Hmap.
  pose proof (stable_Ok _ (stable_Series_ensure_loaded d self) Hload) as Hsame.
  unfold Series_array, bind at 1. rewrite Hload.
  unfold bind at 1, read_series at 1.
  rewrite (same_identity_is_stack self Hsame), Hst.
  unfold bind at 1, read at 1.
  rewrite (same_identity_instances self Hsame).
  unfold bind. now rewrite Hmap.
Qed.

End Rescale.

(** ** Window, level and pixel size *)

Section Display.
Context {E : Externals}.
Variable ImageCollection_display : display -> nat -> M (value float).
Variable FileImageSet_display : display -> nat -> M (value float).

Lemma window_bound_numbers_add get fallback w ww w1 c w2 :
  get WindowWidth w = Ok (VNum ww) w1 ->
  get WindowCenter w1 = Ok (VNum c) w2 ->
  window_bound py_add get fallback w = Ok (VNum (num_add c (num_half ww))) w2.
Proof.
  intros Hw Hc. unfold window_bound, try_except, bind. now rewrite Hw, Hc.
Qed.

Lemma window_bound_numbers_sub get fallback w ww w1 c w2 :
  get WindowWidth w = Ok (VNum ww) w1 ->
  get WindowCenter w1 = Ok (VNum c) w2 ->
  window_bound py_sub get fallback w = Ok (VNum (num_sub c (num_half ww))) w2.
Proof.
  intros Hw Hc. unfold window_bound, try_except, bind. now rewrite Hw, Hc.
Qed.

Lemma window_bound_no_width op get fallback w e w1 :
  get WindowWidth w = Raise e w1 ->
  bound_absorbs e = true ->
  window_bound op get fallback w = fallback w1.
Proof.
  intros Hw He. unfold window_bound, try_except, bind. rewrite Hw.
  destruct e; try discriminate; reflexivity.
Qed.

Lemma window_bound_no_centre op get fallback w v w1 e w2 :
  get WindowWidth w = Ok v w1 ->
  get WindowCenter w1 = Raise e w2 ->
  bound_absorbs e = true ->
  window_bound op get fallback w = fallback w2.
Proof.
  intros Hw Hc He. unfold window_bound, try_except, bind. rewrite Hw, Hc.
  destruct e; try discriminate; reflexivity.
Qed.

Lemma window_bound_not_numbers op get fallback w vw w1 vc w2 :
  (op = py_add \/ op = py_sub) ->
  get WindowWidth w = Ok vw w1 ->
  get WindowCenter w1 = Ok vc w2 ->
  is_number vw && is_number vc = false ->
  window_bound op get fallback w = fallback w2.
Proof.
  intros Hop Hw Hc Hn. unfold window_bound, try_except, bind. rewrite Hw, Hc.
  destruct vc, vw; simpl in *; try discriminate; try reflexivity;
    destruct Hop as [-> | ->]; reflexivity.
Qed.


End Display.



Section DisplayErrors.
Context {E : Externals}.
Variable ImageCollection_display : display -> nat -> M (value float).

(** Every lookup through a series without children is out of range. *)
Lemma Series_get_tag_empty py w self tag k :
  s_image_set (series_at w self) = [] ->
  Series_get_tag py self tag k w = Raise IndexError w.
Proof.
  intros Hnil. unfold Series_get_tag. run.
  destruct (k <? num_slices (series_at w self)); [|reflexivity].
  rewrite Series_instances_nil by assumption.
  unfold py_index. simpl.
  destruct (0 <=? k); [now destruct (Z.to_nat k)|].
  destruct (-0 <=? k); [now destruct (Z.to_nat (0 + k))|reflexivity].
Qed.

(** On a series without children [vmax], [vmin] and [pixel_size] raise the
    [IndexError] of the lookup, while [window] and [level] catch it and
    become whatever the base class makes of them: a value, or an
    exception of its own. *)
Lemma Series_display_empty d w self :
  s_image_set (series_at w self) = [] ->
  Series_vmax ImageCollection_display (python (S d)) self w = Raise IndexError w /\
  Series_vmin ImageCollection_display (python (S d)) self w = Raise IndexError w /\
  Series_pixel_size (python (S d)) self w = Raise IndexError w /\
  Series_window ImageCollection_display (python (S d)) self w
  = ImageCollection_display Window self w /\
  Series_level ImageCollection_display (python (S d)) self w
  = ImageCollection_display Level self w.
Proof.
  intros Hnil.
  assert (Hget : forall tag k,
             call_Series_get_tag (python (S d)) self tag k w = Raise IndexError w).
  { intros. simpl. now apply Series_get_tag_empty. }
  repeat split.
  - unfold Series_vmax, window_bound, try_except. run. now rw (Hget WindowWidth).
  - unfold Series_vmin, window_bound, try_except. run. now rw (Hget WindowWidth).
  - unfold Series_pixel_size, pixel_size_of, try_except. run.
    now rw (Hget PixelSpacing).
  - unfold Series_window, try_except. run. now rw (Hget WindowWidth).
  - unfold Series_level, try_except. run. now rw (Hget WindowCenter).
Qed.

End DisplayErrors.

(** * Further properties *)

(** ** Loading and unloading a stack, and back *)

Section StackRoundTrip.
Context {E : Externals}.

Lemma mem_In i l : existsb (Nat.eqb i) l = true <-> In i l.
Proof.
  rewrite existsb_exists. split.
  - intros (x & Hx & Heq). apply Nat.eqb_eq in Heq. now subst.
  - intros H. exists i. split; [assumption | apply Nat.eqb_refl].
Qed.

Lemma mark_loaded_instance b l w i :
  instance_at (mark_loaded b l w) i
  = if existsb (Nat.eqb i) l then set_i_loaded b (instance_at w i)
    else instance_at w i.
Proof.
  unfold mark_loaded. revert w.
  induction l as [|x l IH]; intros w; simpl; [reflexivity|].
  rewrite IH. simpl. unfold upd.
  destruct (Nat.eqb i x) eqn:Hx; simpl.
  - apply Nat.eqb_eq in Hx. subst x.
    destruct (existsb (Nat.eqb i) l); [|reflexivity].
    now destruct (instance_at w i).
  - reflexivity.
Qed.

Lemma set_s_round_trip S ds :
  s_loaded S = false -> s_dicom S = None ->
  set_s_loaded false (set_s_dicom None (set_s_loaded true (set_s_dicom (Some ds) S))) = S.
Proof. destruct S; simpl; intros; subst; reflexivity. Qed.

Lemma set_i_loaded_round_trip I :
  i_loaded I = false -> set_i_loaded false (set_i_loaded true I) = I.
Proof. destruct I; simpl; intros; subst; reflexivity. Qed.

Lemma Series_instances_set_series_dicom w self d :
  Series_instances (set_series w self (set_s_dicom d (series_at w self))) self
  = Series_instances w self.
Proof.
  unfold Series_instances. rewrite series_at_set_series.
  now destruct (series_at w self).
Qed.

(** The store [load()] leaves, object by object. *)
Lemma Series_load_stack_store py w self p ds :
  is_stack (series_at w self) = true ->
  s_loaded (series_at w self) = false ->
  s_filepath (series_at w self) = Some p ->
  dcmread p = inr ds ->
  exists w1,
    Series_load py self w = Ok tt w1 /\
    series_at w1 self = set_s_loaded true (set_s_dicom (Some ds) (series_at w self)) /\
    (forall s, s <> self -> series_at w1 s = series_at w s) /\
    (forall i, instance_at w1 i
               = if existsb (Nat.eqb i) (Series_instances w self)
                 then set_i_loaded true (instance_at w i)
                 else instance_at w i).
Proof.
  intros Hst Hl Hp Hd.
  rewrite (Series_load_stack py _ _ Hst Hl Hp Hd).
  eexists. split; [reflexivity|]. cbv zeta. repeat split.
  - rewrite series_at_set_series, mark_loaded_series.
    now rewrite series_at_set_series.
  - intros s Hs. rewrite series_at_set_series_other by assumption.
    rewrite mark_loaded_series. now apply series_at_set_series_other.
  - intros i. change (instance_at (set_series ?a ?b ?c)) with (instance_at a).
    rewrite mark_loaded_instance, Series_instances_set_series_dicom.
    reflexivity.
Qed.

(** The store [unload()] leaves, object by object. *)
Lemma Series_unload_stack_store py w self :
  is_stack (series_at w self) = true ->
  s_loaded (series_at w self) = true ->
  exists w2,
    Series_unload py self w = Ok tt w2 /\
    series_at w2 self = set_s_loaded false (set_s_dicom None (series_at w self)) /\
    (forall s, s <> self -> series_at w2 s = series_at w s) /\
    (forall i, instance_at w2 i
               = if existsb (Nat.eqb i) (Series_instances w self)
                 then set_i_loaded false (instance_at w i)
                 else instance_at w i).
Proof.
  intros Hst Hl.
  rewrite (Series_unload_stack py _ _ Hst Hl).
  eexists. split; [reflexivity|]. cbv zeta. repeat split.
  - rewrite series_at_set_series, mark_loaded_series.
    now rewrite series_at_set_series.
  - intros s Hs. rewrite series_at_set_series_other by assumption.
    rewrite mark_loaded_series. now apply series_at_set_series_other.
  - intros i. change (instance_at (set_series ?a ?b ?c)) with (instance_at a).
    rewrite mark_loaded_instance, Series_instances_set_series_dicom.
    reflexivity.
Qed.

Lemma Series_instances_ext w w' self :
  s_image_set (series_at w' self) = s_image_set (series_at w self) ->
  (forall i, Instance_sort_value (instance_at w' i)
             = Instance_sort_value (instance_at w i)) ->
  Series_instances w' self = Series_instances w self.
Proof.
  intros Hset Hkey. unfold Series_instances. rewrite Hset.
  now apply sorted_by_ext.
Qed.

(** X1: on a stack Series that is unloaded, holds no payload and whose
    children are all unloaded, [load()] followed by [unload()] completes
    when the file decodes and gives back the store it started from:
    every Series and every Instance object is as before. *)
Theorem stack_load_unload_round_trip :
  forall (py : Methods) (w : World) (self : nat) (p : Path) (ds : Dataset),
    is_stack (series_at w self) = true ->
    s_loaded (series_at w self) = false ->
    s_dicom (series_at w self) = None ->
    s_filepath (series_at w self) = Some p ->
    dcmread p = inr ds ->
    children_unloaded w self ->
    exists w1 w2,
      Series_load py self w = Ok tt w1 /\
      Series_unload py self w1 = Ok tt w2 /\
      same_store w w2.
Proof.
  intros py w self p ds Hst Hl Hds Hp Hd Hkids.
  destruct (Series_load_stack_store py _ _ Hst Hl Hp Hd)
    as (w1 & Hload & Hs1 & Hso1 & Hi1).
  assert (Hst1 : is_stack (series_at w1 self) = true).
  { rewrite Hs1. now destruct (series_at w self). }
  assert (Hl1 : s_loaded (series_at w1 self) = true).
  { rewrite Hs1. reflexivity. }
  destruct (Series_unload_stack_store py _ _ Hst1 Hl1)
    as (w2 & Hunload & Hs2 & Hso2 & Hi2).
  assert (Hinst : Series_instances w1 self = Series_instances w self).
  { apply Series_instances_ext.
    - rewrite Hs1. now destruct (series_at w self).
    - intros i. rewrite Hi1.
      destruct (existsb (Nat.eqb i) (Series_instances w self)); [|reflexivity].
      now destruct (instance_at w i). }
  exists w1, w2. split; [exact Hload|]. split; [exact Hunload|]. split.
  - intros s. destruct (Nat.eq_dec s self) as [->|Hne].
    + rewrite Hs2, Hs1. now apply set_s_round_trip.
    + rewrite Hso2, Hso1 by assumption. reflexivity.
  - intros i. rewrite Hi2, Hinst, Hi1.
    destruct (existsb (Nat.eqb i) (Series_instances w self)) eqn:Hin; [|reflexivity].
    apply set_i_loaded_round_trip. apply Hkids.
    apply Series_instances_In. now apply mem_In.
Qed.

End StackRoundTrip.

Lemma stack_load_unload_round_trip_witness :
  exists w1 w2,
    Series_load (E := Demo.externals) (python 1) 1 Demo.world = Ok tt w1 /\
    Series_unload (E := Demo.externals) (python 1) 1 w1 = Ok tt w2 /\
    same_store Demo.world w2.
Proof.
  apply (@stack_load_unload_round_trip Demo.externals (python 1)
           Demo.world 1 "stack.dcm" Demo.stack); try reflexivity.
  intros i Hi. simpl in Hi.
  repeat (destruct Hi as [<-|Hi]; [reflexivity|]). destruct Hi.
Defined.

(** ** Frame views load and unload their stack *)

Section FrameDelegation.
Context {E : Externals}.

(** X2: a frame view has no payload of its own.  [load()] on an unloaded
    frame view of an unloaded stack Series whose file decodes loads the
    Series: the payload is cached and every child of the Series is marked
    loaded.  [unload()] on a loaded frame view of a loaded stack Series
    unloads the Series: the payload is released and every child is marked
    unloaded, so unloading one frame unloads them all. *)
Theorem frame_load_unload_moves_stack :
  forall (d : nat) (w : World) (self : nat),
    let I := instance_at w self in
    let s := i_series I in
    is_frame I = true ->
    is_stack (series_at w s) = true ->
    (forall p ds,
        i_loaded I = false ->
        s_loaded (series_at w s) = false ->
        s_filepath (series_at w s) = Some p ->
        dcmread p = inr ds ->
        exists w',
          Instance_load (python (S d)) self w = Ok tt w' /\
          i_loaded (instance_at w' self) = true /\
          s_loaded (series_at w' s) = true /\
          s_dicom (series_at w' s) = Some ds /\
          forall j, In j (s_image_set (series_at w s)) ->
                    i_loaded (instance_at w' j) = true) /\
    (i_loaded I = true ->
     s_loaded (series_at w s) = true ->
     exists w',
       Instance_unload (python (S d)) self w = Ok tt w' /\
       i_loaded (instance_at w' self) = false /\
       s_loaded (series_at w' s) = false /\
       s_dicom (series_at w' s) = None /\
       forall j, In j (s_image_set (series_at w s)) ->
                 i_loaded (instance_at w' j) = false).
Proof.
  intros d w self I s Hf Hst. split.
  - intros p ds Hl Hsl Hp Hd.
    destruct (Series_load_stack_store (python d) _ _ Hst Hsl Hp Hd)
      as (w1 & Hload & Hs1 & _ & Hi1).
    exists (set_instance w1 self (set_i_loaded true (instance_at w1 self))).
    split.
    + unfold Instance_load. run. fold I. rewrite Hl, Hf. simpl. fold s.
      rw Hload. reflexivity.
    + rewrite instance_at_set_instance. split; [reflexivity|].
      change (series_at (set_instance ?a ?b ?c)) with (series_at a).
      rewrite Hs1. split; [reflexivity|]. split; [reflexivity|].
      intros j Hj. destruct (Nat.eq_dec j self) as [->|Hne].
      * now rewrite instance_at_set_instance.
      * rewrite instance_at_set_instance_other by assumption.
        rewrite Hi1.
        apply Series_instances_In, mem_In in Hj. now rewrite Hj.
  - intros Hl Hsl.
    destruct (Series_unload_stack_store (python d) _ _ Hst Hsl)
      as (w1 & Hunload & Hs1 & _ & Hi1).
    exists (set_instance w1 self (set_i_loaded false (instance_at w1 self))).
    split.
    + unfold Instance_unload. run. fold I. rewrite Hl, Hf. simpl. fold s.
      rw Hunload. reflexivity.
    + rewrite instance_at_set_instance. split; [reflexivity|].
      change (series_at (set_instance ?a ?b ?c)) with (series_at a).
      rewrite Hs1. split; [reflexivity|]. split; [reflexivity|].
      intros j Hj. destruct (Nat.eq_dec j self) as [->|Hne].
      * now rewrite instance_at_set_instance.
      * rewrite instance_at_set_instance_other by assumption.
        rewrite Hi1.
        apply Series_instances_In, mem_In in Hj. now rewrite Hj.
Qed.

End FrameDelegation.

Lemma frame_load_unload_moves_stack_witness :
  (exists w',
     Instance_load (E := Demo.externals) (python 1) 13 Demo.world = Ok tt w' /\
     s_dicom (series_at w' 1) = Some Demo.stack /\
     i_loaded (instance_at w' 15) = true) /\
  (exists w',
     Instance_unload (E := Demo.externals) (python 1) 13 Demo.loaded_world
     = Ok tt w' /\
     s_dicom (series_at w' 1) = None /\
     i_loaded (instance_at w' 15) = false).
Proof.
  split.
  - destruct (proj1 (@frame_load_unload_moves_stack Demo.externals 0 Demo.world
                       13 eq_refl eq_refl) "stack.dcm" Demo.stack)
      as (w' & H1 & _ & _ & H2 & H3); try reflexivity.
    exists w'. repeat split; auto. apply H3. simpl. tauto.
  - destruct (proj2 (@frame_load_unload_moves_stack Demo.externals 0
                       Demo.loaded_world 13 eq_refl eq_refl))
      as (w' & H1 & _ & _ & H2 & H3); try reflexivity.
    exists w'. repeat split; auto. apply H3. simpl. tauto.
Defined.

(** ** A tag lookup that succeeds on a standalone instance *)

Section StandaloneLookup.
Context {E : Externals}.

Lemma set_i_round_trip I ds :
  i_loaded I = false -> i_dicom I = None ->
  set_i_loaded false (set_i_dicom None (set_i_loaded true (set_i_dicom (Some ds) I))) = I.
Proof. destruct I; simpl; intros; subst; reflexivity. Qed.

(** X3: [get_tag] on a standalone Instance.  Not loaded and without a
    dataset: the file is decoded, the value of the tag is returned, and the
    instance is unloaded again, every object of the store being as before.
    Loaded with a dataset: the value is returned and the store is not
    touched.  Marked loaded without a dataset: the result is [None], with
    no error and no change. *)
Theorem standalone_get_tag_restores :
  forall (d : nat) (w : World) (self : nat) (tag : Tag),
    let I := instance_at w self in
    is_frame I = false ->
    (forall ds v,
        i_loaded I = false ->
        i_dicom I = None ->
        dcmread (i_filepath I) = inr ds ->
        get_tag ds tag None = inr v ->
        exists w',
          Instance_get_tag (python (S d)) self tag w = Ok v w' /\
          same_store w w') /\
    (forall ds,
        i_loaded I = true ->
        i_dicom I = Some ds ->
        Instance_get_tag (python (S d)) self tag w = lift (get_tag ds tag None) w) /\
    (i_loaded I = true ->
     i_dicom I = None ->
     Instance_get_tag (python (S d)) self tag w = Ok VNone w).
Proof.
  intros d w self tag I Hf. repeat split.
  - intros ds v Hl Hnone Hd Hv.
    pose (w1 := set_instance w self (set_i_dicom (Some ds) I)).
    pose (w2 := set_instance w1 self (set_i_loaded true (instance_at w1 self))).
    assert (Hload : Instance_load (python d) self w = Ok tt w2)
      by (apply Instance_load_standalone; assumption).
    assert (HI2 : instance_at w2 self = set_i_loaded true (set_i_dicom (Some ds) I)).
    { unfold w2, w1. now rewrite !instance_at_set_instance. }
    assert (Hf2 : is_frame (instance_at w2 self) = false).
    { rewrite HI2. exact Hf. }
    assert (Hl2 : i_loaded (instance_at w2 self) = true).
    { rewrite HI2. reflexivity. }
    pose (w3 := set_instance w2 self (set_i_dicom None (instance_at w2 self))).
    pose (w4 := set_instance w3 self (set_i_loaded false (instance_at w3 self))).
    assert (Hunload : Instance_unload (python d) self w2 = Ok tt w4)
      by (apply Instance_unload_standalone; assumption).
    exists w4. split.
    + unfold Instance_get_tag. unfold bind at 1, read_instance at 1.
      fold I. rewrite Hl. cbn [negb]. unfold bind at 1.
      change (call_Instance_load (python (S d)) self w)
        with (Instance_load (python d) self w).
      rewrite Hload. unfold bind at 1, read_instance at 1. rewrite Hf2.
      unfold bind at 1. unfold bind at 1.
      change (call_Instance_dicom_dataset (python (S d)) self w2)
        with (Instance_dicom_dataset (python d) self w2).
      rewrite (Instance_dicom_dataset_loaded (python d) w2 self Hf2 Hl2).
      rewrite HI2. cbn [i_dicom set_i_loaded set_i_dicom]. rewrite Hv.
      cbn [lift ret]. unfold bind at 1.
      change (call_Instance_unload (python (S d)) self w2)
        with (Instance_unload (python d) self w2).
      rewrite Hunload. reflexivity.
    + split; [reflexivity|]. intros i.
      destruct (Nat.eq_dec i self) as [->|Hne].
      * unfold w4, w3. rewrite !instance_at_set_instance, HI2.
        now apply set_i_round_trip.
      * unfold w4, w3, w2, w1.
        now rewrite !instance_at_set_instance_other by assumption.
  - intros ds Hl Hds.
    unfold Instance_get_tag. unfold bind at 1, read_instance at 1.
    fold I. rewrite Hl. cbn [negb]. unfold bind at 1, ret at 1.
    unfold bind at 1, read_instance at 1. fold I. rewrite Hf.
    unfold bind at 1. unfold bind at 1.
    change (call_Instance_dicom_dataset (python (S d)) self w)
      with (Instance_dicom_dataset (python d) self w).
    rewrite (Instance_dicom_dataset_loaded (python d) w self Hf Hl).
    fold I. rewrite Hds.
    destruct (get_tag ds tag None); reflexivity.
  - intros Hl Hds.
    unfold Instance_get_tag. unfold bind at 1, read_instance at 1.
    fold I. rewrite Hl. cbn [negb]. unfold bind at 1, ret at 1.
    unfold bind at 1, read_instance at 1. fold I. rewrite Hf.
    unfold bind at 1. unfold bind at 1.
    change (call_Instance_dicom_dataset (python (S d)) self w)
      with (Instance_dicom_dataset (python d) self w).
    rewrite (Instance_dicom_dataset_loaded (python d) w self Hf Hl).
    fold I. rewrite Hds. reflexivity.
Qed.

End StandaloneLookup.

Lemma standalone_get_tag_restores_witness :
  (exists w',
     Instance_get_tag (E := Demo.externals) (python 1) 0 WindowCenter Demo.world
     = Ok (Demo.int 40) w' /\
     same_store Demo.world w') /\
  (exists w,
     Instance_load (E := Demo.externals) (python 1) 0 Demo.world = Ok tt w /\
     Instance_get_tag (E := Demo.externals) (python 1) 0 WindowCenter w
     = Ok (Demo.int 40) w).
Proof.
  split.
  - apply (proj1 (@standalone_get_tag_restores Demo.externals 0 Demo.world 0
                    WindowCenter eq_refl) Demo.mr); reflexivity.
  - pose (w := world_after (Instance_load (E := Demo.externals) (python 1) 0
                              Demo.world) Demo.world).
    exists w. split; [ok_after|].
    rewrite (proj1 (proj2 (@standalone_get_tag_restores Demo.externals 0 w 0
                             WindowCenter eq_refl)) Demo.mr);
      reflexivity.
Defined.

(** ** The tag values of a stack *)

Section StackTags.
Context {E : Externals}.

(** The lookup a frame view makes once its stack is loaded. *)
Lemma frame_get_tag_loaded d w i tag n ds :
  is_frame (instance_at w i) = true ->
  frame_number (instance_at w i) = Some n ->
  i_loaded (instance_at w i) = true ->
  is_stack (series_at w (i_series (instance_at w i))) = true ->
  s_loaded (series_at w (i_series (instance_at w i))) = true ->
  s_dicom (series_at w (i_series (instance_at w i))) = Some ds ->
  Instance_get_tag (python (S d)) i tag w = lift (get_tag ds tag (Some n)) w.
Proof.
  intros Hf Hn Hl Hst Hsl Hds.
  unfold Instance_get_tag. unfold bind at 1, read_instance at 1.
  rewrite Hl. cbn [negb]. unfold bind at 1, ret at 1.
  unfold bind at 1, read_instance at 1. rewrite Hf, Hn.
  unfold bind at 1. unfold bind at 1.
  change (call_Series_dicom_dataset (python (S d)) ?s w)
    with (Series_dicom_dataset (python d) s w).
  assert (Hdd : Series_dicom_dataset (python d) (i_series (instance_at w i)) w
                = Ok (Some ds) w).
  { unfold Series_dicom_dataset. run. rewrite Hsl. simpl. rewrite Hst. simpl.
    now rewrite Hds. }
  rewrite Hdd. destruct (get_tag ds tag (Some n)); reflexivity.
Qed.

Lemma Forall2_strengthen A B (P Q : A -> B -> Prop) l l' :
  (forall a b, In a l -> P a b -> Q a b) ->
  Forall2 P l l' -> Forall2 Q l l'.
Proof.
  intros H Hall. induction Hall as [|a b l l' Hab _ IH]; constructor.
  - apply H; [now left | assumption].
  - apply IH. intros a' b' Hin. apply H. now right.
Qed.

(** The values a list of frame views yields, in order. *)
Lemma map_get_tag_frames d w self tag ds l values :
  is_stack (series_at w self) = true ->
  s_loaded (series_at w self) = true ->
  s_dicom (series_at w self) = Some ds ->
  Forall2 (fun i v =>
             is_frame (instance_at w i) = true /\
             i_series (instance_at w i) = self /\
             i_loaded (instance_at w i) = true /\
             exists n, frame_number (instance_at w i) = Some n /\
                       get_tag ds tag (Some n) = inr v) l values ->
  map_M (fun i => call_Instance_get_tag (python (S (S d))) i tag) l w = Ok values w.
Proof.
  intros Hst Hsl Hds Hall.
  induction Hall as [|i v l values Hi _ IH]; cbn [map_M].
  - reflexivity.
  - destruct Hi as (Hf & Hs & Hl & n & Hn & Hv).
    unfold bind at 1.
    change (call_Instance_get_tag (python (S (S d))) i tag w)
      with (Instance_get_tag (python (S d)) i tag w).
    rewrite (@frame_get_tag_loaded d w i tag n ds); try assumption;
      try (rewrite Hs; assumption).
    rewrite Hv. cbn [lift ret]. unfold bind at 1.
    rewrite IH. reflexivity.
Qed.

(** X4: [get_tags] on an unloaded stack Series whose children are its
    frame views and whose file decodes: when the tag resolves for every
    frame, the result lists the per-frame values in the sort order of the
    frames, and the Series ends unloaded with its payload released and
    every frame view unloaded. *)
Theorem stack_get_tags_values :
  forall (d : nat) (w : World) (self : nat) (tag : Tag) (p : Path)
         (ds : Dataset) (values : list (value float)),
    is_stack (series_at w self) = true ->
    s_loaded (series_at w self) = false ->
    s_filepath (series_at w self) = Some p ->
    dcmread p = inr ds ->
    children_are_frames w self ->
    Forall2 (fun i v =>
               exists n, frame_number (instance_at w i) = Some n /\
                         get_tag ds tag (Some n) = inr v)
            (Series_instances w self) values ->
    exists w',
      Series_get_tags (python (S (S d))) self tag w = Ok values w' /\
      s_loaded (series_at w' self) = false /\
      s_dicom (series_at w' self) = None /\
      forall i, In i (s_image_set (series_at w self)) ->
                i_loaded (instance_at w' i) = false.
Proof.
  intros d w self tag p ds values Hst Hsl Hp Hd Hkids Hvals.
  destruct (Series_load_stack_store (python (S d)) _ _ Hst Hsl Hp Hd)
    as (w1 & Hload & Hs1 & _ & Hi1).
  assert (Hst1 : is_stack (series_at w1 self) = true).
  { rewrite Hs1. now destruct (series_at w self). }
  assert (Hsl1 : s_loaded (series_at w1 self) = true) by (now rewrite Hs1).
  assert (Hds1 : s_dicom (series_at w1 self) = Some ds) by (now rewrite Hs1).
  assert (Hset1 : s_image_set (series_at w1 self) = s_image_set (series_at w self)).
  { rewrite Hs1. now destruct (series_at w self). }
  assert (Hinst : Series_instances w1 self = Series_instances w self).
  { apply Series_instances_ext; [exact Hset1|].
    intros i. rewrite Hi1.
    destruct (existsb (Nat.eqb i) (Series_instances w self)); [|reflexivity].
    now destruct (instance_at w i). }
  destruct (Series_unload_stack_store (python (S d)) _ _ Hst1 Hsl1)
    as (w2 & Hunload & Hs2 & _ & Hi2).
  exists w2. split.
  - unfold Series_get_tags. unfold bind at 1, read_series at 1.
    rewrite Hsl. cbn [negb]. unfold bind at 1.
    change (call_Series_load (python (S (S d))) self w)
      with (Series_load (python (S d)) self w).
    rewrite Hload. unfold bind at 1, read at 1. rewrite Hinst.
    unfold bind at 1.
    rewrite (@map_get_tag_frames d w1 self tag ds (Series_instances w self) values);
      try assumption.
    + unfold bind at 1.
      change (call_Series_unload (python (S (S d))) self w1)
        with (Series_unload (python (S d)) self w1).
      rewrite Hunload. reflexivity.
    + eapply Forall2_strengthen; [|exact Hvals].
      intros i v Hin (n & Hn & Hv).
      apply Series_instances_In in Hin.
      destruct (Hkids i Hin) as (Hf & Hs & _).
      assert (Hmem : existsb (Nat.eqb i) (Series_instances w self) = true)
        by (now apply mem_In, Series_instances_In).
      rewrite Hi1, Hmem.
      repeat split; try (now destruct (instance_at w i)).
      exists n. split; [|exact Hv]. rewrite <- Hn. now destruct (instance_at w i).
  - rewrite Hs2. split; [reflexivity|]. split; [reflexivity|].
    intros i Hin. rewrite Hi2, Hinst.
    assert (Hmem : existsb (Nat.eqb i) (Series_instances w self) = true)
      by (now apply mem_In, Series_instances_In).
    now rewrite Hmem.
Qed.

End StackTags.

Lemma stack_get_tags_values_witness :
  exists w',
    Series_get_tags (E := Demo.externals) (python 2) 1 RescaleSlope Demo.world
    = Ok [Demo.int 2; Demo.int 2; Demo.int 2; Demo.int 2; Demo.int 2] w' /\
    s_loaded (series_at w' 1) = false /\
    s_dicom (series_at w' 1) = None /\
    i_loaded (instance_at w' 13) = false.
Proof.
  destruct (@stack_get_tags_values Demo.externals 0 Demo.world 1 RescaleSlope
              "stack.dcm" Demo.stack
              [Demo.int 2; Demo.int 2; Demo.int 2; Demo.int 2; Demo.int 2])
    as (w' & H1 & H2 & H3 & H4); try reflexivity.
  - intros i Hi. simpl in Hi.
    repeat (destruct Hi as [<-|Hi];
            [repeat split; eexists; reflexivity|]).
    destruct Hi.
  - change (Series_instances Demo.world 1) with [11; 12; 13; 14; 15]%nat.
    repeat (constructor; [eexists; split; reflexivity|]). constructor.
  - exists w'. repeat split; auto. apply H4. simpl. tauto.
Defined.

(** ** What the child set of a series keeps true *)

Section ChildSet.
Context {E : Externals}.

(** The two ways [add_instance] ends. *)
Lemma add_instance_outcome w self i :
  let S := series_at w self in
  let I := instance_at w i in
  if (num_slices S =? 0) || compatibleb S I then
    exists w',
      Series_add_instance self i w = Ok tt w' /\
      instance_at w' = instance_at w /\
      s_image_set (series_at w' self) = set_add w i (s_image_set S) /\
      s_shape (series_at w' self)
      = (Z.of_nat (List.length (set_add w i (s_image_set S))),
         height (i_shape I), width (i_shape I)) /\
      s_is_multisample (series_at w' self) = i_is_multisample I /\
      s_is_rgb (series_at w' self) = i_is_rgb I
  else Series_add_instance self i w = Raise ValueError w.
Proof.
  intros S I. unfold Series_add_instance. run. fold S I.
  unfold compatibleb.
  destruct ((num_slices S =? 0)
            || (height (s_shape S) =? height (i_shape I))
               && (width (s_shape S) =? width (i_shape I))
               && Bool.eqb (s_is_multisample S) (i_is_multisample I)
               && Bool.eqb (s_is_rgb S) (i_is_rgb I)); [|reflexivity].
  run. eexists. split; [reflexivity|]. norm. repeat split.
Qed.

Lemma set_add_In w x l y : In y (set_add w x l) -> In y l \/ y = x.
Proof.
  unfold set_add.
  destruct (existsb _ l); [now left|].
  intros H. apply in_app_or in H. destruct H as [H|[H|[]]]; auto.
Qed.

Lemma set_add_NoDup w x l : NoDup l -> NoDup (set_add w x l).
Proof.
  intros Hl. unfold set_add.
  destruct (existsb _ l) eqn:Hex; [assumption|].
  assert (Hnot : ~ In x l).
  { intros Hin.
    assert (Htrue : existsb (fun y => (FileImageSet_hash w y =? FileImageSet_hash w x)
                                      && Instance_eq w y (ObjInstance x)) l = true).
    { apply existsb_exists. exists x. split; [assumption|].
      simpl. now rewrite !Z.eqb_refl. }
    congruence. }
  clear Hex. induction Hl as [|a l Ha _ IH]; simpl.
  - constructor; [tauto | constructor].
  - constructor.
    + intros Hin. apply in_app_or in Hin.
      destruct Hin as [Hin|[Hin|[]]]; [tauto|]. subst. apply Hnot. now left.
    + apply IH. intros Hin. apply Hnot. now right.
Qed.

(** X5: [add_instance] keeps the child set of a Series consistent,
    whether it accepts the candidate or rejects it: the slice count is
    the number of children, no child is held twice, and every child has
    the height, width, multisample and RGB values of the Series.  So a
    Series that starts without children and with slice count 0, as the
    constructor leaves a non-stack Series, is consistent after any
    sequence of [add_instance] calls. *)
Theorem add_instance_keeps_consistent :
  forall (w : World) (self : nat) (l : list nat),
    (series_consistent w self -> series_consistent (add_instances self l w) self) /\
    (s_image_set (series_at w self) = [] ->
     num_slices (series_at w self) = 0 ->
     series_consistent (add_instances self l w) self).
Proof.
  assert (Hstep : forall w self i,
             series_consistent w self ->
             series_consistent (world_after (Series_add_instance self i w) w) self).
  { intros w self i (Hn & Hnd & Hc).
    pose proof (add_instance_outcome w self i) as Hout. cbv zeta in Hout.
    destruct ((num_slices (series_at w self) =? 0)
              || compatibleb (series_at w self) (instance_at w i)) eqn:Hgate.
    - destruct Hout as (w' & Hrun & Hi & Hset & Hshape & Hms & Hrgb).
      rewrite Hrun. simpl. unfold series_consistent. cbv zeta.
      rewrite Hset. split; [|split].
      + unfold num_slices. now rewrite Hshape.
      + now apply set_add_NoDup.
      + intros c Hin. rewrite Hi. unfold compatible.
        rewrite Hshape, Hms, Hrgb. unfold height, width. simpl.
        apply set_add_In in Hin. destruct Hin as [Hin| ->]; [|repeat split].
        apply orb_true_iff in Hgate. destruct Hgate as [Hz|Hcomp].
        * apply Z.eqb_eq in Hz. rewrite Hz in Hn.
          destruct (s_image_set (series_at w self)); [destruct Hin|].
          simpl in Hn. lia.
        * apply compatibleb_spec in Hcomp.
          destruct Hcomp as (H1 & H2 & H3 & H4).
          destruct (Hc c Hin) as (C1 & C2 & C3 & C4).
          unfold height, width in *. repeat split; congruence.
    - rewrite Hout. simpl. exact (conj Hn (conj Hnd Hc)). }
  assert (Hall : forall self l w,
             series_consistent w self ->
             series_consistent (add_instances self l w) self).
  { intros self l. unfold add_instances.
    induction l as [|i l IH]; intros w Hw; simpl; [assumption|].
    apply IH. now apply Hstep. }
  intros w self l. split; [apply Hall|].
  intros Hnil Hz. apply Hall. unfold series_consistent. cbv zeta.
  rewrite Hnil, Hz. split; [reflexivity|]. split; [apply NoDup_nil | intros c []].
Qed.

End ChildSet.

Lemma add_instance_keeps_consistent_witness :
  series_consistent (add_instances (E := Demo.externals) 0 [1; 4; 2; 1]%nat Demo.world) 0 /\
  s_image_set (series_at (add_instances (E := Demo.externals) 0 [1; 4; 2; 1]%nat
                            Demo.world) 0)
  = [1; 2]%nat.
Proof.
  split.
  - apply (proj2 (@add_instance_keeps_consistent Demo.externals Demo.world 0
                    [1; 4; 2; 1]%nat)); reflexivity.
  - vm_compute. reflexivity.
Defined.

(** ** Construction of a series *)

Section Construction.
Context {E : Externals}.

(** X6: [Series.__init__].  A non-stack Series is always built, with
    shape (0, 0, 0) and both flags false.  A stack without a file path is
    a [FileNotFoundError], also when an open dataset is passed; a stack
    whose file does not decode raises the error of the decoder.  Whatever
    Series is built is not loaded, holds no dataset and no children, and
    has equal multisample and RGB flags: the dataset read for the shape
    is not kept. *)
Theorem Series_init_outcomes :
  forall (study : Study) (id : string) (number acquisition : Z)
         (description : string) (stack : bool) (open_dicom : option Dataset)
         (filepath : option Path),
    (stack = false ->
     exists S,
       Series_init study id number acquisition description stack open_dicom filepath
       = inr S /\
       s_shape S = (0, 0, 0) /\ s_is_multisample S = false /\ s_is_rgb S = false) /\
    (stack = true -> filepath = None ->
     Series_init study id number acquisition description stack open_dicom filepath
     = inl FileNotFoundError) /\
    (forall p e,
        stack = true -> filepath = Some p -> open_dicom = None ->
        dcmread p = inl e ->
        Series_init study id number acquisition description stack open_dicom filepath
        = inl e) /\
    (forall S,
        Series_init study id number acquisition description stack open_dicom filepath
        = inr S ->
        s_loaded S = false /\ s_dicom S = None /\ s_image_set S = [] /\
        s_is_multisample S = s_is_rgb S /\ is_stack S = stack /\
        s_filepath S = filepath /\ s_current_slice S = 0).
Proof.
  intros study id number acquisition description stack open_dicom filepath.
  repeat split.
  - intros ->. eexists. split; [reflexivity|]. repeat split.
  - intros -> ->. reflexivity.
  - intros p e -> -> -> He. unfold Series_init. now rewrite He.
  - revert H. unfold Series_init.
    repeat match goal with
           | |- context [match ?x with _ => _ end] => destruct x
           end; intros H; inversion H; reflexivity.
  - revert H. unfold Series_init.
    repeat match goal with
           | |- context [match ?x with _ => _ end] => destruct x
           end; intros H; inversion H; reflexivity.
  - revert H. unfold Series_init.
    repeat match goal with
           | |- context [match ?x with _ => _ end] => destruct x
           end; intros H; inversion H; reflexivity.
  - revert H. unfold Series_init.
    repeat match goal with
           | |- context [match ?x with _ => _ end] => destruct x
           end; intros H; inversion H; reflexivity.
  - revert H. unfold Series_init.
    repeat match goal with
           | |- context [match ?x with _ => _ end] => destruct x
           end; intros H; inversion H; reflexivity.
  - revert H. unfold Series_init.
    repeat match goal with
           | |- context [match ?x with _ => _ end] => destruct x
           end; intros H; inversion H; reflexivity.
  - revert H. unfold Series_init.
    repeat match goal with
           | |- context [match ?x with _ => _ end] => destruct x
           end; intros H; inversion H; reflexivity.
Qed.

End Construction.

Lemma Series_init_outcomes_witness :
  Series_init (E := Demo.externals) Demo.no_study "SE9" 9 1 "none" true
              (Some Demo.stack) None
  = inl FileNotFoundError /\
  Series_init (E := Demo.externals) Demo.no_study "SE9" 9 1 "none" true
              None (Some "missing.dcm")
  = inl InvalidDicomError /\
  s_dicom (series_at Demo.world 4) = None.
Proof.
  destruct (@Series_init_outcomes Demo.externals Demo.no_study "SE9" 9 1 "none"
              true (Some Demo.stack) None) as (_ & Hnone & _).
  destruct (@Series_init_outcomes Demo.externals Demo.no_study "SE9" 9 1 "none"
              true None (Some "missing.dcm")) as (_ & _ & Hbad & _).
  destruct (@Series_init_outcomes Demo.externals Demo.no_study "SE4" 5 1 "fresh"
              true None (Some "stack.dcm")) as (_ & _ & _ & Hbuilt).
  split; [|split].
  - apply Hnone; reflexivity.
  - apply (Hbad "missing.dcm"); reflexivity.
  - apply (Hbuilt (series_at Demo.world 4)). reflexivity.
Defined.

(** ** A file that does not decode *)

Section DecodeFailure.
Context {E : Externals}.

Lemma Instance_load_fails py w self e :
  is_frame (instance_at w self) = false ->
  i_loaded (instance_at w self) = false ->
  dcmread (i_filepath (instance_at w self)) = inl e ->
  Instance_load py self w = Raise e w.
Proof.
  intros Hf Hl Hd. unfold Instance_load. run. rewrite Hl, Hf. simpl.
  now rewrite Hd.
Qed.

Lemma Series_load_fails py w self p e :
  is_stack (series_at w self) = true ->
  s_loaded (series_at w self) = false ->
  s_filepath (series_at w self) = Some p ->
  dcmread p = inl e ->
  Series_load py self w = Raise e w.
Proof.
  intros Hst Hl Hp Hd. unfold Series_load, Series_filepath. run.
  rewrite Hl, Hst. simpl. rewrite Hp. simpl. now rewrite Hd.
Qed.

(** X7: the error of the decoder reaches the caller of every accessor and
    the store stays as it was.  For a standalone Instance that is not
    loaded and whose file does not decode, [load], [raw_array], [array],
    [get_tag] and [dicom_dataset] all raise that error; so do [load],
    [raw_array], [array], [get_tags] and [dicom_dataset] of an unloaded
    stack Series.  In particular [raw_array] gives no zero placeholder
    for a file that cannot be read. *)
Theorem decode_error_propagates :
  forall (d : nat) (w : World) (self : nat) (tag : Tag) (e : exn),
    (is_frame (instance_at w self) = false ->
     i_loaded (instance_at w self) = false ->
     dcmread (i_filepath (instance_at w self)) = inl e ->
     Instance_load (python d) self w = Raise e w /\
     Instance_raw_array (python (S d)) self w = Raise e w /\
     Instance_array (python (S d)) self w = Raise e w /\
     Instance_get_tag (python (S d)) self tag w = Raise e w /\
     Instance_dicom_dataset (python (S d)) self w = Raise e w) /\
    (forall p,
        is_stack (series_at w self) = true ->
        s_loaded (series_at w self) = false ->
        s_filepath (series_at w self) = Some p ->
        dcmread p = inl e ->
        Series_load (python d) self w = Raise e w /\
        Series_raw_array (python (S d)) self w = Raise e w /\
        Series_array (python (S d)) self w = Raise e w /\
        Series_get_tags (python (S d)) self tag w = Raise e w /\
        Series_dicom_dataset (python (S d)) self w = Raise e w).
Proof.
  intros d w self tag e. split.
  - intros Hf Hl Hd.
    pose proof (Instance_load_fails (python d) w self Hf Hl Hd) as Hload.
    split; [exact Hload|].
    repeat split.
    + unfold Instance_raw_array, Instance_ensure_loaded. run. rewrite Hl.
      simpl. now rw Hload.
    + unfold Instance_array, Instance_ensure_loaded. run. rewrite Hl.
      simpl. now rw Hload.
    + unfold Instance_get_tag. run. rewrite Hl. simpl. now rw Hload.
    + unfold Instance_dicom_dataset. run. rewrite Hl. simpl. now rw Hload.
  - intros p Hst Hl Hp Hd.
    pose proof (Series_load_fails (python d) w self Hst Hl Hp Hd) as Hload.
    split; [exact Hload|].
    repeat split.
    + unfold Series_raw_array, Series_ensure_loaded. run. rewrite Hl.
      simpl. now rw Hload.
    + unfold Series_array, Series_ensure_loaded. run. rewrite Hl.
      simpl. now rw Hload.
    + unfold Series_get_tags. run. rewrite Hl. simpl. now rw Hload.
    + unfold Series_dicom_dataset. run. rewrite Hl. simpl. now rw Hload.
Qed.

End DecodeFailure.

Lemma decode_error_propagates_witness :
  Instance_raw_array (E := Demo.externals) (python 1) 7 Demo.world
  = Raise InvalidDicomError Demo.world /\
  Instance_get_tag (E := Demo.externals) (python 1) 7 WindowCenter Demo.world
  = Raise InvalidDicomError Demo.world.
Proof.
  destruct (proj1 (@decode_error_propagates Demo.externals 0 Demo.world 7
                     WindowCenter InvalidDicomError))
    as (_ & Hraw & _ & Htag & _); try reflexivity.
  split; assumption.
Defined.

(** ** The raw array and the dataset of a stack *)

Lemma py_index_nil A (k : Z) : py_index (@nil A) k = None.
Proof.
  unfold py_index. simpl.
  destruct (0 <=? k); [now destruct (Z.to_nat k)|].
  destruct (-0 <=? k); [now destruct (Z.to_nat (0 + k))|reflexivity].
Qed.

Section StackPayload.
Context {E : Externals}.

(** X8: [Series.raw_array] of a stack is the pixel array of its payload.
    When the Series is loaded it is read from the cached dataset and the
    store is not touched; when the Series is not loaded and its file
    decodes, the file is loaded first and the Series stays loaded, with
    the payload cached and every child marked loaded. *)
Theorem stack_raw_array_is_payload :
  forall (d : nat) (w : World) (self : nat) (ds : Dataset),
    is_stack (series_at w self) = true ->
    (s_loaded (series_at w self) = true ->
     s_dicom (series_at w self) = Some ds ->
     Series_raw_array (python d) self w = lift (pixel_array ds) w) /\
    (forall p,
        s_loaded (series_at w self) = false ->
        s_filepath (series_at w self) = Some p ->
        dcmread p = inr ds ->
        exists w1,
          Series_raw_array (python (S d)) self w = lift (pixel_array ds) w1 /\
          s_loaded (series_at w1 self) = true /\
          s_dicom (series_at w1 self) = Some ds /\
          forall i, In i (s_image_set (series_at w self)) ->
                    i_loaded (instance_at w1 i) = true).
Proof.
  intros d w self ds Hst. split.
  - intros Hl Hds. unfold Series_raw_array, Series_ensure_loaded. run.
    rewrite Hl. simpl. now rewrite Hst, Hds.
  - intros p Hl Hp Hd.
    destruct (Series_load_stack_store (python d) _ _ Hst Hl Hp Hd)
      as (w1 & Hload & Hs1 & _ & Hi1).
    exists w1. split; [|split; [now rewrite Hs1 | split; [now rewrite Hs1|]]].
    + unfold Series_raw_array, Series_ensure_loaded.
      unfold bind at 1. unfold bind at 1, read_series at 1. rewrite Hl.
      cbn [negb].
      change (call_Series_load (python (S d)) self w)
        with (Series_load (python d) self w).
      rewrite Hload. unfold bind at 1, read_series at 1. rewrite Hs1.
      replace (is_stack (set_s_loaded true (set_s_dicom (Some ds) (series_at w self))))
        with true by (now destruct (series_at w self)).
      reflexivity.
    + intros i Hi. rewrite Hi1.
      apply Series_instances_In, mem_In in Hi. now rewrite Hi.
Qed.

(** The round trip of a stack, with the store in between. *)
Lemma stack_load_then_unload py w self p ds :
  is_stack (series_at w self) = true ->
  s_loaded (series_at w self) = false ->
  s_dicom (series_at w self) = None ->
  s_filepath (series_at w self) = Some p ->
  dcmread p = inr ds ->
  children_unloaded w self ->
  exists w1 w2,
    Series_load py self w = Ok tt w1 /\
    series_at w1 self = set_s_loaded true (set_s_dicom (Some ds) (series_at w self)) /\
    Series_unload py self w1 = Ok tt w2 /\
    same_store w w2.
Proof.
  intros Hst Hl Hds Hp Hd Hkids.
  destruct (Series_load_stack_store py _ _ Hst Hl Hp Hd)
    as (w1 & Hload & Hs1 & Hso1 & Hi1).
  assert (Hst1 : is_stack (series_at w1 self) = true).
  { rewrite Hs1. now destruct (series_at w self). }
  assert (Hl1 : s_loaded (series_at w1 self) = true).
  { rewrite Hs1. reflexivity. }
  destruct (Series_unload_stack_store py _ _ Hst1 Hl1)
    as (w2 & Hunload & Hs2 & Hso2 & Hi2).
  assert (Hinst : Series_instances w1 self = Series_instances w self).
  { apply Series_instances_ext.
    - rewrite Hs1. now destruct (series_at w self).
    - intros i. rewrite Hi1.
      destruct (existsb (Nat.eqb i) (Series_instances w self)); [|reflexivity].
      now destruct (instance_at w i). }
  exists w1, w2. split; [exact Hload|]. split; [exact Hs1|].
  split; [exact Hunload|]. split.
  - intros s. destruct (Nat.eq_dec s self) as [->|Hne].
    + rewrite Hs2, Hs1. now apply set_s_round_trip.
    + rewrite Hso2, Hso1 by assumption. reflexivity.
  - intros i. rewrite Hi2, Hinst, Hi1.
    destruct (existsb (Nat.eqb i) (Series_instances w self)) eqn:Hin; [|reflexivity].
    apply set_i_loaded_round_trip. apply Hkids.
    apply Series_instances_In. now apply mem_In.
Qed.

(** X9: [Series.dicom_dataset] of a stack.  Loaded: the cached dataset,
    the store untouched.  Not loaded, with no dataset and all children
    unloaded, and a file that decodes: the decoded dataset is returned
    and the Series is unloaded again, every object of the store being as
    before.  On a non-stack Series without children the property raises
    [IndexError]. *)
Theorem Series_dicom_dataset_outcomes :
  forall (d : nat) (w : World) (self : nat),
    (is_stack (series_at w self) = true ->
     s_loaded (series_at w self) = true ->
     Series_dicom_dataset (python d) self w = Ok (s_dicom (series_at w self)) w) /\
    (forall p ds,
        is_stack (series_at w self) = true ->
        s_loaded (series_at w self) = false ->
        s_dicom (series_at w self) = None ->
        s_filepath (series_at w self) = Some p ->
        dcmread p = inr ds ->
        children_unloaded w self ->
        exists w',
          Series_dicom_dataset (python (S d)) self w = Ok (Some ds) w' /\
          same_store w w') /\
    (is_stack (series_at w self) = false ->
     s_image_set (series_at w self) = [] ->
     Series_dicom_dataset (python (S d)) self w
     = Raise IndexError (loaded_empty w self)).
Proof.
  intros d w self. repeat split.
  - intros Hst Hl. unfold Series_dicom_dataset. run. rewrite Hl. simpl.
    now rewrite Hst.
  - intros p ds Hst Hl Hds Hp Hd Hkids.
    destruct (@stack_load_then_unload (python d) w self p ds Hst Hl Hds Hp Hd Hkids)
      as (w1 & w2 & Hload & Hs1 & Hunload & Hsame).
    exists w2. split; [|exact Hsame].
    unfold Series_dicom_dataset. unfold bind at 1, read_series at 1.
    rewrite Hl. cbn [negb]. unfold bind at 1.
    change (call_Series_load (python (S d)) self w)
      with (Series_load (python d) self w).
    rewrite Hload. unfold bind at 1, read_series at 1. rewrite Hs1.
    replace (is_stack (set_s_loaded true (set_s_dicom (Some ds) (series_at w self))))
      with true by (now destruct (series_at w self)).
    unfold bind at 1, ret at 1. unfold bind at 1.
    change (call_Series_unload (python (S d)) self w1)
      with (Series_unload (python d) self w1).
    rewrite Hunload. reflexivity.
  - intros Hst Hnil. unfold Series_dicom_dataset, loaded_empty. run.
    destruct (s_loaded (series_at w self)) eqn:Hl; simpl.
    + rewrite Hst. run. rewrite Series_instances_nil by assumption.
      now rewrite py_index_nil.
    + assert (Hload : Series_load (python d) self w
                      = Ok tt (set_series w self (set_s_loaded true (series_at w self)))).
      { unfold Series_load. run. rewrite Hl, Hst. simpl.
        rewrite Series_instances_nil by assumption. reflexivity. }
      rw Hload. norm. rewrite Hst.
      rewrite Series_instances_nil
        by (rewrite series_at_set_series; now destruct (series_at w self)).
      now rewrite py_index_nil.
Qed.

End StackPayload.

Lemma stack_raw_array_is_payload_witness :
  Series_raw_array (E := Demo.externals) (python 0) 1 Demo.loaded_world
  = Ok (Demo.pixels Demo.stack) Demo.loaded_world /\
  exists w1,
    Series_raw_array (E := Demo.externals) (python 1) 1 Demo.world
    = Ok (Demo.pixels Demo.stack) w1 /\
    s_loaded (series_at w1 1) = true.
Proof.
  destruct (@stack_raw_array_is_payload Demo.externals 0 Demo.loaded_world 1
              Demo.stack eq_refl) as [Hloaded _].
  destruct (@stack_raw_array_is_payload Demo.externals 0 Demo.world 1
              Demo.stack eq_refl) as [_ Hfresh].
  split.
  - apply Hloaded; reflexivity.
  - destruct (Hfresh "stack.dcm") as (w1 & H1 & H2 & _); try reflexivity.
    exists w1. split; assumption.
Defined.

Lemma Series_dicom_dataset_outcomes_witness :
  (exists w',
     Series_dicom_dataset (E := Demo.externals) (python 1) 1 Demo.world
     = Ok (Some Demo.stack) w' /\
     same_store Demo.world w') /\
  Series_dicom_dataset (E := Demo.externals) (python 1) 0 Demo.world
  = Raise IndexError (loaded_empty Demo.world 0).
Proof.
  destruct (@Series_dicom_dataset_outcomes Demo.externals 0 Demo.world 1)
    as (_ & Hstack & _).
  destruct (@Series_dicom_dataset_outcomes Demo.externals 0 Demo.world 0)
    as (_ & _ & Hempty).
  split.
  - apply (Hstack "stack.dcm" Demo.stack); try reflexivity.
    intros i Hi. simpl in Hi.
    repeat (destruct Hi as [<-|Hi]; [reflexivity|]). destruct Hi.
  - apply Hempty; reflexivity.
Defined.

(** ** Pixel size *)

Section PixelSize.
Context {E : Externals}.

Lemma pixel_size_of_resolved get w sp w1 st w2 :
  resolved get PixelSpacing (VSeq [VNum (PyInt 1); VNum (PyInt 1)]) w sp w1 ->
  resolved get SliceThickness (VNum (PyInt 1)) w1 st w2 ->
  pixel_size_of get w
  = try_except
      (row_spacing <- lift (py_getitem sp 0) ;;
       column_spacing <- lift (py_getitem sp 1) ;;
       ret (st, row_spacing, column_spacing))
      (fun e => match e with
                | TypeError => Some (ret (st, VNum (PyInt 1), VNum (PyInt 1)))
                | _ => None
                end) w2.
Proof.
  intros Hsp Hst. unfold pixel_size_of.
  unfold bind at 1.
  destruct Hsp as [(v' & Hget & ->) | (Hget & ->)];
    unfold try_except at 1; rewrite Hget; cbn [ret];
    unfold bind at 1;
    (destruct Hst as [(t' & Hget2 & ->) | (Hget2 & ->)];
     unfold try_except at 1; rewrite Hget2; cbn [ret]; reflexivity).
Qed.

(** X10: [pixel_size] of an Instance and of a Series.  With PixelSpacing
    and SliceThickness each taken as found, or as (1, 1) and 1 when the
    lookup raises [KeyError] or finds [None]: a spacing of at least two
    values gives (slice_thickness, row, column); a spacing that is a
    single number gives (slice_thickness, 1, 1); a spacing of fewer than
    two values raises [IndexError]. *)
Theorem pixel_size_resolution :
  forall (d : nat) (w : World) (self : nat),
    pixel_size_laws (fun tag => call_Instance_get_tag (python d) self tag)
                    (Instance_pixel_size (python d) self) w /\
    pixel_size_laws (fun tag => call_Series_get_tag (python d) self tag
                                  (s_current_slice (series_at w self)))
                    (Series_pixel_size (python d) self) w.
Proof.
  assert (Hlaws : forall get w, pixel_size_laws get (pixel_size_of get) w).
  { intros get w sp w1 st w2 Hsp Hst.
    rewrite (pixel_size_of_resolved Hsp Hst).
    repeat split; intros; subst; reflexivity. }
  intros d w self. split.
  - apply Hlaws.
  - unfold Series_pixel_size.
    intros sp w1 st w2 Hsp Hst.
    destruct (Hlaws _ w sp w1 st w2 Hsp Hst) as (H1 & H2 & H3 & H4).
    repeat split; intros; run;
      [eapply H1 | eapply H2 | eapply H3 | eapply H4]; eassumption.
Qed.

End PixelSize.

Lemma pixel_size_resolution_witness :
  exists w2,
    Instance_pixel_size (E := Demo.externals) (python 2) 0 Demo.world
    = Ok (Demo.int 1, Demo.int 1, Demo.int 1) w2.
Proof.
  pose (get := fun tag w =>
          call_Instance_get_tag (E := Demo.externals) (python 2) 0 tag w).
  pose (w1 := world_after (get PixelSpacing Demo.world) Demo.world).
  pose (w2 := world_after (get SliceThickness w1) w1).
  exists w2.
  destruct (proj1 (@pixel_size_resolution Demo.externals 2 Demo.world 0)
              (VSeq [Demo.int 1; Demo.int 1]) w1 (Demo.int 1) w2)
    as (Hpair & _).
  - right. split; [raise_after | reflexivity].
  - right. split; [raise_after | reflexivity].
  - apply (Hpair (Demo.int 1) (Demo.int 1) []). reflexivity.
Defined.

(** ** The array of a frame view, and arrays of several samples *)

Section MoreArrays.
Context {E : Externals}.

(** X11: the [array] of a frame Instance with frame number [n] is the
    owning Series' [array] (read once the instance is loaded) indexed at
    [n - 1] and wrapped as a single slice; an index outside the Series'
    array raises [IndexError]. *)
Theorem Instance_array_frame :
  forall (d : nat) (w : World) (self : nat) (n : Z) (w1 : World)
         (arr : ndarray float) (w2 : World),
    is_frame (instance_at w self) = true ->
    frame_number (instance_at w self) = Some n ->
    Instance_ensure_loaded (python d) self w = Ok tt w1 ->
    call_Series_array (python d) (i_series (instance_at w self)) w1 = Ok arr w2 ->
    Instance_array (python d) self w
    = match nd_index arr (n - 1) with
      | inr frame => Ok (np_array_1 frame) w2
      | inl e => Raise e w2
      end.
Proof.
  intros d w self n w1 arr w2 Hf Hn Hload Harr.
  pose proof (stable_Ok _ (stable_Instance_ensure_loaded d self) Hload) as Hsame.
  unfold Instance_array, bind at 1. rewrite Hload.
  unfold bind at 1, read_instance at 1.
  rewrite (same_identity_is_frame self Hsame),
          (same_identity_frame_number self Hsame),
          (same_identity_i_series self Hsame).
  rewrite Hf, Hn. unfold bind at 1. rewrite Harr.
  unfold bind. destruct (nd_index arr (n - 1)); reflexivity.
Qed.

(** The ways through the colour step. *)
Lemma recoloured_converted raw get fresh w s w1 arr w2 rgb :
  get PhotometricInterpretation w = Ok (VStr s) w1 ->
  fresh w1 = Ok arr w2 ->
  convert_color_space arr s = inr rgb ->
  recoloured raw get fresh w = Ok (astype_float rgb) w2.
Proof.
  intros Hp Hf Hc. unfold recoloured, try_except, bind.
  now rewrite Hp, Hf, Hc.
Qed.

Lemma recoloured_unsupported raw get fresh w s w1 arr w2 :
  get PhotometricInterpretation w = Ok (VStr s) w1 ->
  fresh w1 = Ok arr w2 ->
  convert_color_space arr s = inl NotImplementedError ->
  recoloured raw get fresh w = Ok raw w2.
Proof.
  intros Hp Hf Hc. unfold recoloured, try_except, bind.
  now rewrite Hp, Hf, Hc.
Qed.

Lemma recoloured_missing raw get fresh w w1 :
  get PhotometricInterpretation w = Raise KeyError w1 ->
  recoloured raw get fresh w = Ok raw w1.
Proof. intros Hp. unfold recoloured, try_except, bind. now rewrite Hp. Qed.

Lemma recoloured_no_string raw get fresh w v w1 :
  get PhotometricInterpretation w = Ok v w1 ->
  (forall s, v <> VStr s) ->
  recoloured raw get fresh w = Ok raw w1.
Proof.
  intros Hp Hv. unfold recoloured, try_except, bind. rewrite Hp.
  destruct v; try reflexivity. now destruct (Hv s).
Qed.

Lemma Instance_array_multi_sample d w self w1 arr w2 spp w3 :
  is_frame (instance_at w self) = false ->
  Instance_ensure_loaded (python d) self w = Ok tt w1 ->
  call_Instance_raw_array (python d) self w1 = Ok arr w2 ->
  call_Instance_get_tag (python d) self SamplesPerPixel w2 = Ok spp w3 ->
  value_eq_int spp 1 = false ->
  Instance_array (python d) self w
  = recoloured (astype_float arr)
      (fun tag => call_Instance_get_tag (python d) self tag)
      (call_Instance_raw_array (python d) self) w3.
Proof.
  intros Hf Hload Hraw Hspp H1.
  pose proof (stable_Ok _ (stable_Instance_ensure_loaded d self) Hload) as Hsame.
  unfold Instance_array, bind at 1. rewrite Hload.
  unfold bind at 1, read_instance at 1.
  rewrite (same_identity_is_frame self Hsame), Hf.
  unfold bind at 1. rewrite Hraw. unfold bind at 1. rewrite Hspp.
  now rewrite H1.
Qed.

Lemma Series_array_multi_sample d w self w1 arr w2 spp w3 :
  is_stack (series_at w self) = true ->
  Series_ensure_loaded (python d) self w = Ok tt w1 ->
  call_Series_raw_array (python d) self w1 = Ok arr w2 ->
  call_Series_get_tag (python d) self SamplesPerPixel 0 w2 = Ok spp w3 ->
  value_eq_int spp 1 = false ->
  Series_array (python d) self w
  = recoloured (astype_float arr)
      (fun tag => call_Series_get_tag (python d) self tag 0)
      (call_Series_raw_array (python d) self) w3.
Proof.
  intros Hst Hload Hraw Hspp H1.
  pose proof (stable_Ok _ (stable_Series_ensure_loaded d self) Hload) as Hsame.
  unfold Series_array, bind at 1. rewrite Hload.
  unfold bind at 1, read_series at 1.
  rewrite (same_identity_is_stack self Hsame), Hst.
  unfold bind at 1. rewrite Hraw. unfold bind at 1. rewrite Hspp.
  now rewrite H1.
Qed.

(** X12: the [array] of a standalone Instance whose SamplesPerPixel is
    not 1, with [arr] its [raw_array].  When PhotometricInterpretation is
    a string and the colour-space conversion of a fresh [raw_array]
    succeeds, [array] is the converted array widened to float; when the
    tag is missing ([KeyError]), is no string, or the conversion is not
    implemented for it, [array] is [arr] widened to float. *)
Theorem Instance_array_colour :
  forall (d : nat) (w : World) (self : nat) (w1 : World) (arr : ndarray float)
         (w2 : World) (spp : value float) (w3 : World),
    is_frame (instance_at w self) = false ->
    Instance_ensure_loaded (python d) self w = Ok tt w1 ->
    call_Instance_raw_array (python d) self w1 = Ok arr w2 ->
    call_Instance_get_tag (python d) self SamplesPerPixel w2 = Ok spp w3 ->
    value_eq_int spp 1 = false ->
    (forall s w4 arr' w5 rgb,
        call_Instance_get_tag (python d) self PhotometricInterpretation w3
        = Ok (VStr s) w4 ->
        call_Instance_raw_array (python d) self w4 = Ok arr' w5 ->
        convert_color_space arr' s = inr rgb ->
        Instance_array (python d) self w = Ok (astype_float rgb) w5) /\
    (forall s w4 arr' w5,
        call_Instance_get_tag (python d) self PhotometricInterpretation w3
        = Ok (VStr s) w4 ->
        call_Instance_raw_array (python d) self w4 = Ok arr' w5 ->
        convert_color_space arr' s = inl NotImplementedError ->
        Instance_array (python d) self w = Ok (astype_float arr) w5) /\
    (forall w4,
        call_Instance_get_tag (python d) self PhotometricInterpretation w3
        = Raise KeyError w4 ->
        Instance_array (python d) self w = Ok (astype_float arr) w4) /\
    (forall v w4,
        call_Instance_get_tag (python d) self PhotometricInterpretation w3
        = Ok v w4 ->
        (forall s, v <> VStr s) ->
        Instance_array (python d) self w = Ok (astype_float arr) w4).
Proof.
  intros d w self w1 arr w2 spp w3 Hf Hload Hraw Hspp H1.
  rewrite (Instance_array_multi_sample _ _ _ Hf Hload Hraw Hspp H1).
  repeat split; intros.
  - eapply (recoloured_converted _
              (fun tag => call_Instance_get_tag (python d) self tag)); eauto.
  - eapply (recoloured_unsupported _
              (fun tag => call_Instance_get_tag (python d) self tag)); eauto.
  - eapply (recoloured_missing _
              (fun tag => call_Instance_get_tag (python d) self tag)); eauto.
  - eapply (recoloured_no_string _
              (fun tag => call_Instance_get_tag (python d) self tag)); eauto.
Qed.

End MoreArrays.

Lemma Instance_array_frame_witness :
  exists w2,
    Instance_array (E := Demo.externals) (python 5) 13 Demo.world
    = Ok (Axis [Axis [Axis [Scalar (PyFloat (inject_Z (-74)))]]]) w2.
Proof.
  pose (w1 := world_after (Instance_ensure_loaded (E := Demo.externals)
                             (python 5) 13 Demo.world) Demo.world).
  pose (w2 := world_after (call_Series_array (E := Demo.externals)
                             (python 5) 1 w1) w1).
  exists w2.
  rewrite (@Instance_array_frame Demo.externals 5 Demo.world 13 3 w1
             (Axis [Axis [Axis [Scalar (PyFloat (inject_Z (-78)))]];
                    Axis [Axis [Scalar (PyFloat (inject_Z (-76)))]];
                    Axis [Axis [Scalar (PyFloat (inject_Z (-74)))]];
                    Axis [Axis [Scalar (PyFloat (inject_Z (-72)))]];
                    Axis [Axis [Scalar (PyFloat (inject_Z (-70)))]]]) w2);
    [reflexivity | reflexivity | reflexivity | ok_after | ok_after].
Defined.

Lemma Instance_array_colour_witness :
  Instance_array (E := Demo.externals) (python 2) 6 Demo.rgb_world
  = Ok (Axis [Axis [Axis [Axis [Scalar (PyFloat (inject_Z 1));
                                Scalar (PyFloat (inject_Z 2));
                                Scalar (PyFloat (inject_Z 3))]]]])
       Demo.rgb_world.
Proof.
  destruct (@Instance_array_colour Demo.externals 2 Demo.rgb_world 6
              Demo.rgb_world (Axis [Demo.pixels Demo.rgb]) Demo.rgb_world
              (Demo.int 3) Demo.rgb_world)
    as (_ & Hunsupported & _);
    [reflexivity | reflexivity | reflexivity | reflexivity | reflexivity |].
  apply (Hunsupported "YBR_FULL" Demo.rgb_world (Axis [Demo.pixels Demo.rgb])
           Demo.rgb_world); reflexivity.
Defined.

(** ** The sorted listing of a series *)


Section Listing.
Context {E : Externals}.

Lemma insert_by_Permutation key x l : Permutation (insert_by key x l) (x :: l).
Proof.
  induction l as [|y l IH]; simpl; [reflexivity|].
  destruct (key x <=? key y); [reflexivity|].
  rewrite IH. apply perm_swap.
Qed.

Lemma sorted_by_Permutation key l : Permutation (sorted_by key l) l.
Proof.
  induction l as [|x l IH]; simpl; [reflexivity|].
  rewrite insert_by_Permutation. now constructor.
Qed.

Lemma insert_by_HdRel key x a l :
  key a <= key x ->
  HdRel (fun i j => key i <= key j) a l ->
  HdRel (fun i j => key i <= key j) a (insert_by key x l).
Proof.
  intros Hax Hl. destruct l as [|y l]; simpl.
  - now constructor.
  - destruct (key x <=? key y); constructor; auto.
    now inversion Hl.
Qed.

Lemma insert_by_Sorted key x l :
  Sorted (fun i j => key i <= key j) l ->
  Sorted (fun i j => key i <= key j) (insert_by key x l).
Proof.
  intros Hl. induction Hl as [|y l Hl IH Hy]; simpl.
  - repeat constructor.
  - destruct (key x <=? key y) eqn:Hxy.
    + apply Z.leb_le in Hxy. constructor; [now constructor|]. now constructor.
    + apply Z.leb_gt in Hxy. constructor; [exact IH|].
      apply insert_by_HdRel; [lia | exact Hy].
Qed.

(** X13: [Series.instances] lists every child of the Series exactly as
    often as the child set holds it, in ascending order of
    [Instance.sort_value] (the frame number of a frame view, the instance
    number otherwise). *)
Theorem Series_instances_sorted :
  forall (w : World) (self : nat),
    Permutation (Series_instances w self) (s_image_set (series_at w self)) /\
    Sorted (fun i j => Instance_sort_value (instance_at w i)
                       <= Instance_sort_value (instance_at w j))
           (Series_instances w self).
Proof.
  intros w self. unfold Series_instances. split.
  - apply sorted_by_Permutation.
  - induction (s_image_set (series_at w self)) as [|x l IH]; simpl.
    + constructor.
    + now apply (insert_by_Sorted
                   (fun i => Instance_sort_value (instance_at w i))).
Qed.

(** X14: [Patient.__eq__] and [Patient.__hash__] agree: two Patients
    compare equal exactly when their patient ids are equal, whatever
    their names, and then they have the same identity string and the
    same hash. *)
Theorem Patient_eq_hash :
  forall p q : Patient,
    (Patient_eq p (ObjPatient q) = true <-> patient_id p = patient_id q) /\
    (Patient_eq p (ObjPatient q) = true ->
     Patient_id_string p = Patient_id_string q /\ Patient_hash p = Patient_hash q) /\
    Patient_eq p (ObjPatient (mkPatient (patient_id p) (name q))) = true.
Proof.
  intros p q. split; [apply String.eqb_eq|]. split.
  - intros H. apply String.eqb_eq in H.
    unfold Patient_hash, Patient_id_string. now rewrite H.
  - apply String.eqb_eq. reflexivity.
Qed.

End Listing.

Lemma Patient_eq_hash_witness :
  Patient_eq (E := Demo.externals) (mkPatient "P1" "Ann") (ObjPatient (mkPatient "P1" "Bob"))
  = true /\
  Patient_hash (E := Demo.externals) (mkPatient "P1" "Ann")
  = Patient_hash (E := Demo.externals) (mkPatient "P1" "Bob").
Proof.
  destruct (@Patient_eq_hash Demo.externals (mkPatient "P1" "Ann")
              (mkPatient "P1" "Bob")) as (Hiff & Hhash & _).
  assert (H : Patient_eq (E := Demo.externals) (mkPatient "P1" "Ann")
                (ObjPatient (mkPatient "P1" "Bob")) = true)
    by (apply Hiff; reflexivity).
  split; [exact H | apply (Hhash H)].
Defined.

(** ** Reading a tag through a loaded stack *)

Section StackGetTag.
Context {E : Externals}.


End StackGetTag.


(** ** Loading the children of a series *)

Section ChildrenLoad.
Context {E : Externals}.

Lemma for_each_app B (l1 l2 : list B) body w :
  for_each (l1 ++ l2)%list body w
  = bind (for_each l1 body) (fun _ => for_each l2 body) w.
Proof.
  revert w. induction l1 as [|x l1 IH]; intros w; simpl; [reflexivity|].
  unfold bind. destruct (body x w) as [[] w'| |]; try reflexivity.
  rewrite IH. reflexivity.
Qed.

(** Loading a list of standalone instances, one after the other. *)
Lemma for_each_load_standalone d l :
  forall w,
    (forall i, In i l -> loadable w i) ->
    exists w',
      for_each l (fun i => call_Instance_load (python (S d)) i) w = Ok tt w' /\
      series_at w' = series_at w /\
      (forall i, In i l -> i_loaded (instance_at w' i) = true) /\
      (forall i, i_loaded (instance_at w i) = true ->
                 instance_at w' i = instance_at w i) /\
      (forall i, ~ In i l -> instance_at w' i = instance_at w i) /\
      (forall i, In i l -> i_loaded (instance_at w i) = false ->
                 exists ds, dcmread (i_filepath (instance_at w i)) = inr ds /\
                            i_dicom (instance_at w' i) = Some ds).
Proof.
  induction l as [|x l IH]; intros w Hall.
  - exists w. simpl. repeat split; auto; intros i [].
  - destruct (Hall x (or_introl eq_refl)) as (Hfx & Hx).
    destruct (i_loaded (instance_at w x)) eqn:Hlx.
    + (* already loaded: nothing happens *)
      destruct (IH w) as (w' & Hrun & Hs & Hl & Hkeep & Hout & Hnew).
      { intros i Hi. apply Hall. now right. }
      exists w'. split.
      { cbn [for_each]. unfold bind at 1.
        change (call_Instance_load (python (S d)) x w)
          with (Instance_load (python d) x w).
        assert (Hnop : Instance_load (python d) x w = Ok tt w).
        { unfold Instance_load. run. now rewrite Hlx. }
        rewrite Hnop. exact Hrun. }
      split; [exact Hs|]. split.
      { intros i [<-|Hi]; [|now apply Hl]. rewrite (Hkeep x Hlx). exact Hlx. }
      split; [exact Hkeep|]. split.
      { intros i Hi. apply Hout. intros Hin. apply Hi. now right. }
      intros i [<-|Hi] Hli; [congruence|]. now apply Hnew.
    + (* decoded now *)
      destruct Hx as [Habs|(ds & Hds)]; [discriminate|].
      pose (w1 := set_instance
                    (set_instance w x (set_i_dicom (Some ds) (instance_at w x)))
                    x (set_i_loaded true
                         (set_i_dicom (Some ds) (instance_at w x)))).
      assert (Hload : Instance_load (python d) x w = Ok tt w1).
      { rewrite (Instance_load_standalone (python d) w x Hfx Hlx Hds).
        cbv zeta. unfold w1. now rewrite instance_at_set_instance. }
      assert (Hx1 : instance_at w1 x
                    = set_i_loaded true (set_i_dicom (Some ds) (instance_at w x))).
      { unfold w1. now rewrite instance_at_set_instance. }
      assert (Ho1 : forall i, i <> x -> instance_at w1 i = instance_at w i).
      { intros i Hi. unfold w1.
        now rewrite !instance_at_set_instance_other by assumption. }
      destruct (IH w1) as (w' & Hrun & Hs & Hl & Hkeep & Hout & Hnew).
      { intros i Hi. destruct (Nat.eq_dec i x) as [->|Hne].
        - split; [now rewrite Hx1 | left; now rewrite Hx1].
        - unfold loadable. rewrite (Ho1 i Hne). apply Hall. now right. }
      exists w'. split.
      { cbn [for_each]. unfold bind at 1.
        change (call_Instance_load (python (S d)) x w)
          with (Instance_load (python d) x w).
        rewrite Hload. exact Hrun. }
      split; [now rewrite Hs|]. split.
      { intros i [<-|Hi]; [|now apply Hl].
        rewrite (Hkeep x) by (now rewrite Hx1). now rewrite Hx1. }
      split.
      { intros i Hi. destruct (Nat.eq_dec i x) as [->|Hne]; [congruence|].
        rewrite (Hkeep i) by (now rewrite (Ho1 i Hne)). now apply Ho1. }
      split.
      { intros i Hi. rewrite Hout by (intros Hin; apply Hi; now right).
        apply Ho1. intros ->. apply Hi. now left. }
      intros i Hi Hli. destruct (Nat.eq_dec i x) as [->|Hne].
      * exists ds. split; [exact Hds|].
        rewrite (Hkeep x) by (now rewrite Hx1). now rewrite Hx1.
      * destruct Hi as [->|Hi]; [congruence|].
        destruct (Hnew i Hi) as (ds' & Hds' & Hd').
        { now rewrite (Ho1 i Hne). }
        exists ds'. split; [|exact Hd']. now rewrite <- (Ho1 i Hne).
Qed.

(** X16: [load()] on a non-stack Series that is not loaded.  When every
    child is a standalone instance that is loaded or whose file decodes,
    the call completes, the Series and every child are loaded, and every
    child that was not loaded holds the dataset decoded from its file.
    When the children up to some child [x] of the sorted listing are such
    and the file of [x] does not decode, the call raises the error of the
    decoder, the Series is still not loaded, and the children before [x]
    stay loaded. *)
Theorem non_stack_load_children :
  forall (d : nat) (w : World) (self : nat),
    is_stack (series_at w self) = false ->
    s_loaded (series_at w self) = false ->
    ((forall i, In i (s_image_set (series_at w self)) -> loadable w i) ->
     exists w',
       Series_load (python (S d)) self w = Ok tt w' /\
       s_loaded (series_at w' self) = true /\
       forall i, In i (s_image_set (series_at w self)) ->
                 i_loaded (instance_at w' i) = true /\
                 (i_loaded (instance_at w i) = false ->
                  exists ds, dcmread (i_filepath (instance_at w i)) = inr ds /\
                             i_dicom (instance_at w' i) = Some ds)) /\
    (forall before x rest e,
        Series_instances w self = (before ++ x :: rest)%list ->
        (forall i, In i before -> loadable w i) ->
        ~ In x before ->
        is_frame (instance_at w x) = false ->
        i_loaded (instance_at w x) = false ->
        dcmread (i_filepath (instance_at w x)) = inl e ->
        exists w',
          Series_load (python (S d)) self w = Raise e w' /\
          s_loaded (series_at w' self) = false /\
          forall i, In i before -> i_loaded (instance_at w' i) = true).
Proof.
  intros d w self Hst Hl. split.
  - intros Hkids.
    destruct (@for_each_load_standalone d (Series_instances w self) w)
      as (w1 & Hrun & Hs & Hall & _ & _ & Hnew).
    { intros i Hi. apply Hkids. now apply Series_instances_In. }
    exists (set_series w1 self (set_s_loaded true (series_at w1 self))).
    split.
    + unfold Series_load. unfold bind at 1, read_series at 1.
      rewrite Hl, Hst. cbn [negb]. unfold bind at 1. unfold bind at 1, read at 1.
      rewrite Hrun. reflexivity.
    + rewrite series_at_set_series. split; [reflexivity|].
      intros i Hi. apply Series_instances_In in Hi.
      change (instance_at (set_series ?a ?b ?c)) with (instance_at a).
      split; [now apply Hall | now apply Hnew].
  - intros before x rest e Hlist Hbefore Hnot Hfx Hlx Hbad.
    destruct (@for_each_load_standalone d before w Hbefore)
      as (w1 & Hrun & Hs & Hall & _ & Hout & _).
    exists w1. split.
    + unfold Series_load. unfold bind at 1, read_series at 1.
      rewrite Hl, Hst. cbn [negb]. unfold bind at 1. unfold bind at 1, read at 1.
      rewrite Hlist, for_each_app. unfold bind at 1. rewrite Hrun.
      cbn [for_each]. unfold bind at 1.
      change (call_Instance_load (python (S d)) x w1)
        with (Instance_load (python d) x w1).
      rewrite (@Instance_load_fails E (python d) w1 x e);
        [reflexivity | | |]; rewrite (Hout x Hnot); assumption.
    + rewrite Hs. split; [exact Hl | exact Hall].
Qed.

End ChildrenLoad.

Lemma non_stack_load_children_witness :
  (exists w',
     Series_load (E := Demo.externals) (python 1) 2 Demo.world = Ok tt w' /\
     i_dicom (instance_at w' 0) = Some Demo.mr) /\
  (exists w',
     Series_load (E := Demo.externals) (python 1) 0
       (add_instances 0 [0; 7]%nat Demo.world)
     = Raise InvalidDicomError w' /\
     s_loaded (series_at w' 0) = false /\
     i_loaded (instance_at w' 0) = true).
Proof.
  split.
  - destruct (proj1 (@non_stack_load_children Demo.externals 0 Demo.world 2
                       eq_refl eq_refl)) as (w' & Hrun & _ & Hkids).
    + intros i [<-|[]]. split; [reflexivity|]. right. now exists Demo.mr.
    + exists w'. split; [exact Hrun|].
      destruct (Hkids 0%nat (or_introl eq_refl)) as (_ & Hnew).
      destruct (Hnew eq_refl) as (ds & Hds & Hd).
      rewrite Hd. f_equal. simpl in Hds. now inversion Hds.
  - pose (w := add_instances (E := Demo.externals) 0 [0; 7]%nat Demo.world).
    assert (Hbefore : forall i, In i [0%nat] -> loadable w i).
    { intros i [<-|[]]. split; [reflexivity|]. right. now exists Demo.mr. }
    assert (Hnot : ~ In 7%nat [0%nat]).
    { intros [H|[]]. discriminate H. }
    destruct (proj2 (@non_stack_load_children Demo.externals 0 w 0
                       eq_refl eq_refl)
                [0%nat] 7%nat [] InvalidDicomError
                eq_refl Hbefore Hnot eq_refl eq_refl eq_refl)
      as (w' & Hrun & Hl & Hloaded).
    exists w'. split; [exact Hrun|]. split; [exact Hl|].
    apply Hloaded. now left.
Defined.

(** ** The raw array of a series of standalone instances *)

Section NonStackRawArray.
Context {E : Externals}.

Lemma Instance_raw_array_standalone py w i ds a :
  is_frame (instance_at w i) = false ->
  i_loaded (instance_at w i) = true ->
  i_dicom (instance_at w i) = Some ds ->
  pixel_array ds = inr a ->
  Instance_raw_array py i w = Ok (np_array_1 a) w.
Proof.
  intros Hf Hl Hd Hp. unfold Instance_raw_array, Instance_ensure_loaded. run.
  rewrite Hl. simpl. rewrite Hf, Hd. simpl. now rewrite Hp.
Qed.

Lemma map_raw_array_standalone d w l arrs :
  Forall2 (fun i a =>
             is_frame (instance_at w i) = false /\
             i_loaded (instance_at w i) = true /\
             exists ds, i_dicom (instance_at w i) = Some ds /\
                        pixel_array ds = inr a) l arrs ->
  map_M (fun i => call_Instance_raw_array (python (S d)) i) l w
  = Ok (map np_array_1 arrs) w.
Proof.
  intros Hall. induction Hall as [|i a l arrs Hi _ IH]; cbn [map_M map].
  - reflexivity.
  - destruct Hi as (Hf & Hl & ds & Hd & Hp).
    unfold bind at 1.
    change (call_Instance_raw_array (python (S d)) i w)
      with (Instance_raw_array (python d) i w).
    rewrite (Instance_raw_array_standalone (python d) w i Hf Hl Hd Hp).
    unfold bind at 1. rewrite IH. reflexivity.
Qed.

Lemma flat_map_items_wrapped (arrs : list (ndarray float)) :
  flat_map nd_items (map np_array_1 arrs) = arrs.
Proof. induction arrs as [|a l IH]; simpl; [reflexivity | now rewrite IH]. Qed.

Lemma forallb_wrapped a (l : list (ndarray float)) :
  forallb (fun b => is_axis b
                    && shape_eqb (tl (nd_shape (np_array_1 a))) (tl (nd_shape b)))
          (map np_array_1 l)
  = forallb (fun b => shape_eqb (nd_shape a) (nd_shape b)) l.
Proof.
  induction l as [|b l IH]; cbn [map forallb]; [reflexivity|].
  rewrite IH. reflexivity.
Qed.

(** Slices of one shape stack along a new first axis. *)
Lemma np_concatenate_wrapped a (arrs : list (ndarray float)) :
  forallb (fun b => shape_eqb (nd_shape a) (nd_shape b)) (a :: arrs) = true ->
  np_concatenate (map np_array_1 (a :: arrs)) = inr (Axis (a :: arrs)).
Proof.
  intros Hshape. unfold np_concatenate. cbn [map].
  change (np_array_1 a :: map np_array_1 arrs) with (map np_array_1 (a :: arrs)).
  rewrite forallb_wrapped, Hshape. now rewrite flat_map_items_wrapped.
Qed.

(** X17: [raw_array] of a loaded non-stack Series whose children are
    loaded standalone instances: the pixel arrays of the children are
    concatenated in the sort order of the children and the store is not
    touched.  When the pixel arrays all have the shape of the first, the
    result has one slice per child, the pixel array of that child; when
    the Series has no children it is a [ValueError]. *)
Theorem non_stack_raw_array_stacks :
  forall (d : nat) (w : World) (self : nat) (arrs : list (ndarray float)),
    is_stack (series_at w self) = false ->
    s_loaded (series_at w self) = true ->
    Forall2 (fun i a =>
               is_frame (instance_at w i) = false /\
               i_loaded (instance_at w i) = true /\
               exists ds, i_dicom (instance_at w i) = Some ds /\
                          pixel_array ds = inr a)
            (Series_instances w self) arrs ->
    Series_raw_array (python (S d)) self w
    = lift (np_concatenate (map np_array_1 arrs)) w /\
    (forall a rest,
        arrs = a :: rest ->
        forallb (fun b => shape_eqb (nd_shape a) (nd_shape b)) arrs = true ->
        Series_raw_array (python (S d)) self w = Ok (Axis arrs) w /\
        List.length arrs = List.length (s_image_set (series_at w self))) /\
    (arrs = [] -> Series_raw_array (python (S d)) self w = Raise ValueError w).
Proof.
  intros d w self arrs Hst Hl Hall.
  assert (Hraw : Series_raw_array (python (S d)) self w
                 = lift (np_concatenate (map np_array_1 arrs)) w).
  { unfold Series_raw_array, Series_ensure_loaded.
    unfold bind at 1. unfold bind at 1, read_series at 1. rewrite Hl.
    cbn [negb ret]. unfold bind at 1, read_series at 1. rewrite Hst.
    unfold bind at 1, read at 1. unfold bind at 1.
    now rewrite (@map_raw_array_standalone d w _ arrs Hall). }
  split; [exact Hraw|]. split.
  - intros a rest -> Hshape. split.
    + rewrite Hraw. now rewrite (np_concatenate_wrapped a rest Hshape).
    + rewrite <- (Forall2_length Hall). unfold Series_instances.
      apply sorted_by_length.
  - intros ->. rewrite Hraw. reflexivity.
Qed.

End NonStackRawArray.

Lemma non_stack_raw_array_stacks_witness :
  Series_raw_array (E := Demo.externals) (python 1) 0 Demo.pair_world
  = Ok (Axis [Demo.image 150; Demo.image 150]) Demo.pair_world /\
  List.length (s_image_set (series_at Demo.pair_world 0)) = 2%nat.
Proof.
  destruct (@non_stack_raw_array_stacks Demo.externals 0 Demo.pair_world 0
              [Demo.image 150; Demo.image 150] eq_refl eq_refl)
    as (_ & Hstack & _).
  - change (Series_instances Demo.pair_world 0) with [1; 0]%nat.
    constructor; [|constructor; [|constructor]].
    + repeat split. exists Demo.plain. split; reflexivity.
    + repeat split. exists Demo.mr. split; reflexivity.
  - destruct (Hstack (Demo.image 150) [Demo.image 150] eq_refl eq_refl)
      as [Hraw Hlen].
    split; [exact Hraw | now rewrite <- Hlen].
Defined.

(** ** What no method changes *)

Section LoadStateOnly.
Context {E : Externals}.

Lemma stable_Series_get_tags d s tag : stable (Series_get_tags (python d) s tag).
Proof.
  pose proof (python_stable d) as H. unfold Series_get_tags.
  apply stable_bind; [apply stable_read_series|intros S0].
  apply stable_bind.
  { destruct (negb (s_loaded S0)); [apply (st_Series_load H)|apply stable_ret]. }
  intros _. apply stable_bind; [apply stable_read|intros insts].
  apply stable_bind.
  { apply stable_map_M. intros i. apply (st_Instance_get_tag H). }
  intros values. apply stable_bind; [|intros _; apply stable_ret].
  destruct (negb (s_loaded S0)); [apply (st_Series_unload H)|apply stable_ret].
Qed.

(** X18: whatever [load], [unload], [dicom_dataset], [get_tag],
    [get_tags], [raw_array] and [array] of a Series or an Instance do, at
    any call depth and however they end (a result or an exception), they
    change nothing of any object but its [loaded] flag and its cached
    dataset: identities, shapes, flags, file paths, current slices and
    child sets stay as they are, and so does the sorted listing of every
    Series. *)
Theorem methods_change_load_state_only :
  forall (d : nat),
    Methods_stable (python d) /\
    (forall s tag, stable (Series_get_tags (python d) s tag)) /\
    (forall w w', same_identity w w' ->
                  forall s, Series_instances w' s = Series_instances w s /\
                            s_shape (series_at w' s) = s_shape (series_at w s) /\
                            s_image_set (series_at w' s) = s_image_set (series_at w s)).
Proof.
  intros d. split; [apply python_stable|]. split.
  - intros s tag. apply stable_Series_get_tags.
  - intros w w' H s. split; [now apply same_identity_instances|].
    split; [now apply same_identity_shape | now apply same_identity_image_set].
Qed.

End LoadStateOnly.

(** ** A tag lookup through a frame view *)

Section FrameLookup.
Context {E : Externals}.

Lemma set_i_loaded_twice b c I : set_i_loaded b (set_i_loaded c I) = set_i_loaded b I.
Proof. now destruct I. Qed.

Lemma set_i_loaded_same I : i_loaded I = false -> set_i_loaded false I = I.
Proof. destruct I; simpl; intros; subst; reflexivity. Qed.

(** X19: [get_tag] on a frame view of a stack, when nothing is loaded
    (the Series unloaded and without dataset, its children and the frame
    view unloaded) and the file decodes: the whole stack is loaded, the
    tag is resolved for the frame number of the view, and the stack is
    unloaded again, every object of the store being as before. *)
Theorem frame_get_tag_restores :
  forall (d : nat) (w : World) (self : nat) (tag : Tag) (n : Z) (p : Path)
         (ds : Dataset) (v : value float),
    let s := i_series (instance_at w self) in
    is_frame (instance_at w self) = true ->
    frame_number (instance_at w self) = Some n ->
    i_loaded (instance_at w self) = false ->
    is_stack (series_at w s) = true ->
    s_loaded (series_at w s) = false ->
    s_dicom (series_at w s) = None ->
    s_filepath (series_at w s) = Some p ->
    dcmread p = inr ds ->
    children_unloaded w s ->
    get_tag ds tag (Some n) = inr v ->
    exists w',
      Instance_get_tag (python (S (S d))) self tag w = Ok v w' /\
      same_store w w'.
Proof.
  intros d w self tag n p ds v s Hf Hn Hl Hst Hsl Hds Hp Hd Hkids Hv.
  (* load: the series, then the flag of the view *)
  destruct (Series_load_stack_store (python d) _ _ Hst Hsl Hp Hd)
    as (w1 & Hload & Hs1 & Hso1 & Hi1).
  pose (w1' := set_instance w1 self (set_i_loaded true (instance_at w1 self))).
  assert (HIload : Instance_load (python (S d)) self w = Ok tt w1').
  { unfold Instance_load. unfold bind at 1, read_instance at 1.
    rewrite Hl, Hf. cbn [negb]. unfold bind at 1. fold s.
    change (call_Series_load (python (S d)) s w) with (Series_load (python d) s w).
    rewrite Hload. reflexivity. }
  assert (Hself1 : instance_at w1' self = set_i_loaded true (instance_at w self)).
  { unfold w1'. rewrite instance_at_set_instance, Hi1.
    destruct (existsb (Nat.eqb self) (Series_instances w s)); [|reflexivity].
    apply set_i_loaded_twice. }
  assert (Hother1 : forall j, j <> self -> instance_at w1' j = instance_at w1 j).
  { intros j Hj. unfold w1'. now apply instance_at_set_instance_other. }
  assert (Hser1 : series_at w1' = series_at w1) by reflexivity.
  clearbody w1'.
  assert (Hcore1 : forall j, Instance_sort_value (instance_at w1' j)
                             = Instance_sort_value (instance_at w j)).
  { intros j. destruct (Nat.eq_dec j self) as [->|Hne].
    - rewrite Hself1. now destruct (instance_at w self).
    - rewrite (Hother1 j Hne), Hi1.
      destruct (existsb (Nat.eqb j) (Series_instances w s)); [|reflexivity].
      now destruct (instance_at w j). }
  assert (Hinst1 : Series_instances w1' s = Series_instances w s).
  { apply Series_instances_ext; [|exact Hcore1].
    rewrite Hser1, Hs1. now destruct (series_at w s). }
  assert (Hst1 : is_stack (series_at w1' s) = true).
  { rewrite Hser1, Hs1. now destruct (series_at w s). }
  assert (Hsl1 : s_loaded (series_at w1' s) = true) by (now rewrite Hser1, Hs1).
  assert (Hds1 : s_dicom (series_at w1' s) = Some ds) by (now rewrite Hser1, Hs1).
  (* unload: the series, then the flag of the view *)
  destruct (Series_unload_stack_store (python d) _ _ Hst1 Hsl1)
    as (w2 & Hunload & Hs2 & Hso2 & Hi2).
  pose (w2' := set_instance w2 self (set_i_loaded false (instance_at w2 self))).
  assert (Hs_self : i_series (instance_at w1' self) = s).
  { rewrite Hself1. now destruct (instance_at w self). }
  assert (HIunload : Instance_unload (python (S d)) self w1' = Ok tt w2').
  { unfold Instance_unload. unfold bind at 1, read_instance at 1.
    rewrite Hself1. cbn [i_loaded set_i_loaded is_frame i_series].
    rewrite Hf. unfold bind at 1. fold s.
    change (call_Series_unload (python (S d)) s w1')
      with (Series_unload (python d) s w1').
    rewrite Hunload. reflexivity. }
  exists w2'. split.
  - unfold Instance_get_tag. unfold bind at 1, read_instance at 1.
    rewrite Hl. cbn [negb]. unfold bind at 1.
    change (call_Instance_load (python (S (S d))) self w)
      with (Instance_load (python (S d)) self w).
    rewrite HIload. unfold bind at 1, read_instance at 1.
    rewrite Hself1. cbn [is_frame frame_number set_i_loaded i_series].
    rewrite Hf, Hn. unfold bind at 1. unfold bind at 1. fold s.
    change (call_Series_dicom_dataset (python (S (S d))) s w1')
      with (Series_dicom_dataset (python (S d)) s w1').
    assert (Hdd : Series_dicom_dataset (python (S d)) s w1' = Ok (Some ds) w1').
    { unfold Series_dicom_dataset. run. rewrite Hsl1. simpl. rewrite Hst1. simpl.
      now rewrite Hds1. }
    rewrite Hdd, Hv. cbn [lift ret]. unfold bind at 1.
    change (call_Instance_unload (python (S (S d))) self w1')
      with (Instance_unload (python (S d)) self w1').
    rewrite HIunload. reflexivity.
  - split.
    + intros x. change (series_at w2' x) with (series_at w2 x).
      destruct (Nat.eq_dec x s) as [->|Hne].
      * rewrite Hs2, Hser1, Hs1. now apply set_s_round_trip.
      * rewrite Hso2 by assumption. rewrite Hser1. now apply Hso1.
    + intros j. destruct (Nat.eq_dec j self) as [->|Hne].
      * unfold w2'. rewrite instance_at_set_instance, Hi2, Hself1.
        destruct (existsb (Nat.eqb self) (Series_instances w1' s));
          rewrite ?set_i_loaded_twice; now apply set_i_loaded_same.
      * unfold w2'. rewrite instance_at_set_instance_other by assumption.
        rewrite Hi2, Hinst1, (Hother1 j Hne), Hi1.
        destruct (existsb (Nat.eqb j) (Series_instances w s)) eqn:Hin;
          [|reflexivity].
        rewrite set_i_loaded_twice. apply set_i_loaded_same. apply Hkids.
        apply Series_instances_In. now apply mem_In.
Qed.

End FrameLookup.

Lemma frame_get_tag_restores_witness :
  exists w',
    Instance_get_tag (E := Demo.externals) (python 2) 13 RescaleSlope Demo.world
    = Ok (Demo.int 2) w' /\
    same_store Demo.world w'.
Proof.
  apply (@frame_get_tag_restores Demo.externals 0 Demo.world 13 RescaleSlope 3
           "stack.dcm" Demo.stack (Demo.int 2)); try reflexivity.
  intros i Hi. simpl in Hi.
  repeat (destruct Hi as [<-|Hi]; [reflexivity|]). destruct Hi.
Defined.

(** ** Patients, studies and their children *)

Section ChildLists.
Context {E : Externals}.

Lemma insert_sorted_Permutation A (before : A -> A -> bool) x l :
  Permutation (insert_sorted before x l) (x :: l).
Proof.
  induction l as [|y l IH]; simpl; [reflexivity|].
  destruct (before y x); [|reflexivity].
  rewrite IH. apply perm_swap.
Qed.

Lemma py_sorted_Permutation A (before : A -> A -> bool) l :
  Permutation (py_sorted before l) l.
Proof.
  induction l as [|x l IH]; simpl; [reflexivity|].
  rewrite insert_sorted_Permutation. now constructor.
Qed.

(** A stable insertion sort is sorted for any relation that holds one way
    round whenever the strict order fails, and holds wherever the strict
    order does. *)
Lemma insert_sorted_HdRel A (before : A -> A -> bool) (le : A -> A -> Prop) x a l :
  le a x -> HdRel le a l -> HdRel le a (insert_sorted before x l).
Proof.
  intros Hax Hl. destruct l as [|y l]; simpl.
  - now constructor.
  - destruct (before y x); constructor; auto. now inversion Hl.
Qed.

Lemma insert_sorted_Sorted A (before : A -> A -> bool) (le : A -> A -> Prop) x l :
  (forall a b, before a b = true -> le a b) ->
  (forall a b, before a b = false -> le b a) ->
  Sorted le l -> Sorted le (insert_sorted before x l).
Proof.
  intros Hlt Hge Hl. induction Hl as [|y l Hl IH Hy]; simpl.
  - repeat constructor.
  - destruct (before y x) eqn:Hxy.
    + constructor; [exact IH|]. apply insert_sorted_HdRel; auto.
    + constructor; [now constructor|]. constructor. now apply Hge.
Qed.

Lemma py_sorted_Sorted A (before : A -> A -> bool) (le : A -> A -> Prop) l :
  (forall a b, before a b = true -> le a b) ->
  (forall a b, before a b = false -> le b a) ->
  Sorted le (py_sorted before l).
Proof.
  intros Hlt Hge. induction l as [|x l IH]; simpl; [constructor|].
  now apply insert_sorted_Sorted.
Qed.

(** X20: [Patient.studies] lists every study of the Patient exactly as
    often as the set holds it, the latest study date first; so the first
    study listed is dated no earlier than any study of the Patient. *)
Theorem Patient_studies_latest_first :
  forall (_studies : list Study),
    Permutation (Patient_studies _studies) _studies /\
    Sorted (fun a b => study_date b <= study_date a) (Patient_studies _studies) /\
    (forall first rest s,
        Patient_studies _studies = first :: rest -> In s _studies ->
        study_date s <= study_date first).
Proof.
  intros l.
  assert (Hperm : Permutation (Patient_studies l) l)
    by apply py_sorted_Permutation.
  assert (Hsorted : Sorted (fun a b => study_date b <= study_date a)
                           (Patient_studies l)).
  { apply py_sorted_Sorted; intros a b H.
    - apply Z.ltb_lt in H. lia.
    - apply Z.ltb_ge in H. lia. }
  split; [exact Hperm|]. split; [exact Hsorted|].
  intros first rest s Heq Hin.
  rewrite Heq in Hsorted, Hperm.
  apply Sorted_StronglySorted in Hsorted; [|intros a b c Hab Hbc; lia].
  apply StronglySorted_inv in Hsorted. destruct Hsorted as [_ Hall].
  apply (Permutation_in _ (Permutation_sym Hperm)) in Hin.
  destruct Hin as [<-|Hin]; [lia|].
  rewrite Forall_forall in Hall. now apply Hall.
Qed.

(** X21: [Study.series] lists every Series of the Study exactly as often
    as the set holds it, by ascending series number and, among equal
    series numbers, by ascending acquisition number. *)
Theorem Study_series_ordered :
  forall (w : World) (_series : list nat),
    Permutation (Study_series w _series) _series /\
    Sorted (fun a b =>
              series_number (series_at w a) < series_number (series_at w b) \/
              (series_number (series_at w a) = series_number (series_at w b) /\
               acquisition_number (series_at w a)
               <= acquisition_number (series_at w b)))
           (Study_series w _series).
Proof.
  intros w l. split; [apply py_sorted_Permutation|].
  apply py_sorted_Sorted; intros a b; unfold tuple_lt, series_key; simpl;
    intros H.
  - apply orb_true_iff in H. destruct H as [H|H].
    + apply Z.ltb_lt in H. now left.
    + apply andb_true_iff in H. destruct H as [H1 H2].
      apply Z.eqb_eq in H1. apply Z.ltb_lt in H2. right. lia.
  - apply orb_false_iff in H. destruct H as [H1 H2].
    apply Z.ltb_ge in H1. apply andb_false_iff in H2.
    destruct H2 as [H2|H2].
    + apply Z.eqb_neq in H2. left. lia.
    + apply Z.ltb_ge in H2.
      destruct (Z.eq_dec (series_number (series_at w b))
                         (series_number (series_at w a))); [right|left]; lia.
Qed.

Lemma existsb_app_single A (f : A -> bool) l x :
  existsb f (l ++ [x]) = existsb f l || f x.
Proof. rewrite existsb_app. simpl. now rewrite orb_false_r. Qed.

End ChildLists.

Lemma Patient_studies_latest_first_witness :
  Patient_studies [Demo.study_a; Demo.study_b; Demo.study_c]
  = [Demo.study_b; Demo.study_c; Demo.study_a] /\
  study_date Demo.study_a <= study_date Demo.study_b.
Proof.
  split; [reflexivity|].
  destruct (@Patient_studies_latest_first
              [Demo.study_a; Demo.study_b; Demo.study_c]) as (_ & _ & H).
  apply (H Demo.study_b [Demo.study_c; Demo.study_a]); [reflexivity|].
  simpl. now left.
Defined.

Lemma methods_change_load_state_only_witness :
  Series_instances Demo.loaded_world 1 = Series_instances Demo.world 1 /\
  s_shape (series_at Demo.loaded_world 1) = s_shape (series_at Demo.world 1) /\
  s_image_set (series_at Demo.loaded_world 1)
  = s_image_set (series_at Demo.world 1).
Proof.
  destruct (@methods_change_load_state_only Demo.externals 2) as (Hst & _ & Hsame).
  apply (Hsame Demo.world Demo.loaded_world).
  pose proof (st_Series_load Hst 1%nat Demo.world) as H.
  change (call_Series_load (python 2) 1%nat Demo.world)
    with (Series_load (E := Demo.externals) (python 1) 1 Demo.world) in H.
  unfold Demo.loaded_world, world_after.
  destruct (Series_load (python 1) 1 Demo.world);
    [exact H | exact H | apply same_identity_refl].
Defined.

(** ** Adding to the child sets of Patient and Study *)

Section ChildSets.
Context {E : Externals}.
Variable iteration_order : forall A : Type, list A -> list A.
Hypothesis iteration_order_Permutation :
  forall (A : Type) (l : list A), Permutation (iteration_order l) l.
Variable Series_hash : World -> nat -> Z.

(** What [set.add] does to a listed content, for any test of presence. *)
Lemma set_add_laws A (present : bool) (l : list A) (x : A) :
  let l' := if present then l else iteration_order (l ++ [x]) in
  (forall s, In s l -> In s l') /\
  (forall s, In s l' -> In s l \/ s = x) /\
  (List.length l' = List.length l \/ List.length l' = S (List.length l)) /\
  (present = false -> Permutation l' (x :: l)).
Proof.
  destruct present; cbn zeta.
  - repeat split; auto. discriminate.
  - assert (Hperm : Permutation (iteration_order (l ++ [x])) (x :: l)).
    { rewrite iteration_order_Permutation.
      rewrite Permutation_app_comm. reflexivity. }
    repeat split.
    + intros s Hs. apply (Permutation_in _ (Permutation_sym Hperm)). now right.
    + intros s Hs. apply (Permutation_in _ Hperm) in Hs.
      destruct Hs as [<-|Hs]; auto.
    + right. now rewrite (Permutation_length Hperm).
    + intros _. exact Hperm.
Qed.

(** X22: [Patient.add_study], whatever the order in which the set lists
    its content.  A Study whose study id and patient id are those of a
    Study already held leaves the set as it is, whatever its date and
    description; a Study whose study id no held Study has joins the set,
    which then holds it and the Studies held before; no call removes a
    Study or adds any but the one given, so the set grows by at most one;
    and adding the same Study a second time changes nothing. *)
Theorem add_study_set_laws :
  forall (_studies : list Study) (study : Study),
    ((exists held, In held _studies /\
                   patient_id (patient held) = patient_id (patient study) /\
                   study_id held = study_id study) ->
     Patient_add_study iteration_order _studies study = _studies) /\
    ((forall held, In held _studies -> study_id held <> study_id study) ->
     Permutation (Patient_add_study iteration_order _studies study)
                 (study :: _studies)) /\
    (forall s, In s _studies ->
               In s (Patient_add_study iteration_order _studies study)) /\
    (forall s, In s (Patient_add_study iteration_order _studies study) ->
               In s _studies \/ s = study) /\
    (List.length (Patient_add_study iteration_order _studies study)
     = List.length _studies \/
     List.length (Patient_add_study iteration_order _studies study)
     = S (List.length _studies)) /\
    Patient_add_study iteration_order
      (Patient_add_study iteration_order _studies study) study
    = Patient_add_study iteration_order _studies study.
Proof.
  intros l x. unfold Patient_add_study, studies_add.
  set (held_equal := fun y => (Study_hash y =? Study_hash x)
                              && Study_eq y (ObjStudy x)).
  destruct (set_add_laws (existsb held_equal l) l x)
    as (Hkeep & Hnew & Hlen & Hperm).
  cbn zeta in Hkeep, Hnew, Hlen, Hperm.
  split; [|split; [|split; [exact Hkeep | split; [exact Hnew | split;
    [exact Hlen|]]]]].
  - intros (y & Hin & Hp & Hs).
    assert (H : existsb held_equal l = true).
    { apply existsb_exists. exists y. split; [exact Hin|].
      apply andb_true_iff. split.
      - apply Z.eqb_eq. unfold Study_hash, Study_id_string, Patient_id_string.
        now rewrite Hp, Hs.
      - simpl. now apply String.eqb_eq. }
    now rewrite H.
  - intros Hall. apply Hperm.
    apply not_true_iff_false. intros H. apply existsb_exists in H.
    destruct H as (y & Hin & H). apply andb_true_iff in H.
    destruct H as [_ H]. simpl in H. apply String.eqb_eq in H.
    now apply (Hall y Hin).
  - destruct (existsb held_equal l) eqn:H.
    + now rewrite H.
    + assert (H' : existsb held_equal (iteration_order (l ++ [x])) = true).
      { apply existsb_exists. exists x. split.
        - apply (Permutation_in _ (Permutation_sym
                   (iteration_order_Permutation (l ++ [x])))).
          apply in_or_app. right. now left.
        - unfold held_equal. simpl.
          now rewrite Z.eqb_refl, String.eqb_refl. }
      now rewrite H'.
Qed.

(** X23: [Study.add_series], whatever the order in which the set lists
    its content and whatever hash the base class computes.
    [Series.__eq__] on a Series is equality of the hashes, so a Series
    whose hash is that of a Series already held leaves the set as it is,
    and a Series whose hash no held Series has joins the set, which then
    holds it and the Series held before; no call removes a Series or adds
    any but the one given, so the set grows by at most one; and adding
    the same Series a second time changes nothing. *)
Theorem add_series_set_laws :
  forall (w : World) (_series : list nat) (series : nat),
    ((exists held, In held _series /\
                   Series_hash w held = Series_hash w series) ->
     Study_add_series iteration_order Series_hash w _series series = _series) /\
    ((forall held, In held _series ->
                   Series_hash w held <> Series_hash w series) ->
     Permutation (Study_add_series iteration_order Series_hash w _series series)
                 (series :: _series)) /\
    (forall s, In s _series ->
               In s (Study_add_series iteration_order Series_hash w _series series)) /\
    (forall s, In s (Study_add_series iteration_order Series_hash w _series series) ->
               In s _series \/ s = series) /\
    (List.length (Study_add_series iteration_order Series_hash w _series series)
     = List.length _series \/
     List.length (Study_add_series iteration_order Series_hash w _series series)
     = S (List.length _series)) /\
    Study_add_series iteration_order Series_hash w
      (Study_add_series iteration_order Series_hash w _series series) series
    = Study_add_series iteration_order Series_hash w _series series.
Proof.
  intros w l x. unfold Study_add_series, series_add, Series_eq_Series.
  set (held_equal := fun y => (Series_hash w y =? Series_hash w x)
                              && (Series_hash w y =? Series_hash w x)).
  destruct (set_add_laws (existsb held_equal l) l x)
    as (Hkeep & Hnew & Hlen & Hperm).
  cbn zeta in Hkeep, Hnew, Hlen, Hperm.
  split; [|split; [|split; [exact Hkeep | split; [exact Hnew | split;
    [exact Hlen|]]]]].
  - intros (y & Hin & Hid).
    assert (H : existsb held_equal l = true).
    { apply existsb_exists. exists y. split; [exact Hin|].
      unfold held_equal. rewrite andb_diag. now apply Z.eqb_eq. }
    now rewrite H.
  - intros Hall. apply Hperm.
    apply not_true_iff_false. intros H. apply existsb_exists in H.
    destruct H as (y & Hin & H). apply andb_true_iff in H.
    destruct H as [H _]. apply Z.eqb_eq in H. now apply (Hall y Hin).
  - destruct (existsb held_equal l) eqn:H.
    + now rewrite H.
    + assert (H' : existsb held_equal (iteration_order (l ++ [x])) = true).
      { apply existsb_exists. exists x. split.
        - apply (Permutation_in _ (Permutation_sym
                   (iteration_order_Permutation (l ++ [x])))).
          apply in_or_app. right. now left.
        - unfold held_equal. now rewrite Z.eqb_refl. }
      now rewrite H'.
Qed.

End ChildSets.

Lemma add_study_set_laws_witness :
  Patient_add_study (E := Demo.externals) (fun A => @rev A)
    [Demo.study_a; Demo.study_b] Demo.study_a'
  = [Demo.study_a; Demo.study_b] /\
  Permutation
    (Patient_add_study (E := Demo.externals) (fun A => @rev A)
       [Demo.study_a; Demo.study_b] Demo.study_c)
    [Demo.study_c; Demo.study_a; Demo.study_b] /\
  Patient_add_study (E := Demo.externals) (fun A => @rev A)
    [Demo.study_a; Demo.study_b] Demo.study_c
  = [Demo.study_c; Demo.study_b; Demo.study_a].
Proof.
  assert (Horder : forall (A : Type) (l : list A), Permutation (rev l) l)
    by (intros A l; apply Permutation_sym, Permutation_rev).
  destruct (@add_study_set_laws Demo.externals (fun A => @rev A) Horder
              [Demo.study_a; Demo.study_b] Demo.study_a') as (Hheld & _).
  destruct (@add_study_set_laws Demo.externals (fun A => @rev A) Horder
              [Demo.study_a; Demo.study_b] Demo.study_c) as (_ & Hnew & _).
  split; [|split].
  - apply Hheld. exists Demo.study_a. repeat split. simpl. now left.
  - apply Hnew. intros held [<-|[<-|[]]]; discriminate.
  - reflexivity.
Defined.

Lemma add_series_set_laws_witness :
  Study_add_series (fun A => @rev A) (ImageCollection_hash (E := Demo.externals))
    Demo.world [1; 2]%nat 2%nat
  = [1; 2]%nat /\
  Permutation
    (Study_add_series (fun A => @rev A) (ImageCollection_hash (E := Demo.externals))
       Demo.world [1; 2]%nat 3%nat)
    [3; 1; 2]%nat.
Proof.
  assert (Horder : forall (A : Type) (l : list A), Permutation (rev l) l)
    by (intros A l; apply Permutation_sym, Permutation_rev).
  destruct (@add_series_set_laws Demo.externals (fun A => @rev A) Horder
              (ImageCollection_hash (E := Demo.externals)) Demo.world
              [1; 2]%nat 2%nat) as (Hheld & _).
  destruct (@add_series_set_laws Demo.externals (fun A => @rev A) Horder
              (ImageCollection_hash (E := Demo.externals)) Demo.world
              [1; 2]%nat 3%nat) as (_ & Hnew & _).
  split.
  - apply Hheld. exists 2%nat. split; [simpl; auto | reflexivity].
  - apply Hnew. intros held [<-|[<-|[]]]; vm_compute; discriminate.
Defined.

(** ** Display properties that raise *)

(** C7: evaluated where a lookup fails, for any defaults [base] of the
    base class.  Series 0 has no children: its [vmax], [vmin] and
    [pixel_size] raise the [IndexError] of the lookup and leave the store
    as it is.  Series 3 has two window centres: its [level] raises the
    [TypeError] of [float()].  None of the four asks the base class. *)
Theorem display_accessors_raise :
  forall base : display -> nat -> M (E := Demo.externals) (value Q),
    Series_vmax base (python 3) 0 Demo.world = Raise IndexError Demo.world /\
    Series_vmin base (python 3) 0 Demo.world = Raise IndexError Demo.world /\
    Series_pixel_size (E := Demo.externals) (python 3) 0 Demo.world
    = Raise IndexError Demo.world /\
    exists w',
      Series_level base (python 4) 3 Demo.world = Raise TypeError w'.
Proof.
  intros base.
  destruct (@Series_display_empty Demo.externals base 2 Demo.world 0 eq_refl)
    as (Hmax & Hmin & Hsize & _).
  split; [exact Hmax|]. split; [exact Hmin|]. split; [exact Hsize|].
  exists (world_after (Series_level base (python 4) 3 Demo.world) Demo.world).
  raise_after.
Qed.

(** ** Raw arrays of instances, frame views and standalone *)

Section InstanceRawArray.
Context {E : Externals}.

(** A standalone instance whose file does not decode has no raw array. *)
Lemma Instance_raw_array_fails d w self e :
  is_frame (instance_at w self) = false ->
  i_loaded (instance_at w self) = false ->
  dcmread (i_filepath (instance_at w self)) = inl e ->
  Instance_raw_array (python (S d)) self w = Raise e w.
Proof.
  intros Hf Hl Hd.
  pose proof (Instance_load_fails (python d) w self Hf Hl Hd) as Hload.
  unfold Instance_raw_array, Instance_ensure_loaded. run. rewrite Hl.
  simpl. now rw Hload.
Qed.


End InstanceRawArray.



(** ** Rescaled arrays of every kind of node *)

Section RescaleLaw.
Context {E : Externals}.

Lemma is_axis_nd_map h (a : ndarray float) : is_axis (nd_map h a) = is_axis a.
Proof. now destruct a. Qed.

Lemma nd_shape_nd_map h : forall a : ndarray float, nd_shape (nd_map h a) = nd_shape a.
Proof.
  fix IH 1. intros [x|l]; simpl; [reflexivity|].
  rewrite length_map. f_equal.
  destruct l as [|y l]; simpl; [reflexivity | apply IH].
Qed.

Lemma nd_items_nd_map h (a : ndarray float) :
  nd_items (nd_map h a) = map (nd_map h) (nd_items a).
Proof. now destruct a. Qed.

Lemma flat_map_items_nd_map h (l : list (ndarray float)) :
  flat_map nd_items (map (nd_map h) l) = map (nd_map h) (flat_map nd_items l).
Proof.
  induction l as [|a l IH]; simpl; [reflexivity|].
  now rewrite map_app, IH, nd_items_nd_map.
Qed.

Lemma forallb_over_map A B (f : B -> bool) (g : A -> B) l :
  forallb f (map g l) = forallb (fun x => f (g x)) l.
Proof. induction l as [|x l IH]; simpl; [reflexivity | now rewrite IH]. Qed.

Lemma forallb_pointwise A (f g : A -> bool) l :
  (forall x, f x = g x) -> forallb f l = forallb g l.
Proof.
  intros H. induction l as [|x l IH]; simpl; [reflexivity | now rewrite H, IH].
Qed.

(** An elementwise map goes through [np.concatenate]. *)
Lemma np_concatenate_nd_map h (l : list (ndarray float)) :
  np_concatenate (map (nd_map h) l)
  = match np_concatenate l with
    | inr a => inr (nd_map h a)
    | inl e => inl e
    end.
Proof.
  destruct l as [|a l]; [reflexivity|].
  unfold np_concatenate. cbn [map].
  change (nd_map h a :: map (nd_map h) l) with (map (nd_map h) (a :: l)).
  rewrite forallb_over_map.
  rewrite (forallb_pointwise
             (fun b => is_axis (nd_map h b)
                       && shape_eqb (tl (nd_shape (nd_map h a)))
                                    (tl (nd_shape (nd_map h b))))
             (fun b => is_axis b && shape_eqb (tl (nd_shape a)) (tl (nd_shape b)))).
  2:{ intros b. now rewrite is_axis_nd_map, !nd_shape_nd_map. }
  destruct (forallb _ (a :: l)); [|reflexivity].
  rewrite flat_map_items_nd_map. reflexivity.
Qed.

(** Widening and rescaling is one elementwise map. *)
Lemma rescale_with_nd_map t :
  exists h, forall x : ndarray float,
      rescale_with t (astype_float x) = nd_map h x.
Proof.
  destruct t as [[a b]|].
  - eexists. intros x. unfold rescale_with, rescale, astype_float.
    rewrite nd_map_map. reflexivity.
  - eexists. intros x. reflexivity.
Qed.

(** [get_tag] on a standalone instance that is loaded with a dataset. *)
Lemma Instance_get_tag_of_dataset d w i tag ds :
  is_frame (instance_at w i) = false ->
  i_loaded (instance_at w i) = true ->
  i_dicom (instance_at w i) = Some ds ->
  Instance_get_tag (python (S d)) i tag w = lift (get_tag ds tag None) w.
Proof.
  intros Hf Hl Hd.
  unfold Instance_get_tag. unfold bind at 1, read_instance at 1.
  rewrite Hl. cbn [negb]. unfold bind at 1, ret at 1.
  unfold bind at 1, read_instance at 1. rewrite Hf.
  unfold bind at 1. unfold bind at 1.
  change (call_Instance_dicom_dataset (python (S d)) i w)
    with (Instance_dicom_dataset (python d) i w).
  rewrite (Instance_dicom_dataset_loaded (python d) w i Hf Hl), Hd.
  destruct (get_tag ds tag None); reflexivity.
Qed.

(** The array of a loaded standalone instance of one sample per pixel. *)
Lemma Instance_array_of_child d w i px t :
  single_sample_child w i px t ->
  Instance_array (python (S (S d))) i w
  = Ok (rescale_with t (astype_float (np_array_1 px))) w.
Proof.
  intros (Hf & Hl & ds & Hd & Hp & (spp & Hspp & H1) & Ht).
  assert (Hget : forall tag,
             call_Instance_get_tag (python (S (S d))) i tag w
             = lift (get_tag ds tag None) w).
  { intros tag.
    change (call_Instance_get_tag (python (S (S d))) i tag w)
      with (Instance_get_tag (python (S d)) i tag w).
    now apply Instance_get_tag_of_dataset. }
  rewrite (@Instance_array_single_sample E (S (S d)) w i w (np_array_1 px) w spp w);
    try assumption.
  - destruct t as [[a b]|]; simpl in Ht.
    + destruct Ht as [Hs Hi].
      apply (@rescaled_both E _ (fun tag => call_Instance_get_tag (python (S (S d))) i tag)
               w a w b w).
      * rewrite Hget, Hs. reflexivity.
      * rewrite Hget, Hi. reflexivity.
    + destruct Ht as [Hs | (v & Hs & Hi)].
      * apply (@rescaled_no_slope E _
                 (fun tag => call_Instance_get_tag (python (S (S d))) i tag) w w).
        rewrite Hget, Hs. reflexivity.
      * apply (@rescaled_no_intercept E _
                 (fun tag => call_Instance_get_tag (python (S (S d))) i tag) w v w w).
        -- rewrite Hget, Hs. reflexivity.
        -- rewrite Hget, Hi. reflexivity.
  - unfold Instance_ensure_loaded. unfold bind, read_instance. now rewrite Hl.
  - change (call_Instance_raw_array (python (S (S d))) i w)
      with (Instance_raw_array (python (S d)) i w).
    now apply (Instance_raw_array_standalone (python (S d)) w i Hf Hl Hd).
  - rewrite Hget, Hspp. reflexivity.
Qed.

Lemma map_array_of_children d w l
    (children : list (ndarray float * option (number float * number float))) :
  Forall2 (fun i c => single_sample_child w i (fst c) (snd c)) l children ->
  map_M (fun i => call_Instance_array (python (S (S (S d)))) i) l w
  = Ok (map (fun c => rescale_with (snd c) (astype_float (np_array_1 (fst c))))
            children) w.
Proof.
  intros Hall. induction Hall as [|i c l children Hi _ IH]; cbn [map_M map].
  - reflexivity.
  - unfold bind at 1.
    change (call_Instance_array (python (S (S (S d)))) i w)
      with (Instance_array (python (S (S d))) i w).
    rewrite (Instance_array_of_child d Hi).
    unfold bind at 1. rewrite IH. reflexivity.
Qed.

Lemma children_raw d w l
    (children : list (ndarray float * option (number float * number float))) :
  Forall2 (fun i c => single_sample_child w i (fst c) (snd c)) l children ->
  map_M (fun i => call_Instance_raw_array (python (S d)) i) l w
  = Ok (map np_array_1 (map fst children)) w.
Proof.
  intros Hall. apply map_raw_array_standalone.
  induction Hall as [|i c l children Hi _ IH]; cbn [map]; constructor.
  - destruct Hi as (Hf & Hl & ds & Hd & Hp & _). eauto.
  - exact IH.
Qed.

(** C1: with [arr] the [raw_array] read once the node is loaded and the
    SamplesPerPixel of the node being 1.  For a stack Series and for a
    standalone Instance: when RescaleSlope and RescaleIntercept both
    resolve, to numbers [a] and [b], [array] is the float-widened [arr]
    times [a] plus [b], elementwise; when the lookup of either tag raises
    [KeyError], [array] is the float-widened [arr] itself.  For a Series
    that is no stack and whose children, once it is loaded, are
    standalone instances of one sample per pixel: [array] concatenates,
    in sort order, the float-widened pixel array of every child, rescaled
    with the tags of that child's own dataset; so when every child
    carries the same tags, [array] is the float-widened [raw_array] of
    the Series rescaled with them, or that array itself when no child
    carries them. *)
Theorem array_rescale_or_raw :
  forall (d : nat) (w : World) (self : nat),
    (forall w1 arr w2 spp w3,
        is_stack (series_at w self) = true ->
        Series_ensure_loaded (python d) self w = Ok tt w1 ->
        call_Series_raw_array (python d) self w1 = Ok arr w2 ->
        call_Series_get_tag (python d) self SamplesPerPixel 0 w2 = Ok spp w3 ->
        value_eq_int spp 1 = true ->
        (forall a w4 b w5,
            call_Series_get_tag (python d) self RescaleSlope 0 w3 = Ok (VNum a) w4 ->
            call_Series_get_tag (python d) self RescaleIntercept 0 w4 = Ok (VNum b) w5 ->
            Series_array (python d) self w = Ok (rescale a b (astype_float arr)) w5) /\
        (forall w4,
            call_Series_get_tag (python d) self RescaleSlope 0 w3 = Raise KeyError w4 ->
            Series_array (python d) self w = Ok (astype_float arr) w4) /\
        (forall v w4 w5,
            call_Series_get_tag (python d) self RescaleSlope 0 w3 = Ok v w4 ->
            call_Series_get_tag (python d) self RescaleIntercept 0 w4 = Raise KeyError w5 ->
            Series_array (python d) self w = Ok (astype_float arr) w5)) /\
    (forall w1 arr w2 spp w3,
        is_frame (instance_at w self) = false ->
        Instance_ensure_loaded (python d) self w = Ok tt w1 ->
        call_Instance_raw_array (python d) self w1 = Ok arr w2 ->
        call_Instance_get_tag (python d) self SamplesPerPixel w2 = Ok spp w3 ->
        value_eq_int spp 1 = true ->
        (forall a w4 b w5,
            call_Instance_get_tag (python d) self RescaleSlope w3 = Ok (VNum a) w4 ->
            call_Instance_get_tag (python d) self RescaleIntercept w4 = Ok (VNum b) w5 ->
            Instance_array (python d) self w = Ok (rescale a b (astype_float arr)) w5) /\
        (forall w4,
            call_Instance_get_tag (python d) self RescaleSlope w3 = Raise KeyError w4 ->
            Instance_array (python d) self w = Ok (astype_float arr) w4) /\
        (forall v w4 w5,
            call_Instance_get_tag (python d) self RescaleSlope w3 = Ok v w4 ->
            call_Instance_get_tag (python d) self RescaleIntercept w4 = Raise KeyError w5 ->
            Instance_array (python d) self w = Ok (astype_float arr) w5)) /\
    (forall w1 (children : list (ndarray float
                                 * option (number float * number float))),
        is_stack (series_at w self) = false ->
        Series_ensure_loaded (python (S (S (S d)))) self w = Ok tt w1 ->
        Forall2 (fun i c => single_sample_child w1 i (fst c) (snd c))
                (Series_instances w self) children ->
        Series_array (python (S (S (S d)))) self w
        = lift (np_concatenate
                  (map (fun c => rescale_with (snd c)
                                   (astype_float (np_array_1 (fst c))))
                       children)) w1 /\
        Series_raw_array (python (S (S (S d)))) self w
        = lift (np_concatenate (map np_array_1 (map fst children))) w1 /\
        (forall t raw,
            (forall c, In c children -> snd c = t) ->
            Series_raw_array (python (S (S (S d)))) self w = Ok raw w1 ->
            Series_array (python (S (S (S d)))) self w
            = Ok (rescale_with t (astype_float raw)) w1)).
Proof.
  intros d w self. split; [|split].
  - intros w1 arr w2 spp w3 Hst Hload Hraw Hspp H1.
    rewrite (Series_array_single_sample _ _ _ Hst Hload Hraw Hspp H1).
    repeat split; intros.
    + eapply rescaled_both; eauto.
    + eapply rescaled_no_slope; eauto.
    + eapply rescaled_no_intercept; eauto.
  - intros w1 arr w2 spp w3 Hf Hload Hraw Hspp H1.
    rewrite (Instance_array_single_sample _ _ _ Hf Hload Hraw Hspp H1).
    repeat split; intros.
    + eapply (rescaled_both _ (fun tag => call_Instance_get_tag (python d) self tag)); eauto.
    + eapply (rescaled_no_slope _ (fun tag => call_Instance_get_tag (python d) self tag)); eauto.
    + eapply (rescaled_no_intercept _ (fun tag => call_Instance_get_tag (python d) self tag)); eauto.
  - intros w1 children Hst Hload Hall.
    pose proof (stable_Ok _ (stable_Series_ensure_loaded _ self) Hload) as Hsame.
    assert (Harr : Series_array (python (S (S (S d)))) self w
                   = lift (np_concatenate
                             (map (fun c => rescale_with (snd c)
                                              (astype_float (np_array_1 (fst c))))
                                  children)) w1).
    { apply (@Series_array_non_stack E _ w self w1 _ w1 Hst Hload).
      now apply map_array_of_children. }
    assert (Hraw : Series_raw_array (python (S (S (S d)))) self w
                   = lift (np_concatenate (map np_array_1 (map fst children))) w1).
    { unfold Series_raw_array. unfold bind at 1. rewrite Hload.
      unfold bind at 1, read_series at 1.
      rewrite (same_identity_is_stack self Hsame), Hst.
      unfold bind at 1, read at 1.
      rewrite (same_identity_instances self Hsame).
      unfold bind at 1.
      now rewrite (children_raw (S (S d)) Hall). }
    split; [exact Harr|]. split; [exact Hraw|].
    intros t raw Ht Hrawok.
    rewrite Hraw in Hrawok. rewrite Harr.
    destruct (rescale_with_nd_map t) as [h Hh].
    assert (Hmap : map (fun c => rescale_with (snd c)
                                   (astype_float (np_array_1 (fst c)))) children
                   = map (nd_map h) (map np_array_1 (map fst children))).
    { rewrite !map_map. apply map_ext_in. intros c Hc.
      rewrite (Ht c Hc). apply Hh. }
    rewrite Hmap, np_concatenate_nd_map.
    destruct (np_concatenate (map np_array_1 (map fst children))) as [e|raw'];
      simpl in Hrawok; [discriminate|].
    injection Hrawok as ->. simpl. now rewrite Hh.
Qed.

End RescaleLaw.

Lemma array_rescale_or_raw_witness :
  (exists w',
     Series_array (E := Demo.externals) (python 4) 1 Demo.world
     = Ok (Axis [Axis [Axis [Scalar (PyFloat (inject_Z (-78)))]];
                 Axis [Axis [Scalar (PyFloat (inject_Z (-76)))]];
                 Axis [Axis [Scalar (PyFloat (inject_Z (-74)))]];
                 Axis [Axis [Scalar (PyFloat (inject_Z (-72)))]];
                 Axis [Axis [Scalar (PyFloat (inject_Z (-70)))]]]) w') /\
  (exists w',
     Instance_array (E := Demo.externals) (python 3) 0 Demo.world
     = Ok (Axis [Axis [Axis [Scalar (PyFloat (inject_Z 200))]]]) w') /\
  (exists w',
     Instance_array (E := Demo.externals) (python 3) 1 Demo.world
     = Ok (Axis [Axis [Axis [Scalar (PyFloat (inject_Z 150))]]]) w') /\
  (exists w',
     Series_raw_array (E := Demo.externals) (python 3) 0 Demo.uniform_world
     = Ok (Axis [Demo.image 150; Demo.image 150]) w' /\
     Series_array (E := Demo.externals) (python 3) 0 Demo.uniform_world
     = Ok (Axis [Axis [Axis [Scalar (PyFloat (inject_Z 200))]];
                 Axis [Axis [Scalar (PyFloat (inject_Z 200))]]]) w') /\
  (exists w',
     Series_array (E := Demo.externals) (python 3) 0 Demo.mixed_world
     = Ok (Axis [Axis [Axis [Scalar (PyFloat (inject_Z 200))]];
                 Axis [Axis [Scalar (PyFloat (inject_Z 150))]]]) w').
Proof.
  split; [|split; [|split; [|split]]].
  - pose (w1 := world_after (Series_ensure_loaded (E := Demo.externals)
                               (python 4) 1 Demo.world) Demo.world).
    pose (w2 := world_after (call_Series_raw_array (E := Demo.externals)
                               (python 4) 1 w1) w1).
    pose (w3 := world_after (call_Series_get_tag (E := Demo.externals)
                               (python 4) 1 SamplesPerPixel 0 w2) w2).
    pose (w4 := world_after (call_Series_get_tag (E := Demo.externals)
                               (python 4) 1 RescaleSlope 0 w3) w3).
    pose (w5 := world_after (call_Series_get_tag (E := Demo.externals)
                               (python 4) 1 RescaleIntercept 0 w4) w4).
    destruct (proj1 (array_rescale_or_raw (E := Demo.externals) 4 Demo.world 1)
                w1 (Demo.pixels Demo.stack) w2 (Demo.int 1) w3)
      as [Hboth _];
      [reflexivity | ok_after | ok_after | ok_after | reflexivity |].
    exists w5.
    rewrite (Hboth (PyInt 2) w4 (PyInt (-100)) w5) by ok_after.
    apply (f_equal (fun a => Ok a w5)). vm_compute. reflexivity.
  - pose (w1 := world_after (Instance_ensure_loaded (E := Demo.externals)
                               (python 3) 0 Demo.world) Demo.world).
    pose (w2 := world_after (call_Instance_raw_array (E := Demo.externals)
                               (python 3) 0 w1) w1).
    pose (w3 := world_after (call_Instance_get_tag (E := Demo.externals)
                               (python 3) 0 SamplesPerPixel w2) w2).
    pose (w4 := world_after (call_Instance_get_tag (E := Demo.externals)
                               (python 3) 0 RescaleSlope w3) w3).
    pose (w5 := world_after (call_Instance_get_tag (E := Demo.externals)
                               (python 3) 0 RescaleIntercept w4) w4).
    destruct (proj1 (proj2 (array_rescale_or_raw (E := Demo.externals) 3 Demo.world 0))
                w1 (Axis [Demo.pixels Demo.mr]) w2 (Demo.int 1) w3)
      as [Hboth _];
      [reflexivity | ok_after | ok_after | ok_after | reflexivity |].
    exists w5.
    rewrite (Hboth (PyInt 2) w4 (PyInt (-100)) w5) by ok_after.
    apply (f_equal (fun a => Ok a w5)). vm_compute. reflexivity.
  - pose (w1 := world_after (Instance_ensure_loaded (E := Demo.externals)
                               (python 3) 1 Demo.world) Demo.world).
    pose (w2 := world_after (call_Instance_raw_array (E := Demo.externals)
                               (python 3) 1 w1) w1).
    pose (w3 := world_after (call_Instance_get_tag (E := Demo.externals)
                               (python 3) 1 SamplesPerPixel w2) w2).
    pose (w4 := world_after (call_Instance_get_tag (E := Demo.externals)
                               (python 3) 1 RescaleSlope w3) w3).
    destruct (proj1 (proj2 (array_rescale_or_raw (E := Demo.externals) 3 Demo.world 1))
                w1 (Axis [Demo.pixels Demo.plain]) w2 (Demo.int 1) w3)
      as [_ [Hnone _]];
      [reflexivity | ok_after | ok_after | ok_after | reflexivity |].
    exists w4.
    rewrite (Hnone w4) by raise_after.
    apply (f_equal (fun a => Ok a w4)). vm_compute. reflexivity.
  - pose (w1 := world_after (Series_ensure_loaded (E := Demo.externals)
                               (python 3) 0 Demo.uniform_world)
                            Demo.uniform_world).
    assert (Hload : Series_ensure_loaded (E := Demo.externals) (python 3) 0
                      Demo.uniform_world = Ok tt w1) by ok_after.
    assert (Hkids : Forall2
                      (fun i c => single_sample_child (E := Demo.externals)
                                    w1 i (fst c) (snd c))
                      (Series_instances Demo.uniform_world 0)
                      [(Demo.image 150, Some (PyInt 2, PyInt (-100)));
                       (Demo.image 150, Some (PyInt 2, PyInt (-100)))]).
    { change (Series_instances Demo.uniform_world 0) with [21; 23]%nat.
      repeat constructor; try (exists Demo.mr; repeat split);
        try (exists (Demo.int 1); split); vm_compute; reflexivity. }
    destruct (proj2 (proj2 (array_rescale_or_raw (E := Demo.externals) 0
                              Demo.uniform_world 0))
                w1 _ eq_refl Hload Hkids) as (_ & Hraw & Hlaw).
    assert (Hraw' : Series_raw_array (E := Demo.externals) (python 3) 0
                      Demo.uniform_world
                    = Ok (Axis [Demo.image 150; Demo.image 150]) w1)
      by (rewrite Hraw; reflexivity).
    exists w1. split; [exact Hraw'|].
    rewrite (Hlaw (Some (PyInt 2, PyInt (-100))) _) with (2 := Hraw').
    + apply (f_equal (fun a => Ok a w1)). vm_compute. reflexivity.
    + intros c [<-|[<-|[]]]; reflexivity.
  - pose (w1 := world_after (Series_ensure_loaded (E := Demo.externals)
                               (python 3) 0 Demo.mixed_world)
                            Demo.mixed_world).
    assert (Hload : Series_ensure_loaded (E := Demo.externals) (python 3) 0
                      Demo.mixed_world = Ok tt w1) by ok_after.
    assert (Hkids : Forall2
                      (fun i c => single_sample_child (E := Demo.externals)
                                    w1 i (fst c) (snd c))
                      (Series_instances Demo.mixed_world 0)
                      [(Demo.image 150, Some (PyInt 2, PyInt (-100)));
                       (Demo.image 150, None)]).
    { change (Series_instances Demo.mixed_world 0) with [21; 22]%nat.
      constructor; [|constructor; [|constructor]].
      - repeat split; try (exists Demo.mr; repeat split);
          try (exists (Demo.int 1); split); vm_compute; reflexivity.
      - split; [reflexivity|]. split; [reflexivity|].
        exists Demo.plain. split; [reflexivity|]. split; [reflexivity|].
        split; [exists (Demo.int 1); split; reflexivity|].
        left. reflexivity. }
    destruct (proj2 (proj2 (array_rescale_or_raw (E := Demo.externals) 0
                              Demo.mixed_world 0))
                w1 _ eq_refl Hload Hkids) as (Harr & _).
    exists w1. rewrite Harr.
    apply (f_equal (fun a => Ok a w1)). vm_compute. reflexivity.
Defined.

(** C1 as stated fails on a Series that is no stack and whose instances
    carry different rescale tags.  Series 0 holds instance 21, of slope 2
    and intercept -100, and instance 22, without rescale tags, both of
    pixel value 150 and one sample per pixel.  Both tags resolve for the
    Series, at its current slice; yet [array] is 200 for the first slice
    and 150 for the second, while the float-widened [raw_array] times the
    slope plus the intercept is 200 for both. *)
Lemma array_of_mixed_series_is_per_instance :
  outcome (Series_get_tag (E := Demo.externals) (python 3) 0 SamplesPerPixel 0
             Demo.mixed_world)
  = Some (inr (Demo.int 1)) /\
  outcome (Series_get_tag (E := Demo.externals) (python 3) 0 RescaleSlope 0
             Demo.mixed_world)
  = Some (inr (Demo.int 2)) /\
  outcome (Series_get_tag (E := Demo.externals) (python 3) 0 RescaleIntercept 0
             Demo.mixed_world)
  = Some (inr (Demo.int (-100))) /\
  outcome (Series_raw_array (E := Demo.externals) (python 3) 0 Demo.mixed_world)
  = Some (inr (Axis [Demo.image 150; Demo.image 150])) /\
  outcome (Series_array (E := Demo.externals) (python 3) 0 Demo.mixed_world)
  = Some (inr (Axis [Axis [Axis [Scalar (PyFloat (inject_Z 200))]];
                     Axis [Axis [Scalar (PyFloat (inject_Z 150))]]])) /\
  rescale (E := Demo.externals) (PyInt 2) (PyInt (-100))
    (astype_float (E := Demo.externals) (Axis [Demo.image 150; Demo.image 150]))
  = Axis [Axis [Axis [Scalar (PyFloat (inject_Z 200))]];
          Axis [Axis [Scalar (PyFloat (inject_Z 200))]]].
Proof.
  split; [vm_compute; reflexivity|]. split; [vm_compute; reflexivity|].
  split; [vm_compute; reflexivity|]. split; [vm_compute; reflexivity|].
  split; vm_compute; reflexivity.
Qed.
